(** * IELTS speaking practice agent: session lifecycle and channel state

    A shallow embedding of the client services of the application
    (the reconnecting WebSocket channel and its listener registry, the
    ElevenLabs conversation session manager, the ElevenLabs speech
    client, the practice screens and the application shell) and of the
    conversation function of the backend, followed by the properties
    that are settled on it.

    Conventions of the embedding.
    - A method of a service class is a function on the record of the
      class fields.  Methods that may throw live in the monad [Js.M]:
      state passing with an exception result, where the state reached
      before a [throw] is kept (JavaScript does not roll back).
    - Every [await] of an external call (fetch, the expo-av audio
      device) takes its settled promise from an environment record, so
      each method is a total function of its state and environment.
      The one rule of the device that the services rely on, a single
      prepared recording at a time, is stated in [Recorder].
    - Values that reach the code untyped (an inbound frame, the stored
      profile text) are modelled as far as the code reads them,
      [null] and missing fields included.
    - [a || b] on strings is [Js.or_else]: [undefined] and the empty
      string are both falsy. *)

From stdpp Require Import base list strings gmap.
From Stdlib Require Import ZArith Lia.

Local Open Scope Z_scope.
Local Open Scope string_scope.
Local Open Scope list_scope.
Local Open Scope nat_scope.

(* ===================================================================== *)
(** ** JavaScript control flow: exceptions, promises, truthiness         *)
(* ===================================================================== *)

Module Js.

(** A thrown value; every throw site of the services throws
    [new Error(message)], external rejections carry their own. *)
Inductive exn : Type :=
| Error (message : string).

Inductive result (A : Type) : Type :=
| Ok (a : A)
| Throw (e : exn).
Arguments Ok {A} a.
Arguments Throw {A} e.

(** A settled promise returned by an external call. *)
Inductive outcome (A : Type) : Type :=
| Resolves (a : A)
| Rejects (e : exn).
Arguments Resolves {A} a.
Arguments Rejects {A} e.

Definition M (S A : Type) : Type := S -> result A * S.

Definition ret {S A} (a : A) : M S A := fun s => (Ok a, s).

Definition bind {S A B} (m : M S A) (k : A -> M S B) : M S B :=
  fun s =>
    match m s with
    | (Ok a, s') => k a s'
    | (Throw e, s') => (Throw e, s')
    end.

Definition throw {S A} (e : exn) : M S A := fun s => (Throw e, s).

Definition await {S A} (p : outcome A) : M S A :=
  fun s =>
    match p with
    | Resolves a => (Ok a, s)
    | Rejects e => (Throw e, s)
    end.

Definition get {S} : M S S := fun s => (Ok s, s).

Definition modify {S} (f : S -> S) : M S unit := fun s => (Ok tt, f s).

(** [try { body } catch (error) { handler error }] *)
Definition try_catch {S A} (body : M S A) (handler : exn -> M S A) : M S A :=
  fun s =>
    match body s with
    | (Ok a, s') => (Ok a, s')
    | (Throw e, s') => handler e s'
    end.

(** [if (c) { m }] *)
Definition when {S} (c : bool) (m : M S unit) : M S unit :=
  if c then m else ret tt.

(** Truthiness of an optional string: [undefined] and [''] are falsy. *)
Definition truthy (v : option string) : bool :=
  match v with
  | Some EmptyString => false
  | Some (String _ _) => true
  | None => false
  end.

(** [v || d] for an optional string [v] and a string [d]. *)
Definition or_else (v : option string) (d : string) : string :=
  match v with
  | Some (String c r) => String c r
  | _ => d
  end.

End Js.

Declare Scope js_scope.
Delimit Scope js_scope with js.
Notation "x <- c ;; k" := (Js.bind c (fun x => k))
  (at level 100, c at next level, right associativity) : js_scope.
Notation "c ;;; k" := (Js.bind c (fun _ => k))
  (at level 100, right associativity) : js_scope.

(* ===================================================================== *)
(** ** services/WebSocketService.ts                                      *)
(* ===================================================================== *)

Module WebSocketService.

Inductive ReadyState : Type :=
| CONNECTING
| OPEN
| CLOSING
| CLOSED.

(** [interface WebSocketMessage]; [data] is the JSON text of the
    payload. *)
Record WebSocketMessage : Type := {
  type : string;
  data : string;
  timestamp : option Z;
}.

(** The fields of the class, together with the part of the outside
    world its methods act on.  A [WebSocket] object is a handle into
    [sockets], which holds the [readyState] of every socket
    constructed so far; [wire] lists the frames handed to
    [socket.send], oldest first; [timers] lists the pending
    [setTimeout] calls as (delay, url); [ticks] counts the readings
    of [Date.now()].  The listener map is left out: no method below
    reads it. *)
Record State : Type := {
  sockets : list ReadyState;
  wire : list (nat * WebSocketMessage);
  timers : list (nat * string);
  ticks : nat;
  socket : option nat;
  reconnectAttempts : nat;
  maxReconnectAttempts : nat;
  reconnectDelay : nat;
  messageQueue : list WebSocketMessage;
}.

Definition set_sockets (v : list ReadyState) (s : State) : State :=
  {| sockets := v; wire := wire s; timers := timers s; ticks := ticks s;
     socket := socket s; reconnectAttempts := reconnectAttempts s;
     maxReconnectAttempts := maxReconnectAttempts s;
     reconnectDelay := reconnectDelay s; messageQueue := messageQueue s |}.

Definition set_timers (v : list (nat * string)) (s : State) : State :=
  {| sockets := sockets s; wire := wire s; timers := v; ticks := ticks s;
     socket := socket s; reconnectAttempts := reconnectAttempts s;
     maxReconnectAttempts := maxReconnectAttempts s;
     reconnectDelay := reconnectDelay s; messageQueue := messageQueue s |}.

Definition set_socket (v : option nat) (s : State) : State :=
  {| sockets := sockets s; wire := wire s; timers := timers s; ticks := ticks s;
     socket := v; reconnectAttempts := reconnectAttempts s;
     maxReconnectAttempts := maxReconnectAttempts s;
     reconnectDelay := reconnectDelay s; messageQueue := messageQueue s |}.

Definition set_reconnectAttempts (v : nat) (s : State) : State :=
  {| sockets := sockets s; wire := wire s; timers := timers s; ticks := ticks s;
     socket := socket s; reconnectAttempts := v;
     maxReconnectAttempts := maxReconnectAttempts s;
     reconnectDelay := reconnectDelay s; messageQueue := messageQueue s |}.

Definition set_messageQueue (v : list WebSocketMessage) (s : State) : State :=
  {| sockets := sockets s; wire := wire s; timers := timers s; ticks := ticks s;
     socket := socket s; reconnectAttempts := reconnectAttempts s;
     maxReconnectAttempts := maxReconnectAttempts s;
     reconnectDelay := reconnectDelay s; messageQueue := v |}.

(** The state of a freshly constructed service (the field
    initialisers of the class). *)
Definition new : State :=
  {| sockets := []; wire := []; timers := []; ticks := 0;
     socket := None; reconnectAttempts := 0;
     maxReconnectAttempts := 5; reconnectDelay := 1000;
     messageQueue := [] |}.

Section Clock.

(** [Date_now k] is the value of the [k]-th reading of [Date.now()]. *)
Variable Date_now : nat -> Z.

(** [this.socket && this.socket.readyState === WebSocket.OPEN] *)
Definition socket_open (s : State) : bool :=
  match socket s with
  | Some h =>
      match sockets s !! h with
      | Some OPEN => true
      | _ => false
      end
  | None => false
  end.

(** [socket.send(JSON.stringify({...message, timestamp: Date.now()}))] *)
Definition transmit (h : nat) (message : WebSocketMessage) (s : State) : State :=
  {| sockets := sockets s;
     wire := wire s ++ [(h, {| type := type message; data := data message;
                               timestamp := Some (Date_now (ticks s)) |})];
     timers := timers s; ticks := S (ticks s);
     socket := socket s; reconnectAttempts := reconnectAttempts s;
     maxReconnectAttempts := maxReconnectAttempts s;
     reconnectDelay := reconnectDelay s; messageQueue := messageQueue s |}.

Definition send (message : WebSocketMessage) (s : State) : State :=
  match socket s with
  | Some h =>
      match sockets s !! h with
      | Some OPEN => transmit h message s
      | _ => set_messageQueue (messageQueue s ++ [message]) s
      end
  | None => set_messageQueue (messageQueue s ++ [message]) s
  end.

(** The [while] loop of [flushMessageQueue]; it need not terminate
    (a message sent while the socket is not open goes back to the
    queue), so the loop is bounded by [fuel] and [None] means that
    the bound was reached. *)
Fixpoint flushMessageQueue (fuel : nat) (s : State) : option State :=
  match messageQueue s with
  | [] => Some s
  | message :: rest =>
      match fuel with
      | O => None
      | S fuel' => flushMessageQueue fuel' (send message (set_messageQueue rest s))
      end
  end.

(** [connect(url)]: the body of the promise executor up to the
    installation of the handlers.  The new socket is the next
    handle of [sockets] and starts in [CONNECTING]. *)
Definition connect (url : string) (s : State) : State :=
  set_socket (Some (length (sockets s))) (set_sockets (sockets s ++ [CONNECTING]) s).

Definition attemptReconnect (url : string) (s : State) : State :=
  if reconnectAttempts s <? maxReconnectAttempts s then
    let s' := set_reconnectAttempts (S (reconnectAttempts s)) s in
    set_timers (timers s' ++ [(reconnectDelay s' * reconnectAttempts s', url)]) s'
  else s.

(** The handlers installed by [connect(url)]. *)
Definition onopen (fuel : nat) (s : State) : option State :=
  flushMessageQueue fuel (set_reconnectAttempts 0 s).

Definition onclose (url : string) (s : State) : State :=
  attemptReconnect url (set_socket None s).

(** [onerror] logs and rejects the promise of [connect]; the fields
    are untouched. *)
Definition onerror (s : State) : State := s.

(** The callback of the timer set by [attemptReconnect]. *)
Definition timeout (s : State) : State :=
  match timers s with
  | [] => s
  | (_, url) :: rest => connect url (set_timers rest s)
  end.

Definition disconnect (s : State) : State :=
  let s1 :=
    match socket s with
    | Some h => set_socket None (set_sockets (<[h := CLOSING]> (sockets s)) s)
    | None => s
    end in
  set_reconnectAttempts 0 (set_messageQueue [] s1).

Definition isConnected (s : State) : bool := socket_open s.

Definition getConnectionState (s : State) : string :=
  match socket s with
  | None => "disconnected"
  | Some h =>
      match sockets s !! h with
      | Some CONNECTING => "connecting"
      | Some OPEN => "connected"
      | Some CLOSING => "closing"
      | Some CLOSED => "disconnected"
      | None => "unknown"
      end
  end.

(** Events of the transport, as the environment delivers them: the
    socket [h] changes its [readyState], then its handler runs. *)
Definition socket_opens (h : nat) (fuel : nat) (s : State) : option State :=
  onopen fuel (set_sockets (<[h := OPEN]> (sockets s)) s).

Definition socket_closes (h : nat) (url : string) (s : State) : State :=
  onclose url (set_sockets (<[h := CLOSED]> (sockets s)) s).

(** What can happen to the service while its channel is down:
    calls of [send] and [connect], sockets closing or failing, and
    reconnect timers firing. *)
Inductive offline_action : Type :=
| DoSend (message : WebSocketMessage)
| DoConnect (url : string)
| SocketCloses (h : nat) (url : string)
| SocketFails (h : nat)
| TimerFires.

Definition perform (a : offline_action) (s : State) : State :=
  match a with
  | DoSend message => send message s
  | DoConnect url => connect url s
  | SocketCloses h url => socket_closes h url s
  | SocketFails _ => onerror s
  | TimerFires => timeout s
  end.

Definition run (acts : list offline_action) (s : State) : State :=
  fold_left (fun s a => perform a s) acts s.

(** The messages passed to [send] by a list of actions, in call
    order. *)
Fixpoint sent_messages (acts : list offline_action) : list WebSocketMessage :=
  match acts with
  | [] => []
  | DoSend message :: rest => message :: sent_messages rest
  | _ :: rest => sent_messages rest
  end.

(** A message without its timestamp. *)
Definition payload (message : WebSocketMessage) : string * string :=
  (type message, data message).

(** The frames that socket [h] is handed when the messages [q] are
    transmitted one after the other from the [k]-th clock reading
    on. *)
Fixpoint frames (h k : nat) (q : list WebSocketMessage)
  : list (nat * WebSocketMessage) :=
  match q with
  | [] => []
  | message :: rest =>
      (h, {| type := type message; data := data message;
             timestamp := Some (Date_now k) |}) :: frames h (S k) rest
  end.

(** The [n]-th consecutive failure of the connection: the socket
    closes, and every reconnect attempt that follows fails in turn
    (its timer fires, the new socket closes without opening). *)
Fixpoint drops (url : string) (n : nat) (s : State) : State :=
  match n with
  | O => s
  | S n' =>
      let s' := timeout (drops url n' s) in
      match socket s' with
      | Some h => socket_closes h url s'
      | None => onclose url s'
      end
  end.

End Clock.

End WebSocketService.

(* ===================================================================== *)
(** ** services/ElevenLabsConversationService.ts                         *)
(* ===================================================================== *)

Module ElevenLabsConversationService.

Import Js.
Local Open Scope js_scope.

Inductive SessionStatus : Type :=
| active
| ended.

Record ConversationSession : Type := {
  conversationId : string;
  status : SessionStatus;
  startTime : Z;
  agentId : string;
}.

Inductive MessageType : Type :=
| user
| agent.

(** [interface ConversationMessage]; the identifier
    [`user_${Date.now()}`] is kept as its prefix and the clock
    reading. *)
Record ConversationMessage : Type := {
  id : string * Z;
  type : MessageType;
  content : string;
  timestamp : Z;
  audioUrl : option string;
}.

(** Objects of the audio device are handles. *)
Definition Recording : Type := nat.
Definition Sound : Type := nat.

(** The external calls a method makes, in the order it makes them. *)
Inductive Call : Type :=
| FetchAudio (audioUri : string)
| Post (action : string)
| RequestPermissions
| SetAudioMode
| PrepareToRecord (recording : Recording)
| StartAsync (recording : Recording)
| StopAndUnload (recording : Recording)
| SoundCreate (audioUrl : string)
| SoundPlay (sound : Sound)
| SoundUnload (sound : Sound).

(** The fields of the class and the log of its external calls. *)
Record State : Type := {
  currentSession : option ConversationSession;
  messages : list ConversationMessage;
  audioRecording : option Recording;
  audioSound : option Sound;
  calls : list Call;
}.

Definition set_currentSession (v : option ConversationSession) (s : State) : State :=
  {| currentSession := v; messages := messages s;
     audioRecording := audioRecording s; audioSound := audioSound s;
     calls := calls s |}.

Definition set_messages (v : list ConversationMessage) (s : State) : State :=
  {| currentSession := currentSession s; messages := v;
     audioRecording := audioRecording s; audioSound := audioSound s;
     calls := calls s |}.

Definition set_audioRecording (v : option Recording) (s : State) : State :=
  {| currentSession := currentSession s; messages := messages s;
     audioRecording := v; audioSound := audioSound s;
     calls := calls s |}.

Definition set_audioSound (v : option Sound) (s : State) : State :=
  {| currentSession := currentSession s; messages := messages s;
     audioRecording := audioRecording s; audioSound := v;
     calls := calls s |}.

Definition set_calls (v : list Call) (s : State) : State :=
  {| currentSession := currentSession s; messages := messages s;
     audioRecording := audioRecording s; audioSound := audioSound s;
     calls := v |}.

(** The exported instance, [new ElevenLabsConversationService()]. *)
Definition new : State :=
  {| currentSession := None; messages := []; audioRecording := None;
     audioSound := None; calls := [] |}.

(** [await c(...)] for an external call [c] settled as [p]. *)
Definition call {A} (c : Call) (p : outcome A) : M State A :=
  modify (fun s => set_calls (calls s ++ [c]) s) ;;; await p.

(** [this.messages.push(message)] *)
Definition push (message : ConversationMessage) : M State unit :=
  modify (fun s => set_messages (messages s ++ [message]) s).

(** The part of a fetch [Response] that the methods read. *)
Record Response : Type := {
  ok : bool;
  statusText : string;
}.

(** Reading a property of a JSON value that is [null] throws. *)
Definition property_of_null : exn :=
  Error "TypeError: Cannot read properties of null".

(** *** startConversation *)

Record StartReply : Type := {
  conversation_id : string;
  agent_id : string;
}.

(** [start_json] resolves to [None] when the body is JSON [null]. *)
Record StartEnv : Type := {
  start_fetch : outcome Response;
  start_json : outcome (option StartReply);
  start_now : Z;
}.

(** The request body (system prompt and user context) is not part of
    the state and is left out. *)
Definition startConversation (env : StartEnv) : M State ConversationSession :=
  try_catch
    (response <- call (Post "start_conversation") (start_fetch env) ;;
     if negb (ok response) then
       throw (Error ("Failed to start conversation: " ++ statusText response)%string)
     else
       data <- await (start_json env) ;;
       match data with
       | None => throw property_of_null
       | Some data =>
           let session :=
             {| conversationId := conversation_id data; status := active;
                startTime := start_now env; agentId := agent_id data |} in
           modify (set_currentSession (Some session)) ;;;
           modify (set_messages []) ;;;
           ret session
       end)
    (fun error => throw error).

(** *** playAgentResponse *)

Record PlayEnv : Type := {
  play_unload : outcome unit;
  play_create : outcome Sound;
  play_start : outcome unit;
}.

Definition playAgentResponse (audioUrl : string) (env : PlayEnv) : M State unit :=
  try_catch
    (s <- get ;;
     match audioSound s with
     | Some previous => call (SoundUnload previous) (play_unload env)
     | None => ret tt
     end ;;;
     sound <- call (SoundCreate audioUrl) (play_create env) ;;
     modify (set_audioSound (Some sound)) ;;;
     call (SoundPlay sound) (play_start env))
    (fun error => ret tt).

(** *** sendAudioMessage *)

Record SendReply : Type := {
  user_transcript : option string;
  agent_response : option string;
  agent_audio_url : option string;
}.

(** The awaited calls in program order: fetching the recording,
    reading its blob, encoding it, posting it, reading the reply
    ([None] for JSON [null]); then the four readings of
    [Date.now()] and the calls of [playAgentResponse]. *)
Record SendEnv : Type := {
  audio_fetch : outcome unit;
  audio_blob : outcome unit;
  audio_base64 : outcome string;
  send_fetch : outcome Response;
  send_json : outcome (option SendReply);
  send_now : nat -> Z;
  send_play : PlayEnv;
}.

Definition sendAudioMessage (audioUri : string) (env : SendEnv)
  : M State ConversationMessage :=
  s <- get ;;
  match currentSession s with
  | None => throw (Error "No active conversation session")
  | Some session =>
      try_catch
        (call (FetchAudio audioUri) (audio_fetch env) ;;;
         await (audio_blob env) ;;;
         await (audio_base64 env) ;;;
         conversationResponse <- call (Post "send_audio") (send_fetch env) ;;
         if negb (ok conversationResponse) then
           throw (Error ("Failed to send audio: "
                         ++ statusText conversationResponse)%string)
         else
           data <- await (send_json env) ;;
           match data with
           | None => throw property_of_null
           | Some data =>
               let userMessage :=
                 {| id := ("user", send_now env 0);
                    type := user;
                    content := or_else (user_transcript data) "[Audio message]";
                    timestamp := send_now env 1;
                    audioUrl := Some audioUri |} in
               push userMessage ;;;
               let agentMessage :=
                 {| id := ("agent", send_now env 2);
                    type := agent;
                    content := or_else (agent_response data) "";
                    timestamp := send_now env 3;
                    audioUrl := agent_audio_url data |} in
               push agentMessage ;;;
               match agent_audio_url data with
               | Some (String c r) => playAgentResponse (String c r) (send_play env)
               | _ => ret tt
               end ;;;
               ret agentMessage
           end)
        (fun error => throw error)
  end.

(** *** startRecording *)

(** [rec_new] is the object built by [new Audio.Recording()]. *)
Record RecordEnv : Type := {
  rec_permission : outcome string;
  rec_audio_mode : outcome unit;
  rec_new : Recording;
  rec_prepare : outcome unit;
  rec_start : outcome unit;
}.

Definition startRecording (env : RecordEnv) : M State unit :=
  try_catch
    (status <- call RequestPermissions (rec_permission env) ;;
     if negb (String.eqb status "granted") then
       throw (Error "Audio recording permission not granted")
     else
       call SetAudioMode (rec_audio_mode env) ;;;
       let recording := rec_new env in
       call (PrepareToRecord recording) (rec_prepare env) ;;;
       call (StartAsync recording) (rec_start env) ;;;
       modify (set_audioRecording (Some recording)))
    (fun error => throw error).

(** *** stopRecording *)

(** [stop_uri] is what [getURI()] returns ([None] for [null]). *)
Record StopEnv : Type := {
  stop_unload : outcome unit;
  stop_uri : option string;
}.

Definition stopRecording (env : StopEnv) : M State string :=
  s <- get ;;
  match audioRecording s with
  | None => throw (Error "No active recording")
  | Some recording =>
      try_catch
        (call (StopAndUnload recording) (stop_unload env) ;;;
         let uri := stop_uri env in
         modify (set_audioRecording None) ;;;
         match uri with
         | Some (String c r) => ret (String c r)
         | _ => throw (Error "Failed to get recording URI")
         end)
        (fun error => throw error)
  end.

(** *** endConversation *)

Record EndEnv : Type := {
  end_fetch : outcome Response;
  end_stop_unload : outcome unit;
  end_unload : outcome unit;
}.

Definition endConversation (env : EndEnv) : M State unit :=
  s <- get ;;
  match currentSession s with
  | None => ret tt
  | Some session =>
      try_catch
        (call (Post "end_conversation") (end_fetch env) ;;;
         modify (set_currentSession None) ;;;
         s1 <- get ;;
         match audioRecording s1 with
         | Some recording =>
             call (StopAndUnload recording) (end_stop_unload env) ;;;
             modify (set_audioRecording None)
         | None => ret tt
         end ;;;
         s2 <- get ;;
         match audioSound s2 with
         | Some sound =>
             call (SoundUnload sound) (end_unload env) ;;;
             modify (set_audioSound None)
         | None => ret tt
         end)
        (fun error => ret tt)
  end.

Definition getMessages (s : State) : list ConversationMessage := messages s.

Definition getCurrentSession (s : State) : option ConversationSession :=
  currentSession s.

(** The environments of [sendAudioMessage] in which every awaited
    call up to the reply resolves, the response is [ok] and the
    reply is not [null]. *)
Definition send_replied (env : SendEnv) : option SendReply :=
  match audio_fetch env, audio_blob env, audio_base64 env,
        send_fetch env, send_json env with
  | Resolves _, Resolves _, Resolves _, Resolves response, Resolves (Some data) =>
      if ok response then Some data else None
  | _, _, _, _, _ => None
  end.

Definition resolved {A} (p : outcome A) : bool :=
  match p with
  | Resolves _ => true
  | Rejects _ => false
  end.

(** The environments of [endConversation] in which, from state [s],
    no awaited call rejects: the remote call resolves (whatever its
    HTTP status), and so does the unloading of the recording and of
    the sound that [s] holds. *)
Definition resolved_end (env : EndEnv) (s : State) : bool :=
  resolved (end_fetch env)
  && match audioRecording s with
     | Some _ => resolved (end_stop_unload env)
     | None => true
     end
  && match audioSound s with
     | Some _ => resolved (end_unload env)
     | None => true
     end.

(** The environments of [startRecording] in which the permission is
    granted and every device call resolves. *)
Definition recording_starts (env : RecordEnv) : bool :=
  match rec_permission env, rec_audio_mode env, rec_prepare env, rec_start env with
  | Resolves status, Resolves _, Resolves _, Resolves _ => String.eqb status "granted"
  | _, _, _, _ => false
  end.

End ElevenLabsConversationService.

(* ===================================================================== *)
(** ** The recorder of the audio device (expo-av)                        *)
(* ===================================================================== *)

Module Recorder.

Import Js.
Import ElevenLabsConversationService.

(** [startRecording] has no guard of its own: what happens to a second
    call is decided by the device.  expo-av keeps one recorder, and a
    single [Audio.Recording] can be prepared on it at a time:
    [prepareToRecordAsync] rejects while another recording is
    prepared.  This rule is the library's, not the repository's; the
    device below carries nothing else. *)
Record Device : Type := {
  prepared : option Recording;
}.

Definition free : Device := {| prepared := None |}.

Definition recorder_taken : exn :=
  Error "Only one Recording object can be prepared at a given time.".

(** What the device answers to the calls of [startRecording]: what
    [env] says, except that preparing is refused while a recording is
    prepared. *)
Definition answers (d : Device) (env : RecordEnv) : RecordEnv :=
  {| rec_permission := rec_permission env;
     rec_audio_mode := rec_audio_mode env;
     rec_new := rec_new env;
     rec_prepare :=
       match prepared d with
       | Some _ => Rejects recorder_taken
       | None => rec_prepare env
       end;
     rec_start := rec_start env |}.

(** The environments in which [prepareToRecordAsync] is reached and
    resolves. *)
Definition prepares (env : RecordEnv) : bool :=
  match rec_permission env, rec_audio_mode env, rec_prepare env with
  | Resolves status, Resolves _, Resolves _ => String.eqb status "granted"
  | _, _, _ => false
  end.

(** [startRecording] run against the device: the recorder is taken by
    the new recording once preparing it has resolved, also when
    [startAsync] then rejects. *)
Definition startRecording (env : RecordEnv) : M (Device * State) unit :=
  fun w =>
    let answered := answers (fst w) env in
    let (r, s') := ElevenLabsConversationService.startRecording answered (snd w) in
    (r, (if prepares answered then {| prepared := Some (rec_new env) |} else fst w,
         s')).

(** The service holds [recording], and it is the one prepared on the
    device. *)
Definition recording_active (w : Device * State) (recording : Recording) : Prop :=
  audioRecording (snd w) = Some recording /\ prepared (fst w) = Some recording.

End Recorder.

(* ===================================================================== *)
(** ** services/ElevenLabsService.ts                                     *)
(* ===================================================================== *)

Module ElevenLabsService.

Import Js.
Local Open Scope js_scope.

Record ElevenLabsVoice : Type := {
  id : string;
  name : string;
  description : string;
  gender : string;
  accent : string;
  category : string;
  previewUrl : option string;
}.

(** An [Audio.Sound] object: its identity and the resource it was
    created from. *)
Record Sound : Type := {
  handle : nat;
  uri : string;
}.

Inductive Call : Type :=
| FetchVoices
| SoundCreate (audioUri : string)
| SoundStop (sound : Sound)
| SoundUnload (sound : Sound).

(** The field [currentSound] of the class, and the audio device as
    the methods see it: [playing] lists the sounds that are loaded
    and playing, [created] counts the sounds created so far (the
    next handle), [calls] logs the external calls in order. *)
Record State : Type := {
  currentSound : option Sound;
  playing : list Sound;
  created : nat;
  calls : list Call;
}.

Definition set_currentSound (v : option Sound) (s : State) : State :=
  {| currentSound := v; playing := playing s; created := created s;
     calls := calls s |}.

Definition set_playing (v : list Sound) (s : State) : State :=
  {| currentSound := currentSound s; playing := v; created := created s;
     calls := calls s |}.

Definition set_created (v : nat) (s : State) : State :=
  {| currentSound := currentSound s; playing := playing s; created := v;
     calls := calls s |}.

Definition set_calls (v : list Call) (s : State) : State :=
  {| currentSound := currentSound s; playing := playing s;
     created := created s; calls := v |}.

Definition new : State :=
  {| currentSound := None; playing := []; created := 0; calls := [] |}.

Definition call {A} (c : Call) (p : outcome A) : M State A :=
  modify (fun s => set_calls (calls s ++ [c]) s) ;;; await p.

Definition silence (sound : Sound) (l : list Sound) : list Sound :=
  filter (fun x => handle x <> handle sound) l.

(** The device calls.  A call that rejects leaves the device as it
    was; [createAsync(source, { shouldPlay: true })] that resolves
    yields a new sound, already playing. *)
Definition stopAsync (sound : Sound) (p : outcome unit) : M State unit :=
  call (SoundStop sound) p ;;;
  modify (fun s => set_playing (silence sound (playing s)) s).

Definition unloadAsync (sound : Sound) (p : outcome unit) : M State unit :=
  call (SoundUnload sound) p ;;;
  modify (fun s => set_playing (silence sound (playing s)) s).

Definition createAsync (audioUri : string) (p : outcome unit) : M State Sound :=
  call (SoundCreate audioUri) p ;;;
  s <- get ;;
  let sound := {| handle := created s; uri := audioUri |} in
  modify (fun s => set_created (S (created s)) (set_playing (playing s ++ [sound]) s)) ;;;
  ret sound.

(** *** getAvailableVoices *)

(** [success] is the truthiness of [data.success]. *)
Record VoicesReply : Type := {
  success : bool;
  error : option string;
  voices : list ElevenLabsVoice;
}.

Record VoicesEnv : Type := {
  voices_fetch : outcome unit;
  voices_json : outcome (option VoicesReply);
}.

Definition premade (id name description gender : string) : ElevenLabsVoice :=
  {| id := id; name := name; description := description; gender := gender;
     accent := "american"; category := "premade"; previewUrl := None |}.

Definition getFallbackVoices : list ElevenLabsVoice :=
  [ premade "pNInz6obpgDQGcFmaJgB" "Adam"
      "Deep, authoritative voice perfect for formal examinations" "male";
    premade "EXAVITQu4vr4xnSDxMaL" "Bella"
      "Clear, professional female voice with neutral accent" "female";
    premade "VR6AewLTigWG4xSOukaG" "Arnold"
      "Confident, experienced examiner voice" "male";
    premade "MF3mGyEYCl7XYWbV9V6O" "Elli"
      "Warm, encouraging coach voice" "female";
    premade "TxGEqnHWrfWFTfGW9XjX" "Josh"
      "Young, energetic speaking coach" "male" ].

Definition getAvailableVoices (env : VoicesEnv) : M State (list ElevenLabsVoice) :=
  try_catch
    (call FetchVoices (voices_fetch env) ;;;
     data <- await (voices_json env) ;;
     match data with
     | None => throw (Error "TypeError: Cannot read properties of null")
     | Some data =>
         if negb (success data) then
           throw (Error (or_else (error data) "Failed to fetch voices"))
         else ret (voices data)
     end)
    (fun error => ret getFallbackVoices).

(** *** stopAudio, playAudio *)

Record StopAudioEnv : Type := {
  stop_async : outcome unit;
  unload_async : outcome unit;
}.

Definition stopAudio (env : StopAudioEnv) : M State unit :=
  s <- get ;;
  match currentSound s with
  | Some sound =>
      try_catch
        (stopAsync sound (stop_async env) ;;;
         unloadAsync sound (unload_async env) ;;;
         modify (set_currentSound None))
        (fun error => ret tt)
  | None => ret tt
  end.

Record PlayAudioEnv : Type := {
  play_stop : StopAudioEnv;
  play_create : outcome unit;
}.

Definition playAudio (audioUri : string) (env : PlayAudioEnv) : M State unit :=
  try_catch
    (stopAudio (play_stop env) ;;;
     sound <- createAsync audioUri (play_create env) ;;
     modify (set_currentSound (Some sound)))
    (fun error => ret tt).

(** The callback that [playAudio] registers with
    [setOnPlaybackStatusUpdate], run on a status of the sound. *)
Definition onPlaybackStatusUpdate (isLoaded didJustFinish : bool)
  (env : StopAudioEnv) : M State unit :=
  when (isLoaded && didJustFinish) (stopAudio env).

(** The environments in which the voice catalog is delivered: both
    awaited calls resolve and the envelope reports success. *)
Definition catalog_delivered (env : VoicesEnv) : bool :=
  match voices_fetch env, voices_json env with
  | Resolves _, Resolves (Some data) => success data
  | _, _ => false
  end.

Definition resolved {A} (p : outcome A) : bool :=
  match p with
  | Resolves _ => true
  | Rejects _ => false
  end.

(** The environments of [playAudio] in which every device call
    resolves. *)
Definition device_obeys (env : PlayAudioEnv) : bool :=
  resolved (stop_async (play_stop env)) && resolved (unload_async (play_stop env))
  && resolved (play_create env).

(** The device plays exactly the sound that the service tracks. *)
Definition tracked (s : State) : Prop :=
  playing s = match currentSound s with
              | Some sound => [sound]
              | None => []
              end.

End ElevenLabsService.

(* ===================================================================== *)
(** ** components/PracticeScreen.tsx: the conversation state machine     *)
(* ===================================================================== *)

Module PracticeScreen.

Import Js.
Module Service := ElevenLabsConversationService.

(** [constants/AppConfig.ts] *)
Inductive ConversationState : Type :=
| idle
| listening
| processing
| speaking.

Inductive ConnectionStatus : Type :=
| connecting
| connected
| disconnected.

#[global] Instance ConversationState_eq_dec : EqDecision ConversationState.
Proof. solve_decision. Defined.

(** The React state of the component, the alerts it has shown (by
    title), the number of pending settle timers, and the state of the
    conversation service it drives. *)
Record Screen : Type := {
  conversationState : ConversationState;
  isRecording : bool;
  currentSession : option Service.ConversationSession;
  messages : list Service.ConversationMessage;
  connectionStatus : ConnectionStatus;
  alerts : list string;
  settleTimers : nat;
  service : Service.State;
}.

Definition setConversationState (v : ConversationState) (p : Screen) : Screen :=
  {| conversationState := v; isRecording := isRecording p;
     currentSession := currentSession p; messages := messages p;
     connectionStatus := connectionStatus p; alerts := alerts p;
     settleTimers := settleTimers p; service := service p |}.

Definition setIsRecording (v : bool) (p : Screen) : Screen :=
  {| conversationState := conversationState p; isRecording := v;
     currentSession := currentSession p; messages := messages p;
     connectionStatus := connectionStatus p; alerts := alerts p;
     settleTimers := settleTimers p; service := service p |}.

Definition setCurrentSession (v : option Service.ConversationSession) (p : Screen)
  : Screen :=
  {| conversationState := conversationState p; isRecording := isRecording p;
     currentSession := v; messages := messages p;
     connectionStatus := connectionStatus p; alerts := alerts p;
     settleTimers := settleTimers p; service := service p |}.

Definition setMessages (v : list Service.ConversationMessage) (p : Screen) : Screen :=
  {| conversationState := conversationState p; isRecording := isRecording p;
     currentSession := currentSession p; messages := v;
     connectionStatus := connectionStatus p; alerts := alerts p;
     settleTimers := settleTimers p; service := service p |}.

Definition setConnectionStatus (v : ConnectionStatus) (p : Screen) : Screen :=
  {| conversationState := conversationState p; isRecording := isRecording p;
     currentSession := currentSession p; messages := messages p;
     connectionStatus := v; alerts := alerts p;
     settleTimers := settleTimers p; service := service p |}.

Definition alert (title : string) (p : Screen) : Screen :=
  {| conversationState := conversationState p; isRecording := isRecording p;
     currentSession := currentSession p; messages := messages p;
     connectionStatus := connectionStatus p; alerts := alerts p ++ [title];
     settleTimers := settleTimers p; service := service p |}.

Definition set_settleTimers (v : nat) (p : Screen) : Screen :=
  {| conversationState := conversationState p; isRecording := isRecording p;
     currentSession := currentSession p; messages := messages p;
     connectionStatus := connectionStatus p; alerts := alerts p;
     settleTimers := v; service := service p |}.

Definition set_service (v : Service.State) (p : Screen) : Screen :=
  {| conversationState := conversationState p; isRecording := isRecording p;
     currentSession := currentSession p; messages := messages p;
     connectionStatus := connectionStatus p; alerts := alerts p;
     settleTimers := settleTimers p; service := v |}.

(** The component as mounted, before its effect runs. *)
Definition mounted (svc : Service.State) : Screen :=
  {| conversationState := idle; isRecording := false; currentSession := None;
     messages := []; connectionStatus := disconnected; alerts := [];
     settleTimers := 0; service := svc |}.

Definition initializeConversation (env : Service.StartEnv) (p : Screen) : Screen :=
  let p := setConversationState processing (setConnectionStatus connecting p) in
  match Service.startConversation env (service p) with
  | (Ok session, svc) =>
      alert "Session Started"
        (setConversationState idle
           (setConnectionStatus connected
              (setCurrentSession (Some session) (set_service svc p))))
  | (Throw error, svc) =>
      alert "Connection Error"
        (setConversationState idle
           (setConnectionStatus disconnected (set_service svc p)))
  end.

(** The [Ready] button of the "Session Started" alert. *)
Definition readyPressed (p : Screen) : Screen :=
  setConversationState listening p.

Definition startRecording (env : Service.RecordEnv) (p : Screen) : Screen :=
  if negb (bool_decide (is_Some (currentSession p)))
     || negb (bool_decide (conversationState p = idle))
  then p
  else
    match Service.startRecording env (service p) with
    | (Ok _, svc) =>
        setConversationState listening (setIsRecording true (set_service svc p))
    | (Throw error, svc) =>
        alert "Recording Error" (set_service svc p)
    end.

Definition stopRecording (stop : Service.StopEnv) (send : Service.SendEnv)
  (p : Screen) : Screen :=
  if negb (isRecording p) || negb (bool_decide (is_Some (currentSession p)))
  then p
  else
    let p := setConversationState processing (setIsRecording false p) in
    match Service.stopRecording stop (service p) with
    | (Ok audioUri, svc) =>
        match Service.sendAudioMessage audioUri send svc with
        | (Ok agentMessage, svc) =>
            set_settleTimers (S (settleTimers p))
              (setConversationState speaking
                 (setMessages (Service.getMessages svc) (set_service svc p)))
        | (Throw error, svc) =>
            alert "Processing Error"
              (setConversationState idle (set_service svc p))
        end
    | (Throw error, svc) =>
        alert "Processing Error" (setConversationState idle (set_service svc p))
    end.

(** The callback of [setTimeout(..., 3000)] set by [stopRecording]. *)
Definition settled (p : Screen) : Screen :=
  match settleTimers p with
  | O => p
  | S n => setConversationState idle (set_settleTimers n p)
  end.

(** The [End Session] button of the confirmation alert. *)
Definition endSessionConfirmed (env : Service.EndEnv) (p : Screen) : Screen :=
  let svc := snd (Service.endConversation env (service p)) in
  setConversationState idle
    (setConnectionStatus disconnected
       (setMessages [] (setCurrentSession None (set_service svc p)))).

(** The cleanup of the effect, run when the component unmounts. *)
Definition unmounted (env : Service.EndEnv) (p : Screen) : Screen :=
  set_service (snd (Service.endConversation env (service p))) p.

(** One handler of the component runs. *)
Inductive step : Screen -> Screen -> Prop :=
| step_initialize env p : step p (initializeConversation env p)
| step_ready p : step p (readyPressed p)
| step_start env p : step p (startRecording env p)
| step_stop stop send p : step p (stopRecording stop send p)
| step_settled p : step p (settled p)
| step_end env p : step p (endSessionConfirmed env p)
| step_unmount env p : step p (unmounted env p).

End PracticeScreen.

(* ===================================================================== *)
(** ** Scenarios                                                         *)
(* ===================================================================== *)

(** Concrete states and environments on which the properties below are
    exercised. *)
Module Scenario.

Import Js.

Definition clock (k : nat) : Z := (1700000000000 + Z.of_nat k)%Z.

(** *** The channel *)

Definition frame (type data : string) : WebSocketService.WebSocketMessage :=
  {| WebSocketService.type := type; WebSocketService.data := data;
     WebSocketService.timestamp := None |}.

Definition echo : string := "wss://echo.websocket.org".

(** Three messages are sent while the first socket is connecting and
    after it has closed; the reconnect timer then builds socket 1. *)
Definition outage : list WebSocketService.offline_action :=
  [ WebSocketService.DoSend (frame "audio" "1");
    WebSocketService.DoConnect echo;
    WebSocketService.DoSend (frame "audio" "2");
    WebSocketService.SocketFails 0;
    WebSocketService.SocketCloses 0 echo;
    WebSocketService.DoSend (frame "text" "3");
    WebSocketService.TimerFires ].

(** *** The conversation service *)

Module Service := ElevenLabsConversationService.

Definition network_down : exn := Error "Network request failed".

Definition http_200 : Service.Response :=
  {| Service.ok := true; Service.statusText := "OK" |}.

Definition http_500 : Service.Response :=
  {| Service.ok := false; Service.statusText := "Internal Server Error" |}.

Definition start_c1 : Service.StartEnv :=
  {| Service.start_fetch := Resolves http_200;
     Service.start_json :=
       Resolves (Some {| Service.conversation_id := "c1";
                         Service.agent_id := "a1" |});
     Service.start_now := clock 0 |}.

(** The service after [startConversation] answered "c1". *)
Definition in_session : Service.State :=
  snd (Service.startConversation start_c1 Service.new).

(** The same, holding recording 1 and sound 2, after one turn. *)
Definition busy : Service.State :=
  {| Service.currentSession := Service.currentSession in_session;
     Service.messages :=
       [ {| Service.id := ("user", clock 1); Service.type := Service.user;
            Service.content := "Hello"; Service.timestamp := clock 1;
            Service.audioUrl := Some "file:///turn1.m4a" |};
         {| Service.id := ("agent", clock 2); Service.type := Service.agent;
            Service.content := "Good morning"; Service.timestamp := clock 2;
            Service.audioUrl := None |} ];
     Service.audioRecording := Some 1;
     Service.audioSound := Some 2;
     Service.calls := [] |}.

Definition play_ok : Service.PlayEnv :=
  {| Service.play_unload := Resolves tt; Service.play_create := Resolves 3;
     Service.play_start := Resolves tt |}.

Definition reply (transcript : option string) : Service.SendReply :=
  {| Service.user_transcript := transcript;
     Service.agent_response := Some "Tell me more";
     Service.agent_audio_url := Some "u1" |}.

Definition send_with (response : outcome Service.Response)
  (transcript : option string) : Service.SendEnv :=
  {| Service.audio_fetch := Resolves tt; Service.audio_blob := Resolves tt;
     Service.audio_base64 := Resolves "AAAA";
     Service.send_fetch := response;
     Service.send_json := Resolves (Some (reply transcript));
     Service.send_now := clock; Service.send_play := play_ok |}.

Definition granted (recording : Service.Recording) : Service.RecordEnv :=
  {| Service.rec_permission := Resolves "granted";
     Service.rec_audio_mode := Resolves tt; Service.rec_new := recording;
     Service.rec_prepare := Resolves tt; Service.rec_start := Resolves tt |}.

Definition stop_without_uri : Service.StopEnv :=
  {| Service.stop_unload := Resolves tt; Service.stop_uri := None |}.

Definition end_with (response : outcome Service.Response) : Service.EndEnv :=
  {| Service.end_fetch := response; Service.end_stop_unload := Resolves tt;
     Service.end_unload := Resolves tt |}.

(** *** The speech client *)

Module Speech := ElevenLabsService.

(** The body of the HTTP 500 answer of the catalog endpoint,
    [{ error: message }]: no [success] field. *)
Definition catalog_500 : Speech.VoicesEnv :=
  {| Speech.voices_fetch := Resolves tt;
     Speech.voices_json :=
       Resolves (Some {| Speech.success := false;
                         Speech.error := Some "Failed to fetch voices";
                         Speech.voices := [] |}) |}.

Definition device_ok : Speech.PlayAudioEnv :=
  {| Speech.play_stop := {| Speech.stop_async := Resolves tt;
                            Speech.unload_async := Resolves tt |};
     Speech.play_create := Resolves tt |}.

(** The device refuses to stop the sound that is playing. *)
Definition stop_refused : Speech.PlayAudioEnv :=
  {| Speech.play_stop :=
       {| Speech.stop_async := Rejects (Error "Player does not exist.");
          Speech.unload_async := Resolves tt |};
     Speech.play_create := Resolves tt |}.

(** *** The practice screen *)

(** The screen once the session has started and the alert is up. *)
Definition ready : PracticeScreen.Screen :=
  PracticeScreen.initializeConversation start_c1
    (PracticeScreen.mounted Service.new).

End Scenario.

(* ===================================================================== *)
(** ** services/WebSocketService.ts: the listener registry               *)
(* ===================================================================== *)

Module WebSocketDispatch.

Import Js.
Local Open Scope js_scope.

(** A registered callback, by identity ([indexOf] compares
    references). *)
Definition Listener : Type := nat.

(** The field [listeners] of the class, the calls made to listeners
    (oldest first) and the errors written to the console. *)
Record State : Type := {
  listeners : gmap string (list Listener);
  invoked : list (Listener * WebSocketService.WebSocketMessage);
  logged : list exn;
}.

Definition set_listeners (v : gmap string (list Listener)) (s : State) : State :=
  {| listeners := v; invoked := invoked s; logged := logged s |}.

Definition new : State := {| listeners := ∅; invoked := []; logged := [] |}.

(** [listeners.get(messageType) || []] *)
Definition registered (messageType : string) (s : State) : list Listener :=
  default [] (listeners s !! messageType).

Definition on (messageType : string) (listener : Listener) (s : State) : State :=
  let s1 :=
    match listeners s !! messageType with
    | Some _ => s
    | None => set_listeners (<[messageType := []]> (listeners s)) s
    end in
  set_listeners
    (<[messageType := default [] (listeners s1 !! messageType) ++ [listener]]>
       (listeners s1)) s1.

(** [listeners.splice(listeners.indexOf(listener), 1)] when the index
    is not -1: the first occurrence goes. *)
Fixpoint splice_first (listener : Listener) (l : list Listener) : list Listener :=
  match l with
  | [] => []
  | x :: rest =>
      if Nat.eqb x listener then rest else x :: splice_first listener rest
  end.

Definition off (messageType : string) (listener : Listener) (s : State) : State :=
  match listeners s !! messageType with
  | Some l => set_listeners (<[messageType := splice_first listener l]> (listeners s)) s
  | None => s
  end.

(** [disconnect] clears the registry. *)
Definition disconnect (s : State) : State := set_listeners ∅ s.

Definition log_call (listener : Listener)
  (message : WebSocketService.WebSocketMessage) (s : State) : State :=
  {| listeners := listeners s; invoked := invoked s ++ [(listener, message)];
     logged := logged s |}.

Definition log_error (e : exn) (s : State) : State :=
  {| listeners := listeners s; invoked := invoked s; logged := logged s ++ [e] |}.

Definition console_error (e : exn) : M State unit := modify (log_error e).

(** A listener is a function of the application: while it runs it may
    call the public methods of the service that change the registry. *)
Inductive RegistryCall : Type :=
| CallOn (messageType : string) (listener : Listener)
| CallOff (messageType : string) (listener : Listener)
| CallDisconnect.

(** A dispatch in progress.  [handleMessage] iterates the array
    object it took from the registry, not a copy: as long as that
    array is the entry of [iterated], it is read through the
    registry, so that [on] and [off] for this type are seen by the
    iteration.  [detached] holds the array once it is no entry any
    more: when it was the fresh [[]] of a type without entry, or after
    [disconnect] has cleared the map; no method reaches it then. *)
Record Dispatch : Type := {
  service : State;
  iterated : string;
  detached : option (list Listener);
}.

Definition array (d : Dispatch) : list Listener :=
  match detached d with
  | Some l => l
  | None => registered (iterated d) (service d)
  end.

Definition on_service (f : State -> State) (d : Dispatch) : Dispatch :=
  {| service := f (service d); iterated := iterated d; detached := detached d |}.

Definition perform (c : RegistryCall) (d : Dispatch) : Dispatch :=
  match c with
  | CallOn messageType listener => on_service (on messageType listener) d
  | CallOff messageType listener => on_service (off messageType listener) d
  | CallDisconnect =>
      {| service := disconnect (service d); iterated := iterated d;
         detached := Some (array d) |}
  end.

(** [listeners.get(messageType) || []] as the array object it is. *)
Definition start (messageType : string) (s : State) : Dispatch :=
  {| service := s; iterated := messageType;
     detached := match listeners s !! messageType with
                 | Some _ => None
                 | None => Some []
                 end |}.

Section Behaviour.

(** What a listener does when called with a message, the service being
    in a given state: the registry calls it makes, and the error it
    throws, if any. *)
Variable behaviour :
  Listener -> WebSocketService.WebSocketMessage -> State
  -> list RegistryCall * option exn.

(** [listener(message)] *)
Definition invoke (listener : Listener) (message : WebSocketService.WebSocketMessage)
  : M Dispatch unit :=
  d <- get ;;
  let does := behaviour listener message (service d) in
  modify (on_service (log_call listener message)) ;;;
  modify (fun d => fold_left (fun d c => perform c d) (fst does) d) ;;;
  match snd does with
  | Some e => throw e
  | None => ret tt
  end.

(** The dispatch once [listener] has been called inside the [try] of
    [handleMessage]: what it threw is on the console. *)
Definition called (listener : Listener)
  (message : WebSocketService.WebSocketMessage) (d : Dispatch) : Dispatch :=
  let does := behaviour listener message (service d) in
  let d1 := fold_left (fun d c => perform c d) (fst does)
              (on_service (log_call listener message) d) in
  match snd does with
  | Some e => on_service (log_error e) d1
  | None => d1
  end.

(** [array.forEach(f)]: the length is read once, [steps] being what is
    left of it; index [k] is visited when the array still has it. *)
Fixpoint forEach (steps k : nat) (f : Listener -> M Dispatch unit)
  : M Dispatch unit :=
  match steps with
  | 0 => ret tt
  | S steps =>
      d <- get ;;
      match array d !! k with
      | Some listener => f listener
      | None => ret tt
      end ;;;
      forEach steps (S k) f
  end.

(** The callback of [handleMessage]:
    [try { listener(message) } catch (error) { console.error(...) }]. *)
Definition guarded (message : WebSocketService.WebSocketMessage)
  (listener : Listener) : M Dispatch unit :=
  try_catch (invoke listener message)
    (fun error => modify (on_service (log_error error))).

Definition handleMessage (message : WebSocketService.WebSocketMessage) : M State unit :=
  fun s =>
    let d := start (WebSocketService.type message) s in
    let (r, d') := forEach (length (array d)) 0 (guarded message) d in
    (r, service d').

(** What [JSON.parse(event.data)] returns: [null]; a value whose
    [type] is not a string, for which the registry has no entry; or a
    message. *)
Inductive Inbound : Type :=
| Null
| Untyped
| Typed (message : WebSocketService.WebSocketMessage).

Definition type_of_null : exn :=
  Error "TypeError: Cannot read properties of null (reading 'type')".

(** The [onmessage] handler; [parsed] is the outcome of
    [JSON.parse(event.data)]. *)
Definition onmessage (parsed : result Inbound) : M State unit :=
  try_catch
    (match parsed with
     | Ok (Typed message) => handleMessage message
     | Ok Untyped => ret tt
     | Ok Null => throw type_of_null
     | Throw e => throw e
     end)
    console_error.

End Behaviour.

End WebSocketDispatch.

(* ===================================================================== *)
(** ** services: speech generation, voice preview, audio encoding        *)
(* ===================================================================== *)

Module Speech.

Import Js.
Local Open Scope js_scope.

(** [s.split(',')]; the comma is character 44. *)
Fixpoint split_comma (s : string) : list string :=
  match s with
  | EmptyString => [EmptyString]
  | String c rest =>
      if Ascii.eqb c (Ascii.ascii_of_nat 44) then EmptyString :: split_comma rest
      else
        match split_comma rest with
        | first :: others => String c first :: others
        | [] => [String c EmptyString]
        end
  end.

(** The string holds no comma. *)
Fixpoint comma_free (s : string) : bool :=
  match s with
  | EmptyString => true
  | String c rest => negb (Ascii.eqb c (Ascii.ascii_of_nat 44)) && comma_free rest
  end.

(** [ElevenLabsConversationService.blobToBase64]: [read] is how the
    [FileReader] settles ([onload] with its result, or [onerror]);
    the promise resolves with [result.split(',')[1]], which is
    [undefined] ([None]) when there is no comma. *)
Definition blobToBase64 (read : outcome string) : outcome (option string) :=
  match read with
  | Resolves result => Resolves (split_comma result !! 1)
  | Rejects e => Rejects e
  end.

(** [interface TTSResponse]; [success] is the truthiness of the
    field. *)
Record TTSResponse : Type := {
  success : bool;
  audioData : option string;
  contentType : option string;
  error : option string;
}.

Record SpeechEnv : Type := {
  speech_fetch : outcome unit;
  speech_json : outcome (option TTSResponse);
}.

(** [`${v}`] for an optional string. *)
Definition template (v : option string) : string :=
  match v with
  | Some s => s
  | None => "undefined"
  end.

(** [ElevenLabsService.generateSpeech]; the request body (text, voice
    and the two fixed settings) is not part of any state and is left
    out.  [None] is [null]. *)
Definition generateSpeech {S : Type} (text voiceId : string) (env : SpeechEnv)
  : M S (option string) :=
  try_catch
    (await (speech_fetch env) ;;;
     data <- await (speech_json env) ;;
     match data with
     | None => throw (Error "TypeError: Cannot read properties of null")
     | Some data =>
         if negb (success data) || negb (truthy (audioData data)) then
           throw (Error (or_else (error data) "Failed to generate speech"))
         else
           let audioUri :=
             ("data:" ++ template (contentType data) ++ ";base64,"
              ++ template (audioData data))%string in
           ret (Some audioUri)
     end)
    (fun error => ret None).

(** The reply from which [generateSpeech] builds its result: both
    awaited calls resolve, the envelope reports success and carries
    audio data. *)
Definition speech_delivered (env : SpeechEnv) : option TTSResponse :=
  match speech_fetch env, speech_json env with
  | Resolves _, Resolves (Some data) =>
      if success data && truthy (audioData data) then Some data else None
  | _, _ => None
  end.

Definition generateIELTSIntroduction {S : Type} (userName voiceId : string)
  (env : SpeechEnv) : M S (option string) :=
  generateSpeech
    ("Hello " ++ userName ++ "! Welcome to your IELTS speaking practice session. I'm your examiner today. We'll go through three parts: introduction and interview, a short speech, and a discussion. Are you ready to begin?")%string
    voiceId env.

Record PreviewEnv : Type := {
  preview_speech : SpeechEnv;
  preview_play : ElevenLabsService.PlayAudioEnv;
}.

(** [ElevenLabsService.previewVoice] *)
Definition previewVoice (voiceId sampleText : string) (env : PreviewEnv)
  : M ElevenLabsService.State unit :=
  try_catch
    (audioUri <- generateSpeech sampleText voiceId (preview_speech env) ;;
     match audioUri with
     | Some (String c r) =>
         ElevenLabsService.playAudio (String c r) (preview_play env)
     | _ => ret tt
     end)
    (fun error => ret tt).

(** The operations on the player, as a user of the service issues
    them: playing a resource, stopping, and the device reporting that
    the current sound has just finished. *)
Inductive player_action : Type :=
| Play (audioUri : string) (env : ElevenLabsService.PlayAudioEnv)
| Stop (env : ElevenLabsService.StopAudioEnv)
| Finished (env : ElevenLabsService.StopAudioEnv).

Definition act (a : player_action) (s : ElevenLabsService.State)
  : ElevenLabsService.State :=
  match a with
  | Play audioUri env => snd (ElevenLabsService.playAudio audioUri env s)
  | Stop env => snd (ElevenLabsService.stopAudio env s)
  | Finished env => snd (ElevenLabsService.onPlaybackStatusUpdate true true env s)
  end.

(** Every device call of the action resolves, except that loading a
    new sound may fail. *)
Definition stops_cleanly (a : player_action) : bool :=
  match a with
  | Play _ env =>
      ElevenLabsService.resolved
        (ElevenLabsService.stop_async (ElevenLabsService.play_stop env))
      && ElevenLabsService.resolved
           (ElevenLabsService.unload_async (ElevenLabsService.play_stop env))
  | Stop env | Finished env =>
      ElevenLabsService.resolved (ElevenLabsService.stop_async env)
      && ElevenLabsService.resolved (ElevenLabsService.unload_async env)
  end.

End Speech.

(* ===================================================================== *)
(** ** Outcomes of the environments of the session manager               *)
(* ===================================================================== *)

Module SessionOutcomes.

Import Js.
Import ElevenLabsConversationService.

(** The reply from which [startConversation] builds the session: the
    fetch resolves, the response is [ok] and the body is not [null]. *)
Definition start_replied (env : StartEnv) : option StartReply :=
  match start_fetch env, start_json env with
  | Resolves response, Resolves (Some data) =>
      if ok response then Some data else None
  | _, _ => None
  end.

(** The sound that [playAgentResponse] ends up playing when every
    device call it makes from state [s] resolves. *)
Definition played (env : PlayEnv) (s : State) : option Sound :=
  match audioSound s, play_unload env, play_create env, play_start env with
  | Some _, Rejects _, _, _ => None
  | _, _, Resolves sound, Resolves _ => Some sound
  | _, _, _, _ => None
  end.

End SessionOutcomes.

(* ===================================================================== *)
(** ** components/PracticeScreen.tsx: what the screen renders            *)
(* ===================================================================== *)

Module PracticeControls.

Import PracticeScreen.

(** The [disabled] property of the microphone button. *)
Definition microphoneDisabled (p : Screen) : bool :=
  negb (bool_decide (is_Some (currentSession p)))
  || bool_decide (conversationState p = processing)
  || bool_decide (conversationState p = speaking).

(** A press of the microphone button:
    [onPress={isRecording ? stopRecording : startRecording}], which a
    disabled button does not deliver. *)
Definition microphonePressed (record : Service.RecordEnv) (stop : Service.StopEnv)
  (send : Service.SendEnv) (p : Screen) : Screen :=
  if microphoneDisabled p then p
  else if isRecording p then stopRecording stop send p
       else startRecording record p.



End PracticeControls.

(* ===================================================================== *)
(** ** app/(tabs)/index.tsx: onboarding, voice selection, practice       *)
(* ===================================================================== *)

Module Home.

Import Js.

Inductive AppState : Type :=
| onboarding
| voice_selection
| practice.

Inductive TestMode : Type :=
| examiner
| coach.

(** [interface UserProfile]; the band score is kept in tenths of a
    band (70 for 7.0). *)
Record UserProfile : Type := {
  name : string;
  targetBandScore : nat;
  testMode : TestMode;
  selectedVoice : option string;
}.

(** What the key 'userProfile' of the storage holds as this component
    leaves it, the JSON text of a profile; or a text that [JSON.parse]
    rejects.  A text that parses to anything else, which only another
    writer can have stored, is outside this type: it is read by
    [Launch.loadUserProfile] below, which takes the storage as raw
    text and agrees with [loadUserProfile] here on the items of this
    type. *)
Inductive Item : Type :=
| Json (profile : UserProfile)
| Unparsable (text : string).

(** The React state of the component and the storage of the device. *)
Record State : Type := {
  appState : AppState;
  userProfile : UserProfile;
  storage : option Item;
}.

Definition defaultProfile : UserProfile :=
  {| name := ""; targetBandScore := 70; testMode := examiner;
     selectedVoice := None |}.

Definition setAppState (v : AppState) (h : State) : State :=
  {| appState := v; userProfile := userProfile h; storage := storage h |}.

Definition setUserProfile (v : UserProfile) (h : State) : State :=
  {| appState := appState h; userProfile := v; storage := storage h |}.

Definition set_storage (v : option Item) (h : State) : State :=
  {| appState := appState h; userProfile := userProfile h; storage := v |}.

(** The component as it mounts on a device whose storage holds
    [stored]. *)
Definition launch (stored : option Item) : State :=
  {| appState := onboarding; userProfile := defaultProfile; storage := stored |}.

(** [loadUserProfile]; [read] tells whether [AsyncStorage.getItem]
    resolves. *)
Definition loadUserProfile (read : outcome unit) (h : State) : State :=
  match read with
  | Rejects _ => h
  | Resolves _ =>
      match storage h with
      | None => h                               (* nothing saved *)
      | Some (Unparsable EmptyString) => h      (* [if (savedProfile)] fails *)
      | Some (Unparsable _) => h                (* [JSON.parse] throws *)
      | Some (Json profile) =>
          let h := setUserProfile profile h in
          if truthy (selectedVoice profile) then setAppState practice h
          else setAppState voice_selection h
      end
  end.

(** [saveUserProfile]; [write] tells whether [AsyncStorage.setItem]
    resolves. *)
Definition saveUserProfile (write : outcome unit) (profile : UserProfile)
  (h : State) : State :=
  match write with
  | Resolves _ => setUserProfile profile (set_storage (Some (Json profile)) h)
  | Rejects _ => h
  end.

(** [handleOnboardingComplete]; its argument has no selected voice
    ([Omit<UserProfile, 'selectedVoice'>]). *)
Definition handleOnboardingComplete (write : outcome unit)
  (name : string) (targetBandScore : nat) (testMode : TestMode) (h : State)
  : State :=
  let updatedProfile :=
    {| name := name; targetBandScore := targetBandScore; testMode := testMode;
       selectedVoice := None |} in
  setAppState voice_selection (saveUserProfile write updatedProfile h).

Definition handleVoiceSelected (write : outcome unit) (voiceId : string)
  (h : State) : State :=
  let updatedProfile :=
    {| name := name (userProfile h);
       targetBandScore := targetBandScore (userProfile h);
       testMode := testMode (userProfile h);
       selectedVoice := Some voiceId |} in
  setAppState practice (saveUserProfile write updatedProfile h).


(** Closing the application and opening it again: the React state is
    gone, the storage stays, and the effect runs [loadUserProfile]. *)
Definition relaunch (read : outcome unit) (h : State) : State :=
  loadUserProfile read (launch (storage h)).

End Home.

(* ===================================================================== *)
(** ** app/(tabs)/index.tsx: loading whatever the storage holds          *)
(* ===================================================================== *)

Module Launch.

Import Js.
Local Open Scope js_scope.

(** A JSON value as [JSON.parse] returns it; a number is kept as a
    mantissa and a decimal exponent. *)
#[warnings="-register-all"] Inductive Json : Type :=
| JNull
| JBool (b : bool)
| JNumber (mantissa exponent : Z)
| JString (text : string)
| JArray (items : list Json)
| JObject (members : list (string * Json)).

(** The member of an object under [key]; of two members with the same
    key the later one counts. *)
Fixpoint member (key : string) (members : list (string * Json)) : option Json :=
  match members with
  | [] => None
  | (k, v) :: rest =>
      match member key rest with
      | Some later => Some later
      | None => if String.eqb k key then Some v else None
      end
  end.

(** [value.selectedVoice]: reading a property of [null] throws; a
    value that is not an object has no such property. *)
Definition selectedVoice (value : Json) : result (option Json) :=
  match value with
  | JNull => Throw (Error "TypeError: Cannot read properties of null")
  | JObject members => Ok (member "selectedVoice" members)
  | _ => Ok None
  end.

(** Truthiness of what a property read gives ([None] is
    [undefined]). *)
Definition truthy (v : option Json) : bool :=
  match v with
  | None | Some JNull => false
  | Some (JBool b) => b
  | Some (JNumber mantissa _) => negb (Z.eqb mantissa 0)
  | Some (JString EmptyString) => false
  | Some (JString (String _ _)) => true
  | Some (JArray _) | Some (JObject _) => true
  end.

(** [JSON.stringify(profile)] of a typed profile, as a value: a
    profile without a voice has no member for it. *)
Definition encode (profile : Home.UserProfile) : Json :=
  JObject
    ([("name", JString (Home.name profile));
      ("targetBandScore", JNumber (Z.of_nat (Home.targetBandScore profile)) (-1));
      ("testMode", JString match Home.testMode profile with
                           | Home.examiner => "examiner"
                           | Home.coach => "coach"
                           end)]
     ++ match Home.selectedVoice profile with
        | Some voice => [("selectedVoice", JString voice)]
        | None => []
        end).

(** The React state of the component, its profile being whatever was
    last set, and the text under the key 'userProfile'. *)
Record State : Type := {
  appState : Home.AppState;
  userProfile : Json;
  storage : option string;
}.

Definition setAppState (v : Home.AppState) (h : State) : State :=
  {| appState := v; userProfile := userProfile h; storage := storage h |}.

Definition setUserProfile (v : Json) (h : State) : State :=
  {| appState := appState h; userProfile := v; storage := storage h |}.

Definition launch (stored : option string) : State :=
  {| appState := Home.onboarding; userProfile := encode Home.defaultProfile;
     storage := stored |}.

(** The result of a synchronous call that may throw. *)
Definition lift {A : Type} (r : result A) : M State A := fun h => (r, h).

Section Parser.

(** [JSON.parse], which the repository takes from the language. *)
Variable JSON_parse : string -> result Json.

(** [loadUserProfile]; [read] tells whether [AsyncStorage.getItem]
    resolves.  [setUserProfile(profile)] runs before
    [profile.selectedVoice] is read. *)
Definition loadUserProfile (read : outcome unit) : M State unit :=
  try_catch
    (await read ;;;
     h <- get ;;
     match storage h with
     | Some (String c text) =>
         profile <- lift (JSON_parse (String c text)) ;;
         modify (setUserProfile profile) ;;;
         voice <- lift (selectedVoice profile) ;;
         if truthy voice then modify (setAppState Home.practice)
         else modify (setAppState Home.voice_selection)
     | _ => ret tt
     end)
    (fun error => ret tt).

(** What the component gets to see of the storage: the value its text
    parses to, when the read resolves and the text is not empty. *)
Definition parsed (read : outcome unit) (stored : option string) : option Json :=
  match read, stored with
  | Resolves _, Some (String c text) =>
      match JSON_parse (String c text) with
      | Ok value => Some value
      | Throw _ => None
      end
  | _, _ => None
  end.

End Parser.

(** The typed state of [Home] as this component holds it, its stored
    profile being the text [text]. *)
Definition of_home (text : string) (h : Home.State) : State :=
  {| appState := Home.appState h;
     userProfile := encode (Home.userProfile h);
     storage := match Home.storage h with
                | Some (Home.Json _) => Some text
                | Some (Home.Unparsable t) => Some t
                | None => None
                end |}.

End Launch.

(* ===================================================================== *)
(** ** functions/elevenlabs-conversation/index.ts                        *)
(* ===================================================================== *)

Module ConversationFunction.

Import Js.
Local Open Scope js_scope.

(** The parsed request body, [{ action, ...params }]; parameter
    values are kept as strings. *)
Record RequestBody : Type := {
  action : option string;
  params : gmap string string;
}.

(** [req_json] is how [req.json()] settles ([None] for JSON [null]). *)
Record Request : Type := {
  method : string;
  req_json : outcome (option RequestBody);
}.

Inductive UpstreamBody : Type :=
| NoBody
| JsonObject (fields : gmap string string)
| Raw (data : option string).

(** A request made to the ElevenLabs API. *)
Record UpstreamRequest : Type := {
  up_url : string;
  up_method : string;
  up_headers : list (string * string);
  up_body : UpstreamBody;
}.

(** The environment variables and the answer of the upstream call:
    whether the fetch resolves, and the JSON text its body parses
    to. *)
Record Env : Type := {
  ELEVENLABS_API_KEY : option string;
  ELEVENLABS_AGENT_ID : option string;
  upstream_fetch : outcome unit;
  upstream_json : outcome string;
}.

Inductive ResponseBody : Type :=
| Empty
| Data (json : string)
| Failure (error : string).

Record Response : Type := {
  status : nat;
  headers : list (string * string);
  body : ResponseBody;
}.

Definition conversations : string :=
  "https://api.elevenlabs.io/v1/convai/conversations".

(** [fetch(request)]: the request is logged, then the call settles. *)
Definition fetch (request : UpstreamRequest) (env : Env)
  : M (list UpstreamRequest) unit :=
  modify (fun log => log ++ [request]) ;;; await (upstream_fetch env).

(** The [switch (action)] of the handler: the cases are compared in
    order with strict equality; an absent action reaches [default]. *)
Definition dispatch (apiKey agentId : string) (body : RequestBody) (env : Env)
  : M (list UpstreamRequest) unit :=
  let case (name : string) : bool :=
    match action body with
    | Some a => String.eqb a name
    | None => false
    end in
  if case "start_conversation" then
    fetch {| up_url := conversations; up_method := "POST";
             up_headers := [("xi-api-key", apiKey);
                            ("Content-Type", "application/json")];
             up_body := JsonObject (params body ∪ {["agent_id" := agentId]}) |}
      env
  else if case "send_audio" then
    fetch {| up_url := (conversations ++ "/"
                        ++ Speech.template (params body !! "conversationId")
                        ++ "/audio")%string;
             up_method := "POST";
             up_headers := [("xi-api-key", apiKey);
                            ("Content-Type", "audio/mpeg")];
             up_body := Raw (params body !! "audioData") |}
      env
  else if case "get_conversation" then
    fetch {| up_url := (conversations ++ "/"
                        ++ Speech.template (params body !! "conversationId"))%string;
             up_method := "GET";
             up_headers := [("xi-api-key", apiKey)];
             up_body := NoBody |}
      env
  else if case "end_conversation" then
    fetch {| up_url := (conversations ++ "/"
                        ++ Speech.template (params body !! "conversationId"))%string;
             up_method := "DELETE";
             up_headers := [("xi-api-key", apiKey)];
             up_body := NoBody |}
      env
  else
    throw (Error ("Unknown action: " ++ Speech.template (action body))%string).

Definition preflight : Response :=
  {| status := 200;
     headers := [("Access-Control-Allow-Origin", "*");
                 ("Access-Control-Allow-Methods", "POST, GET, OPTIONS");
                 ("Access-Control-Allow-Headers", "Content-Type, Authorization")];
     body := Empty |}.

Definition json_headers : list (string * string) :=
  [("Content-Type", "application/json"); ("Access-Control-Allow-Origin", "*")].

(** The handler passed to [serve]. *)
Definition handler (req : Request) (env : Env) : M (list UpstreamRequest) Response :=
  if String.eqb (method req) "OPTIONS" then ret preflight
  else
    try_catch
      (parsed <- await (req_json req) ;;
       match parsed with
       | None => throw (Error "TypeError: Cannot destructure null")
       | Some body =>
           match ELEVENLABS_API_KEY env, ELEVENLABS_AGENT_ID env with
           | Some (String a apiKey), Some (String b agentId) =>
               dispatch (String a apiKey) (String b agentId) body env ;;;
               data <- await (upstream_json env) ;;
               ret {| status := 200; headers := json_headers; body := Data data |}
           | _, _ =>
               throw (Error "ElevenLabs API key or Agent ID not configured")
           end
       end)
      (fun error =>
         match error with
         | Error message =>
             ret {| status := 500; headers := json_headers;
                    body := Failure (or_else (Some message)
                                       "Failed to process conversation request") |}
         end).

(** The answer of the [catch] block to an error with this message. *)
Definition failure (message : string) : Response :=
  {| status := 500; headers := json_headers;
     body := Failure (or_else (Some message)
                        "Failed to process conversation request") |}.

(** The actions the function knows. *)
Definition known (action : option string) : bool :=
  match action with
  | Some a =>
      String.eqb a "start_conversation" || String.eqb a "send_audio"
      || String.eqb a "get_conversation" || String.eqb a "end_conversation"
  | None => false
  end.

(** Both environment variables are set and not empty. *)
Definition configured (env : Env) : bool :=
  truthy (ELEVENLABS_API_KEY env) && truthy (ELEVENLABS_AGENT_ID env).

End ConversationFunction.

(* ===================================================================== *)
(** ** components/PracticeScreen.tsx, the socket-driven variant          *)
(* ===================================================================== *)

Module VoiceScreen.

Import Js.
Local Open Scope js_scope.

(** The conversation state of the component and the speech client it
    uses. *)
Record Screen : Type := {
  conversationState : PracticeScreen.ConversationState;
  speech : ElevenLabsService.State;
}.

Definition setConversationState (v : PracticeScreen.ConversationState)
  : M Screen unit :=
  modify (fun p => {| conversationState := v; speech := speech p |}).

(** Runs a method of the speech client on the client of the screen. *)
Definition on_speech {A : Type} (m : M ElevenLabsService.State A) : M Screen A :=
  fun p =>
    match m (speech p) with
    | (r, s) => (r, {| conversationState := conversationState p; speech := s |})
    end.

Record ReplyEnv : Type := {
  reply_speech : Speech.SpeechEnv;
  reply_play : ElevenLabsService.PlayAudioEnv;
}.

(** [playAgentResponse(text)]; [selectedVoice] is
    [userProfile.selectedVoice]. *)
Definition playAgentResponse (selectedVoice : option string) (text : string)
  (env : ReplyEnv) : M Screen unit :=
  try_catch
    (match selectedVoice with
     | Some (String c voice) =>
         audioUri <- on_speech (Speech.generateSpeech text (String c voice)
                                  (reply_speech env)) ;;
         match audioUri with
         | Some (String d r) =>
             on_speech (ElevenLabsService.playAudio (String d r) (reply_play env))
         | _ => ret tt
         end ;;;
         setConversationState PracticeScreen.idle
     | _ => ret tt
     end)
    (fun error => setConversationState PracticeScreen.idle).

(** An inbound frame is whatever [JSON.parse] made of the text
    received, and the handler takes it untyped.  Of a value that is
    not [null] it reads [type], which matches a case only when it is
    a string ([None] otherwise), and [data.text]: [data] is [None]
    when the frame has no [data] or its [data] is [null], and
    otherwise holds the text that goes into the speech request. *)
Record Frame : Type := {
  type : option string;
  data : option string;
}.

(** [message.type === label] *)
Definition is_type (message : Frame) (label : string) : bool :=
  match type message with
  | Some t => String.eqb t label
  | None => false
  end.

Definition type_of_null : exn :=
  Error "TypeError: Cannot read properties of null (reading 'type')".

Definition text_of_undefined : exn :=
  Error "TypeError: Cannot read properties of undefined (reading 'text')".

(** [handleWebSocketMessage(message)]; [None] is the frame [null].
    The argument [message.data.text] is evaluated in the handler,
    after the state has been set and outside any [try]. *)
Definition handleWebSocketMessage (selectedVoice : option string)
  (message : option Frame) (env : ReplyEnv) : M Screen unit :=
  match message with
  | None => throw type_of_null
  | Some message =>
      if is_type message "agent_response" then
        setConversationState PracticeScreen.speaking ;;;
        match data message with
        | None => throw text_of_undefined
        | Some text => playAgentResponse selectedVoice text env
        end
      else if is_type message "listening" then
        setConversationState PracticeScreen.listening
      else if is_type message "processing" then
        setConversationState PracticeScreen.processing
      else ret tt
  end.

(** [playWelcomeMessage] *)
Definition playWelcomeMessage (selectedVoice : option string) (userName : string)
  (env : ReplyEnv) : M Screen unit :=
  try_catch
    (match selectedVoice with
     | Some (String c voice) =>
         welcomeText <- on_speech (Speech.generateIELTSIntroduction userName
                                     (String c voice) (reply_speech env)) ;;
         match welcomeText with
         | Some (String d r) =>
             setConversationState PracticeScreen.speaking ;;;
             on_speech (ElevenLabsService.playAudio (String d r) (reply_play env)) ;;;
             setConversationState PracticeScreen.idle
         | _ => ret tt
         end
     | _ => ret tt
     end)
    (fun error => ret tt).

End VoiceScreen.

(* ===================================================================== *)
(** ** Further scenarios                                                 *)
(* ===================================================================== *)

Module Examples.

Import Js.

(** *** The channel *)

(** The channel after three failed connections, its timer having just
    built socket 2. *)
Definition reconnecting : WebSocketService.State :=
  WebSocketService.timeout
    (WebSocketService.drops Scenario.echo 3 WebSocketService.new).

(** The channel with its first socket open. *)
Definition online : WebSocketService.State :=
  let s := WebSocketService.connect Scenario.echo WebSocketService.new in
  WebSocketService.set_sockets
    (<[0 := WebSocketService.OPEN]> (WebSocketService.sockets s)) s.

(** [connect] called twice, then a message sent: socket 1 is current
    and connecting, socket 0 is about to open. *)
Definition twice_connected : WebSocketService.State :=
  WebSocketService.send Scenario.clock (Scenario.frame "audio" "1")
    (WebSocketService.connect Scenario.echo
       (WebSocketService.connect Scenario.echo WebSocketService.new)).

(** Listeners 2 and then 1 registered for "audio". *)
Definition registry : WebSocketDispatch.State :=
  WebSocketDispatch.on "audio" 1
    (WebSocketDispatch.on "audio" 2 WebSocketDispatch.new).

(** Listeners that only take the message. *)
Definition quiet (listener : WebSocketDispatch.Listener)
  (message : WebSocketService.WebSocketMessage) (s : WebSocketDispatch.State)
  : list WebSocketDispatch.RegistryCall * option exn :=
  ([], None).

(** Listener 2 wants a single "audio" message: when called it removes
    itself with [off]; the others only take the message. *)
Definition once (listener : WebSocketDispatch.Listener)
  (message : WebSocketService.WebSocketMessage) (s : WebSocketDispatch.State)
  : list WebSocketDispatch.RegistryCall * option exn :=
  if Nat.eqb listener 2 then ([WebSocketDispatch.CallOff "audio" 2], None)
  else ([], None).

(** *** The services *)

Definition stop_with_uri : ElevenLabsConversationService.StopEnv :=
  {| ElevenLabsConversationService.stop_unload := Resolves tt;
     ElevenLabsConversationService.stop_uri := Some "file:///turn.m4a" |}.

Definition stop_fails : ElevenLabsConversationService.StopEnv :=
  {| ElevenLabsConversationService.stop_unload :=
       Rejects (Error "Recorder does not exist.");
     ElevenLabsConversationService.stop_uri := None |}.

Definition end_unload_fails : ElevenLabsConversationService.EndEnv :=
  {| ElevenLabsConversationService.end_fetch := Resolves Scenario.http_200;
     ElevenLabsConversationService.end_stop_unload :=
       Rejects (Error "Recorder does not exist.");
     ElevenLabsConversationService.end_unload := Resolves tt |}.

Definition stop_ok : ElevenLabsService.StopAudioEnv :=
  {| ElevenLabsService.stop_async := Resolves tt;
     ElevenLabsService.unload_async := Resolves tt |}.

Definition speech_ok : Speech.SpeechEnv :=
  {| Speech.speech_fetch := Resolves tt;
     Speech.speech_json :=
       Resolves (Some {| Speech.success := true;
                         Speech.audioData := Some "QUJD";
                         Speech.contentType := Some "audio/mpeg";
                         Speech.error := None |}) |}.

Definition speech_down : Speech.SpeechEnv :=
  {| Speech.speech_fetch := Rejects Scenario.network_down;
     Speech.speech_json := Rejects Scenario.network_down |}.

(** *** The practice screen *)

(** The started screen, recording. *)
Definition recording : PracticeScreen.Screen :=
  PracticeScreen.startRecording (Scenario.granted 1) Scenario.ready.

Definition send_ok : ElevenLabsConversationService.SendEnv :=
  Scenario.send_with (Resolves Scenario.http_200) (Some "I live in Boston").

(** *** The stored profile *)

(** [JSON.parse] on the two texts of the scenarios: [null] parses,
    anything else here is rejected. *)
Definition parse_null (text : string) : result Launch.Json :=
  if String.eqb text "null" then Ok Launch.JNull
  else Throw (Error "SyntaxError: Unexpected token").

(** *** The conversation function *)

Definition post (action : string) (params : gmap string string)
  : ConversationFunction.Request :=
  {| ConversationFunction.method := "POST";
     ConversationFunction.req_json :=
       Resolves (Some {| ConversationFunction.action := Some action;
                         ConversationFunction.params := params |}) |}.

Definition deployed (key agent : option string) : ConversationFunction.Env :=
  {| ConversationFunction.ELEVENLABS_API_KEY := key;
     ConversationFunction.ELEVENLABS_AGENT_ID := agent;
     ConversationFunction.upstream_fetch := Resolves tt;
     ConversationFunction.upstream_json := Resolves "{}" |}.

(** The body in which the ElevenLabs API reports a rejected key, an
    object with the one member [detail]. *)
Definition quoted (text : string) : string :=
  (String (Ascii.ascii_of_nat 34) text ++ String (Ascii.ascii_of_nat 34) "")%string.

Definition unauthorized : string :=
  ("{" ++ quoted "detail" ++ ":" ++ quoted "Invalid API key" ++ "}")%string.

Definition refused : ConversationFunction.Env :=
  {| ConversationFunction.ELEVENLABS_API_KEY := Some "k";
     ConversationFunction.ELEVENLABS_AGENT_ID := Some "a1";
     ConversationFunction.upstream_fetch := Resolves tt;
     ConversationFunction.upstream_json := Resolves unauthorized |}.

End Examples.

(* ===================================================================== *)
(** ** Properties of the reconnecting channel                            *)
(* ===================================================================== *)

Section ChannelFacts.

Import WebSocketService.

Variable Date_now : nat -> Z.

Lemma send_offline (message : WebSocketMessage) (s : State) :
  socket_open s = false ->
  send Date_now message s = set_messageQueue (messageQueue s ++ [message]) s.
Proof.
  unfold send, socket_open.
  destruct (socket s) as [h|]; [|reflexivity].
  destruct (sockets s !! h) as [[]|]; intros H; try reflexivity; discriminate H.
Qed.

Lemma send_online (message : WebSocketMessage) (s : State) (h : nat) :
  socket s = Some h -> sockets s !! h = Some OPEN ->
  send Date_now message s = transmit Date_now h message s.
Proof.
  unfold send. intros -> ->. reflexivity.
Qed.

Lemma connect_not_open (url : string) (s : State) :
  socket_open (connect url s) = false.
Proof.
  unfold socket_open, connect. simpl.
  rewrite lookup_app_r by lia.
  replace (length (sockets s) - length (sockets s)) with 0 by lia.
  reflexivity.
Qed.

Lemma attemptReconnect_fields (url : string) (s : State) :
  let s' := attemptReconnect url s in
  socket s' = socket s /\ sockets s' = sockets s /\ wire s' = wire s /\
  ticks s' = ticks s /\ messageQueue s' = messageQueue s /\
  maxReconnectAttempts s' = maxReconnectAttempts s /\
  reconnectDelay s' = reconnectDelay s.
Proof.
  unfold attemptReconnect.
  destruct (reconnectAttempts s <? maxReconnectAttempts s); simpl; tauto.
Qed.

(** While the channel is down, every action keeps it down, hands
    nothing to the transport, reads no clock and only appends the
    messages passed to [send] to the queue. *)
Lemma perform_offline (a : offline_action) (s : State) :
  socket_open s = false ->
  let s' := perform Date_now a s in
  socket_open s' = false /\ wire s' = wire s /\ ticks s' = ticks s /\
  messageQueue s' = messageQueue s ++ sent_messages [a].
Proof.
  intros Hoff. destruct a as [message|url|h url| h |]; simpl.
  - rewrite send_offline by assumption.
    unfold socket_open in *. simpl. auto.
  - rewrite connect_not_open. simpl. rewrite app_nil_r. auto.
  - unfold socket_closes, onclose.
    destruct (attemptReconnect_fields url
                (set_socket None (set_sockets (<[h:=CLOSED]> (sockets s)) s)))
      as (Hs & Hss & Hw & Ht & Hq & _).
    unfold socket_open. rewrite Hs, Hw, Ht, Hq. simpl.
    rewrite app_nil_r. auto.
  - unfold onerror. rewrite app_nil_r. auto.
  - unfold timeout. destruct (timers s) as [|[d url] rest].
    + rewrite app_nil_r. auto.
    + rewrite connect_not_open. simpl. rewrite app_nil_r. auto.
Qed.

Lemma sent_messages_app (l1 l2 : list offline_action) :
  sent_messages (l1 ++ l2) = sent_messages l1 ++ sent_messages l2.
Proof.
  induction l1 as [|a l1 IH]; [reflexivity|].
  destruct a; simpl; rewrite IH; reflexivity.
Qed.

Lemma run_offline (acts : list offline_action) :
  forall s : State,
    socket_open s = false ->
    let s' := run Date_now acts s in
    socket_open s' = false /\ wire s' = wire s /\ ticks s' = ticks s /\
    messageQueue s' = messageQueue s ++ sent_messages acts.
Proof.
  induction acts as [|a acts IH]; intros s Hoff; cbv zeta.
  - simpl. rewrite app_nil_r. auto.
  - destruct (perform_offline a s Hoff) as (Ho & Hw & Ht & Hq).
    destruct (IH _ Ho) as (Ho' & Hw' & Ht' & Hq').
    change (run Date_now (a :: acts) s)
      with (run Date_now acts (perform Date_now a s)).
    rewrite Ho', Hw', Ht', Hq', Hw, Ht, Hq.
    change (a :: acts) with ([a] ++ acts).
    rewrite sent_messages_app, app_assoc. auto.
Qed.

(** With the socket open the loop of [flushMessageQueue] ends after
    one round per queued message, and hands the queue to the socket
    from its head on. *)
Lemma flush_open (q : list WebSocketMessage) :
  forall (s : State) (h fuel : nat),
    socket s = Some h -> sockets s !! h = Some OPEN ->
    messageQueue s = q -> length q <= fuel ->
    exists s',
      flushMessageQueue Date_now fuel s = Some s' /\
      messageQueue s' = [] /\
      wire s' = wire s ++ frames Date_now h (ticks s) q /\
      socket s' = socket s /\ sockets s' = sockets s.
Proof.
  induction q as [|message rest IH]; intros s h fuel Hs Ho Hq Hfuel.
  - exists s. destruct fuel; simpl; rewrite Hq, app_nil_r; auto.
  - destruct fuel as [|fuel]; [simpl in Hfuel; lia|].
    simpl. rewrite Hq.
    rewrite (send_online _ _ h) by (simpl; assumption).
    destruct (IH (transmit Date_now h message (set_messageQueue rest s)) h fuel)
      as (s' & Hf & Hq' & Hw' & Hs' & Hss'); simpl; auto.
    { simpl in Hfuel. lia. }
    exists s'. rewrite Hf. simpl in Hw'.
    rewrite Hw', <- app_assoc. simpl. auto.
Qed.

Lemma frames_payload (h k : nat) (q : list WebSocketMessage) :
  map (fun f => payload (snd f)) (frames Date_now h k q) = map payload q.
Proof.
  revert k. induction q as [|message rest IH]; intros k; simpl; [reflexivity|].
  rewrite IH. reflexivity.
Qed.

(** C5.  Messages passed to [send] while the channel is disconnected,
    however the calls are interleaved with connection attempts, close
    and error events and reconnect timers, are all kept in the queue
    (nothing reaches the transport meanwhile); when the current socket
    then opens, the flush terminates, empties the queue and hands the
    transport exactly the queued messages, each with a timestamp, in
    the order of the [send] calls. *)
Theorem send_fifo_on_reconnect
  (acts : list offline_action) (s : State) (h : nat) :
  isConnected s = false ->
  socket (run Date_now acts s) = Some h ->
  h < length (sockets (run Date_now acts s)) ->
  let s1 := run Date_now acts s in
  exists s2,
    socket_opens Date_now h (length (messageQueue s1)) s1 = Some s2 /\
    messageQueue s1 = messageQueue s ++ sent_messages acts /\
    wire s1 = wire s /\
    messageQueue s2 = [] /\
    wire s2 = wire s
              ++ frames Date_now h (ticks s) (messageQueue s ++ sent_messages acts) /\
    map (fun f => payload (snd f)) (drop (length (wire s)) (wire s2))
    = map payload (messageQueue s ++ sent_messages acts).
Proof.
  intros Hoff Hsock Hlt s1.
  destruct (run_offline acts s Hoff) as (_ & Hw & Ht & Hq).
  fold s1 in Hsock, Hlt, Hw, Ht, Hq.
  destruct (flush_open (messageQueue s1)
              (set_reconnectAttempts 0 (set_sockets (<[h:=OPEN]> (sockets s1)) s1))
              h (length (messageQueue s1)))
    as (s2 & Hf & Hq2 & Hw2 & _); simpl; auto.
  { apply list_lookup_insert_eq. exact Hlt. }
  exists s2. unfold socket_opens, onopen. rewrite Hf.
  simpl in Hw2. rewrite Hw, Ht, Hq in Hw2.
  repeat split; auto.
  rewrite Hw2, drop_app_length. apply frames_payload.
Qed.

Lemma timeout_fields (s : State) :
  (forall d u, In (d, u) (timers s) -> timers s = [(d, u)]) ->
  let t := timeout s in
  timers t = [] /\ reconnectAttempts t = reconnectAttempts s /\
  maxReconnectAttempts t = maxReconnectAttempts s /\
  reconnectDelay t = reconnectDelay s.
Proof.
  unfold timeout. intros Hone.
  destruct (timers s) as [|[d u] rest] eqn:E; simpl; [auto|].
  specialize (Hone d u (or_introl eq_refl)). inversion Hone. auto.
Qed.

Lemma close_fields (url : string) (t : State) :
  timers t = [] ->
  let u := match socket t with
           | Some h => socket_closes h url t
           | None => onclose url t
           end in
  socket u = None /\
  maxReconnectAttempts u = maxReconnectAttempts t /\
  reconnectDelay u = reconnectDelay t /\
  (reconnectAttempts t < maxReconnectAttempts t ->
   reconnectAttempts u = S (reconnectAttempts t) /\
   timers u = [(reconnectDelay t * S (reconnectAttempts t), url)]) /\
  (maxReconnectAttempts t <= reconnectAttempts t ->
   reconnectAttempts u = reconnectAttempts t /\ timers u = []).
Proof.
  intros Ht.
  destruct (socket t) as [h|]; unfold socket_closes, onclose, attemptReconnect;
    simpl; rewrite Ht;
    destruct (Nat.ltb_spec (reconnectAttempts t) (maxReconnectAttempts t));
    simpl; repeat split; auto; intros; lia.
Qed.

(** The fields after [n] consecutive failures of a channel whose
    counter was reset and which has no timer pending. *)
Lemma drops_fields (url : string) (s : State) (n : nat) :
  reconnectAttempts s = 0 -> timers s = [] ->
  let s' := drops url n s in
  maxReconnectAttempts s' = maxReconnectAttempts s /\
  reconnectDelay s' = reconnectDelay s /\
  reconnectAttempts s' = Nat.min n (maxReconnectAttempts s) /\
  timers s' = (if (1 <=? n) && (n <=? maxReconnectAttempts s)
               then [(reconnectDelay s * n, url)] else []) /\
  (1 <= n -> socket s' = None).
Proof.
  intros Ha Ht. induction n as [|n IH]; cbv zeta.
  - simpl. rewrite Ha, Ht. repeat split; auto. intros; lia.
  - destruct IH as (Hm & Hd & Hat & Hti & _).
    destruct (timeout_fields (drops url n s)) as (Tt & Ta & Tm & Td).
    { rewrite Hti. destruct ((1 <=? n) && (n <=? maxReconnectAttempts s));
        simpl; intros d u []; try congruence; contradiction. }
    destruct (close_fields url (timeout (drops url n s)) Tt)
      as (Cs & Cm & Cd & Clt & Cge).
    change (drops url (S n) s)
      with (match socket (timeout (drops url n s)) with
            | Some h => socket_closes h url (timeout (drops url n s))
            | None => onclose url (timeout (drops url n s))
            end).
    rewrite Cm, Cd, Tm, Td, Hm, Hd.
    rewrite ?Ta, ?Tm, ?Td, ?Hat, ?Hm, ?Hd in Clt.
    rewrite ?Ta, ?Tm, ?Td, ?Hat, ?Hm, ?Hd in Cge.
    repeat split; auto.
    + destruct (Nat.lt_ge_cases n (maxReconnectAttempts s)) as [Hlt|Hge].
      * destruct Clt as [-> _]; lia.
      * destruct Cge as [-> _]; lia.
    + destruct (Nat.lt_ge_cases n (maxReconnectAttempts s)) as [Hlt|Hge].
      * destruct Clt as [_ ->]; [lia|].
        replace (S n <=? maxReconnectAttempts s) with true
          by (symmetry; apply Nat.leb_le; lia).
        simpl. rewrite Nat.min_l by lia. reflexivity.
      * destruct Cge as [_ ->]; [lia|].
        replace (S n <=? maxReconnectAttempts s) with false
          by (symmetry; apply Nat.leb_gt; lia).
        rewrite andb_false_r. reflexivity.
Qed.

(** C6.  Starting from a channel whose attempt counter is reset and
    which has no timer pending, the [n]-th consecutive failure, for
    [n] from 1 to the configured maximum, schedules reconnect attempt
    [n] after [n] times the base delay; once the maximum is exhausted
    a further failure schedules nothing, no timer is left to fire,
    and [getConnectionState] answers "disconnected". *)
Theorem reconnect_backoff (url : string) (s : State) (n : nat) :
  reconnectAttempts s = 0 -> timers s = [] ->
  let s' := drops url n s in
  (1 <= n <= maxReconnectAttempts s ->
   reconnectAttempts s' = n /\ timers s' = [(n * reconnectDelay s, url)]) /\
  (maxReconnectAttempts s < n ->
   reconnectAttempts s' = maxReconnectAttempts s /\
   timers s' = [] /\ timeout s' = s' /\
   getConnectionState s' = "disconnected").
Proof.
  intros Ha Ht s'.
  destruct (drops_fields url s n Ha Ht) as (_ & _ & Hat & Hti & Hso).
  fold s' in Hat, Hti, Hso. split.
  - intros [H1 H2]. rewrite Hat, Hti.
    replace (1 <=? n) with true by (symmetry; apply Nat.leb_le; lia).
    replace (n <=? maxReconnectAttempts s) with true
      by (symmetry; apply Nat.leb_le; lia).
    simpl. rewrite Nat.min_l, (Nat.mul_comm n) by lia. auto.
  - intros Hgt. rewrite Hat.
    replace (n <=? maxReconnectAttempts s) with false in Hti
      by (symmetry; apply Nat.leb_gt; lia).
    rewrite andb_false_r in Hti.
    unfold timeout, getConnectionState. rewrite Hti, Hso by lia.
    rewrite Nat.min_r by lia. auto.
Qed.

End ChannelFacts.

(** The outage scenario: the three messages queued during the outage
    reach socket 1 in the order of the calls when it opens. *)
Lemma send_fifo_on_reconnect_witness :
  let s1 := WebSocketService.run Scenario.clock Scenario.outage WebSocketService.new in
  WebSocketService.isConnected WebSocketService.new = false /\
  WebSocketService.socket s1 = Some 1 /\
  1 < length (WebSocketService.sockets s1) /\
  exists s2,
    WebSocketService.socket_opens Scenario.clock 1 3 s1 = Some s2 /\
    WebSocketService.messageQueue s2 = [] /\
    map (fun f => WebSocketService.payload (snd f)) (WebSocketService.wire s2)
    = [("audio", "1"); ("audio", "2"); ("text", "3")].
Proof.
  intros s1.
  assert (1 < length (WebSocketService.sockets s1)) as Hlt by (cbn; lia).
  repeat (split; [first [reflexivity | exact Hlt]|]).
  destruct (send_fifo_on_reconnect Scenario.clock Scenario.outage
              WebSocketService.new 1 eq_refl eq_refl Hlt)
    as (s2 & Hopen & _ & _ & Hqueue & _ & Horder).
  exists s2. split; [exact Hopen|]. split; [exact Hqueue|]. exact Horder.
Defined.

(** A fresh channel whose socket keeps failing: the third failure
    schedules attempt 3 after 3000 ms; the sixth schedules nothing and
    the channel reports "disconnected". *)
Lemma reconnect_backoff_witness :
  let s := WebSocketService.new in
  WebSocketService.reconnectAttempts s = 0 /\
  WebSocketService.timers s = [] /\
  WebSocketService.timers (WebSocketService.drops Scenario.echo 3 s)
  = [(3000, Scenario.echo)] /\
  WebSocketService.timers (WebSocketService.drops Scenario.echo 6 s) = [] /\
  WebSocketService.getConnectionState (WebSocketService.drops Scenario.echo 6 s)
  = "disconnected".
Proof.
  intros s. split; [reflexivity|]. split; [reflexivity|].
  destruct (reconnect_backoff Scenario.echo s 3 eq_refl eq_refl) as [Hthird _].
  destruct (reconnect_backoff Scenario.echo s 6 eq_refl eq_refl) as [_ Hsixth].
  destruct Hthird as [_ Htimer]; [cbn; lia|].
  destruct Hsixth as (_ & Hnone & _ & Hstate); [cbn; lia|].
  split; [exact Htimer|]. split; [exact Hnone|exact Hstate].
Defined.

(* ===================================================================== *)
(** ** Properties of the conversation session manager                    *)
(* ===================================================================== *)

Section SessionFacts.

Import Js.
Import ElevenLabsConversationService.

(** Unfolds the monadic plumbing of a method body. *)
Ltac run_js :=
  unfold call, push, when in *;
  unfold try_catch, bind, get, modify, await, ret, throw in *;
  simpl in *.

(** [playAgentResponse] never throws and only touches [audioSound]
    and the call log. *)
Lemma playAgentResponse_fields (audioUrl : string) (env : PlayEnv) (s : State) :
  exists s',
    playAgentResponse audioUrl env s = (Ok tt, s') /\
    messages s' = messages s /\
    currentSession s' = currentSession s /\
    audioRecording s' = audioRecording s.
Proof.
  unfold playAgentResponse. run_js.
  destruct (audioSound s), (play_unload env) as [[]|], (play_create env),
    (play_start env) as [[]|]; simpl; eexists; repeat split.
Qed.

(** What [sendAudioMessage] does, by the session and the remote
    reply. *)
Lemma sendAudioMessage_cases (audioUri : string) (env : SendEnv) (s : State) :
  match currentSession s, send_replied env with
  | None, _ =>
      sendAudioMessage audioUri env s
      = (Throw (Error "No active conversation session"), s)
  | Some _, None =>
      exists e s',
        sendAudioMessage audioUri env s = (Throw e, s') /\
        messages s' = messages s /\
        audioRecording s' = audioRecording s
  | Some _, Some data =>
      exists userMessage agentMessage s',
        sendAudioMessage audioUri env s = (Ok agentMessage, s') /\
        messages s' = messages s ++ [userMessage; agentMessage] /\
        audioRecording s' = audioRecording s /\
        type userMessage = user /\ type agentMessage = agent /\
        content userMessage = or_else (user_transcript data) "[Audio message]" /\
        content agentMessage = or_else (agent_response data) "" /\
        audioUrl agentMessage = agent_audio_url data
  end.
Proof.
  unfold sendAudioMessage, send_replied, call, push.
  unfold try_catch, bind, get, modify, await, ret, throw.
  destruct (currentSession s) as [session|] eqn:Hsession; [|reflexivity].
  destruct (audio_fetch env) as [[]|]; cbn [fst snd];
    [|eexists _, _; repeat split; cbn; auto].
  destruct (audio_blob env) as [[]|]; [|eexists _, _; repeat split; cbn; auto].
  destruct (audio_base64 env); [|eexists _, _; repeat split; cbn; auto].
  destruct (send_fetch env) as [response|]; [|eexists _, _; repeat split; cbn; auto].
  destruct (ok response); cbn [negb];
    [|destruct (send_json env) as [[]|]; eexists _, _; repeat split; cbn; auto].
  destruct (send_json env) as [[data|]|];
    [|eexists _, _; repeat split; cbn; auto..].
  destruct (agent_audio_url data) as [[|c r]|] eqn:Hurl;
    try (eexists _, _, _; repeat split; cbn; rewrite <- ?app_assoc; auto; fail).
  cbv beta iota.
  match goal with
  | |- context [playAgentResponse ?u ?e ?t] =>
      destruct (playAgentResponse_fields u e t) as (s' & -> & Hm & _ & Hr)
  end.
  eexists _, _, _. split; [reflexivity|].
  split; [rewrite Hm; cbn; rewrite <- app_assoc; reflexivity|].
  split; [rewrite Hr; reflexivity|].
  repeat split.
Qed.

Lemma or_else_nonempty (t d : string) : t <> "" -> or_else (Some t) d = t.
Proof. destruct t; [congruence|reflexivity]. Qed.

(** C1.  With an active session and a remote reply, [sendAudioMessage]
    succeeds; and whenever it succeeds, a session was active, the
    remote call replied, and the history has grown by exactly two
    messages: first a user message, then the returned agent message.
    The content of the user message is the returned transcript, or
    the placeholder "[Audio message]" when no transcript was returned
    (the field is absent or empty). *)
Theorem sendAudioMessage_appends_turn
  (audioUri : string) (env : SendEnv) (s : State) :
  (forall session data,
      currentSession s = Some session -> send_replied env = Some data ->
      exists agentMessage s',
        sendAudioMessage audioUri env s = (Ok agentMessage, s')) /\
  (forall agentMessage s',
      sendAudioMessage audioUri env s = (Ok agentMessage, s') ->
      is_Some (currentSession s) /\
      exists data userMessage,
        send_replied env = Some data /\
        messages s' = messages s ++ [userMessage; agentMessage] /\
        type userMessage = user /\ type agentMessage = agent /\
        (forall t, user_transcript data = Some t -> t <> "" ->
                   content userMessage = t) /\
        (user_transcript data = None \/ user_transcript data = Some "" ->
         content userMessage = "[Audio message]") /\
        content agentMessage = or_else (agent_response data) "" /\
        audioUrl agentMessage = agent_audio_url data).
Proof.
  pose proof (sendAudioMessage_cases audioUri env s) as H.
  split.
  - intros session data Hs Hr. rewrite Hs, Hr in H.
    destruct H as (u & a & s' & H & _). eauto.
  - intros agentMessage s' Hok.
    destruct (currentSession s) as [session|]; [|congruence].
    split; [eauto|].
    destruct (send_replied env) as [data|].
    + destruct H as (u & a & s1 & H & Hm & _ & Hu & Ha & Hcu & Hca & Hurl).
      rewrite H in Hok. injection Hok as <- <-.
      exists data, u. repeat split; auto.
      * intros t Ht Hne. rewrite Hcu, Ht. apply or_else_nonempty, Hne.
      * intros [Ht|Ht]; rewrite Hcu, Ht; reflexivity.
    + destruct H as (e & s1 & H & _). congruence.
Qed.

(** C2.  A call of [sendAudioMessage] that fails leaves the message
    history as it was.  It fails with "No active conversation
    session", changing nothing at all, when no session is active;
    and it fails, the error reaching the caller, whenever the remote
    call fails: the post is rejected, the response is not [ok], or
    any other step before the reply is read fails. *)
Theorem sendAudioMessage_failure_keeps_history
  (audioUri : string) (env : SendEnv) (s : State) :
  (forall e s',
      sendAudioMessage audioUri env s = (Throw e, s') ->
      messages s' = messages s) /\
  (currentSession s = None ->
   sendAudioMessage audioUri env s
   = (Throw (Error "No active conversation session"), s)) /\
  ((exists e, send_fetch env = Rejects e) \/
   (exists response, send_fetch env = Resolves response /\ ok response = false) \/
   send_replied env = None ->
   exists e s',
     sendAudioMessage audioUri env s = (Throw e, s') /\
     messages s' = messages s).
Proof.
  pose proof (sendAudioMessage_cases audioUri env s) as H.
  split; [|split].
  - intros e s' Hthrow.
    destruct (currentSession s) as [session|]; [|congruence].
    destruct (send_replied env) as [data|].
    + destruct H as (u & a & s1 & H & _). congruence.
    + destruct H as (e1 & s1 & H & Hm & _). congruence.
  - intros Hs. rewrite Hs in H. exact H.
  - intros Hfail.
    assert (send_replied env = None) as Hr.
    { destruct Hfail as [[e He]|[(response & He & Hok)|Hr]]; [| |exact Hr];
        unfold send_replied; rewrite He; try rewrite Hok;
        destruct (audio_fetch env), (audio_blob env), (audio_base64 env);
        try reflexivity; destruct (send_json env) as [[]|]; reflexivity. }
    rewrite Hr in H.
    destruct (currentSession s) as [session|].
    + destruct H as (e & s' & H & Hm & _). eauto.
    + eauto.
Qed.


(** [startRecording] does not read the recording it holds: it
    succeeds exactly when the permission is granted and every device
    call resolves, and then holds the new recording; otherwise it
    fails and the held recording is unchanged. *)
Lemma startRecording_cases (env : RecordEnv) (s : State) :
  (recording_starts env = true ->
   exists s',
     startRecording env s = (Ok tt, s') /\
     audioRecording s' = Some (rec_new env)) /\
  (recording_starts env = false ->
   exists e s',
     startRecording env s = (Throw e, s') /\
     audioRecording s' = audioRecording s).
Proof.
  unfold startRecording, recording_starts, call.
  unfold try_catch, bind, get, modify, await, ret, throw.
  destruct (rec_permission env) as [status|]; cbn;
    [|split; [discriminate|eauto]].
  destruct (String.eqb status "granted"); cbn;
    [|destruct (rec_audio_mode env), (rec_prepare env), (rec_start env);
      split; try discriminate; eauto].
  destruct (rec_audio_mode env) as [[]|]; cbn; [|split; [discriminate|eauto]].
  destruct (rec_prepare env) as [[]|]; cbn; [|split; [discriminate|eauto]].
  destruct (rec_start env) as [[]|]; cbn; [|split; [discriminate|eauto]].
  split; [eauto|discriminate].
Qed.

(** C4.  In every state in which a recording is active (the service
    holds it and it is the one prepared on the device),
    [startRecording] fails, whatever the permission request and the
    device calls would otherwise answer, and the recording stays
    active.  A [startRecording] that succeeds leads to such a state,
    and it succeeds from the free recorder whenever the permission is
    granted and the device calls resolve: so of two calls without a
    [stopRecording] in between, the second fails. *)
Theorem startRecording_again_fails (env : RecordEnv) (w : Recorder.Device * State) :
  (forall recording,
      Recorder.recording_active w recording ->
      exists e w',
        Recorder.startRecording env w = (Throw e, w') /\
        Recorder.recording_active w' recording) /\
  (Recorder.prepared (fst w) = None -> recording_starts env = true ->
   exists w',
     Recorder.startRecording env w = (Ok tt, w') /\
     Recorder.recording_active w' (rec_new env)) /\
  (forall w',
      Recorder.startRecording env w = (Ok tt, w') ->
      Recorder.recording_active w' (rec_new env)).
Proof.
  destruct w as [d s]. unfold Recorder.startRecording, Recorder.recording_active.
  cbn [fst snd].
  destruct (startRecording_cases (Recorder.answers d env) s) as [Hstarts Hfails].
  split; [|split].
  - intros recording [Hheld Hprepared].
    assert (Hno : recording_starts (Recorder.answers d env) = false).
    { unfold recording_starts, Recorder.answers. cbn. rewrite Hprepared.
      destruct (rec_permission env), (rec_audio_mode env); reflexivity. }
    assert (Hnot : Recorder.prepares (Recorder.answers d env) = false).
    { unfold Recorder.prepares, Recorder.answers. cbn. rewrite Hprepared.
      destruct (rec_permission env), (rec_audio_mode env); reflexivity. }
    destruct (Hfails Hno) as (e & s' & Hrun & Hsame).
    rewrite Hrun, Hnot. exists e, (d, s'). cbn. split; [reflexivity|].
    split; [congruence|exact Hprepared].
  - intros Hfree Hready.
    assert (Hsame : Recorder.answers d env = env).
    { unfold Recorder.answers. rewrite Hfree. destruct env; reflexivity. }
    rewrite Hsame in *. destruct (Hstarts Hready) as (s' & Hrun & Hheld).
    assert (Hprep : Recorder.prepares env = true).
    { unfold recording_starts in Hready. unfold Recorder.prepares.
      destruct (rec_permission env), (rec_audio_mode env), (rec_prepare env),
        (rec_start env); congruence. }
    rewrite Hrun, Hprep. eexists. split; [reflexivity|]. cbn. auto.
  - destruct (recording_starts (Recorder.answers d env)) eqn:Hready.
    + destruct (Hstarts eq_refl) as (s' & Hrun & Hheld). rewrite Hrun.
      assert (Hprep : Recorder.prepares (Recorder.answers d env) = true).
      { unfold recording_starts in Hready. unfold Recorder.prepares.
        destruct (rec_permission (Recorder.answers d env)),
          (rec_audio_mode (Recorder.answers d env)),
          (rec_prepare (Recorder.answers d env)),
          (rec_start (Recorder.answers d env)); congruence. }
      rewrite Hprep. intros w' Hw'. injection Hw' as <-. cbn. auto.
    + destruct (Hfails eq_refl) as (e & s' & Hrun & _). rewrite Hrun.
      intros w' Hw'. discriminate Hw'.
Qed.

(** C10.  Once the device has stopped and unloaded the recording,
    [stopRecording] holds no recording any more, also when it then
    fails because no URI was produced; a [stopRecording] that follows
    at once fails with "No active recording" and changes nothing. *)
Theorem stopRecording_releases_before_uri_check
  (env : StopEnv) (s : State) (recording : Recording) :
  audioRecording s = Some recording ->
  stop_unload env = Resolves tt ->
  exists r s',
    stopRecording env s = (r, s') /\
    audioRecording s' = None /\
    (truthy (stop_uri env) = true -> r = Ok (or_else (stop_uri env) "")) /\
    (truthy (stop_uri env) = false ->
     r = Throw (Error "Failed to get recording URI")) /\
    (forall env',
        stopRecording env' s' = (Throw (Error "No active recording"), s')).
Proof.
  intros Hrec Hstop.
  unfold stopRecording, call.
  unfold try_catch, bind, get, modify, await, ret, throw.
  rewrite Hrec, Hstop. cbn.
  destruct (stop_uri env) as [[|c r]|]; cbn;
    eexists _, _; (split; [reflexivity|]); cbn;
    repeat split; auto; discriminate.
Qed.

End SessionFacts.

(** The turn of the end-to-end scenario: the reply carries the
    transcript "I live in Boston". *)
Lemma sendAudioMessage_appends_turn_witness :
  exists agentMessage s',
    ElevenLabsConversationService.sendAudioMessage "file:///turn.m4a"
      (Scenario.send_with (Js.Resolves Scenario.http_200) (Some "I live in Boston"))
      Scenario.in_session
    = (Js.Ok agentMessage, s') /\
    map ElevenLabsConversationService.content
      (ElevenLabsConversationService.messages s')
    = ["I live in Boston"; "Tell me more"].
Proof.
  destruct (sendAudioMessage_appends_turn "file:///turn.m4a"
              (Scenario.send_with (Js.Resolves Scenario.http_200)
                 (Some "I live in Boston"))
              Scenario.in_session) as [Hsucceeds Hturn].
  destruct (Hsucceeds _ _ eq_refl eq_refl) as (agentMessage & s' & Hsend).
  exists agentMessage, s'. split; [exact Hsend|].
  destruct (Hturn _ _ Hsend)
    as (_ & data & userMessage & Hdata & Hmessages & _ & _ & Huser & _ & Hagent & _).
  injection Hdata as <-.
  rewrite Hmessages. cbn.
  rewrite (Huser "I live in Boston" eq_refl ltac:(discriminate)), Hagent.
  reflexivity.
Defined.

(** Without a session the call fails at once; with a session and an
    HTTP 500 answer it fails and the history is kept. *)
Lemma sendAudioMessage_failure_keeps_history_witness :
  ElevenLabsConversationService.sendAudioMessage "file:///turn.m4a"
    (Scenario.send_with (Js.Resolves Scenario.http_200) None)
    ElevenLabsConversationService.new
  = (Js.Throw (Js.Error "No active conversation session"),
     ElevenLabsConversationService.new) /\
  exists e s',
    ElevenLabsConversationService.sendAudioMessage "file:///turn.m4a"
      (Scenario.send_with (Js.Resolves Scenario.http_500) None) Scenario.busy
    = (Js.Throw e, s') /\
    ElevenLabsConversationService.messages s'
    = ElevenLabsConversationService.messages Scenario.busy.
Proof.
  split.
  - destruct (sendAudioMessage_failure_keeps_history "file:///turn.m4a"
                (Scenario.send_with (Js.Resolves Scenario.http_200) None)
                ElevenLabsConversationService.new) as (_ & Hnone & _).
    exact (Hnone eq_refl).
  - destruct (sendAudioMessage_failure_keeps_history "file:///turn.m4a"
                (Scenario.send_with (Js.Resolves Scenario.http_500) None)
                Scenario.busy) as (_ & _ & Hremote).
    apply Hremote. right. left. exists Scenario.http_500. split; reflexivity.
Defined.



(** Recording 1 is started on the free recorder; a second
    [startRecording], granted and ready to build recording 2, is
    refused by the device and recording 1 stays. *)
Lemma startRecording_again_fails_witness :
  exists w1 w2,
    Recorder.startRecording (Scenario.granted 1)
      (Recorder.free, ElevenLabsConversationService.new)
    = (Js.Ok tt, w1) /\
    Recorder.startRecording (Scenario.granted 2) w1
    = (Js.Throw Recorder.recorder_taken, w2) /\
    Recorder.recording_active w2 1.
Proof.
  destruct (startRecording_again_fails (Scenario.granted 1)
              (Recorder.free, ElevenLabsConversationService.new))
    as (_ & Hfirst & _).
  destruct (Hfirst eq_refl eq_refl) as (w1 & Hstart & Hactive).
  exists w1.
  destruct (startRecording_again_fails (Scenario.granted 2) w1)
    as (Hagain & _ & _).
  destruct (Hagain 1 Hactive) as (e & w2 & Hfails & Hkept).
  exists w2. split; [exact Hstart|]. split; [|exact Hkept].
  rewrite Hfails. vm_compute in Hstart. injection Hstart as <-.
  vm_compute in Hfails. injection Hfails as <- _. reflexivity.
Defined.

(** Recording 1 is stopped but yields no URI: the call fails, the
    handle is gone, and a second call reports that no recording is
    active. *)
Lemma stopRecording_releases_before_uri_check_witness :
  exists s',
    ElevenLabsConversationService.stopRecording Scenario.stop_without_uri
      Scenario.busy
    = (Js.Throw (Js.Error "Failed to get recording URI"), s') /\
    ElevenLabsConversationService.audioRecording s' = None /\
    ElevenLabsConversationService.stopRecording Scenario.stop_without_uri s'
    = (Js.Throw (Js.Error "No active recording"), s').
Proof.
  destruct (stopRecording_releases_before_uri_check Scenario.stop_without_uri
              Scenario.busy 1 eq_refl eq_refl)
    as (r & s' & Hstop & Hnone & _ & Hfails & Hagain).
  exists s'. rewrite Hstop, (Hfails eq_refl). repeat split; auto.
Defined.

(* ===================================================================== *)
(** ** Properties of the speech client                                   *)
(* ===================================================================== *)

Section SpeechFacts.

Import Js.
Import ElevenLabsService.

(** C7.  [getAvailableVoices] always resolves.  Whenever the catalog
    is not delivered, be it that the fetch rejects (a network error),
    that the body cannot be read, or that the envelope does not
    report success (as in the body of an HTTP 500 answer), it
    resolves with the fallback list, which has five voices. *)
Theorem getAvailableVoices_falls_back (env : VoicesEnv) (s : State) :
  (exists voices s', getAvailableVoices env s = (Ok voices, s')) /\
  ((exists e, voices_fetch env = Rejects e) \/
   (exists data, voices_json env = Resolves (Some data) /\ success data = false) \/
   catalog_delivered env = false ->
   exists s', getAvailableVoices env s = (Ok getFallbackVoices, s')) /\
  length getFallbackVoices = 5.
Proof.
  unfold getAvailableVoices, catalog_delivered, call.
  unfold try_catch, bind, get, modify, await, ret, throw.
  split; [|split; [|reflexivity]].
  - destruct (voices_fetch env) as [[]|]; cbn; [|eauto].
    destruct (voices_json env) as [[data|]|]; cbn; [|eauto..].
    destruct (success data); cbn; eauto.
  - intros Hfail.
    destruct (voices_fetch env) as [[]|]; cbn; [|eauto].
    destruct (voices_json env) as [[data|]|]; cbn; [|eauto..].
    destruct (success data) eqn:Hsuccess; cbn; [|eauto].
    destruct Hfail as [[e He]|[(data' & Hd & Hs)|Hc]]; try discriminate.
    injection Hd as <-. congruence.
Qed.

Lemma silence_self (sound : Sound) : silence sound [sound] = [].
Proof.
  unfold silence. cbn. destruct (decide (handle sound <> handle sound)) as [H|H].
  - contradiction H. reflexivity.
  - reflexivity.
Qed.

(** With a device that obeys, [playAudio] leaves the device playing
    exactly the new sound, after stopping and unloading the sound
    that was tracked. *)
Lemma playAudio_obeyed (audioUri : string) (env : PlayAudioEnv) (s : State) :
  tracked s -> device_obeys env = true ->
  exists s',
    playAudio audioUri env s = (Ok tt, s') /\
    let sound := {| handle := created s; uri := audioUri |} in
    currentSound s' = Some sound /\
    playing s' = [sound] /\
    created s' = S (created s) /\
    calls s' = calls s
               ++ match currentSound s with
                  | Some previous => [SoundStop previous; SoundUnload previous]
                  | None => []
                  end
               ++ [SoundCreate audioUri].
Proof.
  unfold tracked, device_obeys, resolved, playAudio, stopAudio,
    createAsync, stopAsync, unloadAsync, call.
  unfold try_catch, bind, get, modify, await, ret, throw.
  destruct s as [[previous|] device n log]; cbn -[silence]; intros -> Hobeys.
  - destruct (stop_async (play_stop env)) as [[]|]; [|discriminate].
    destruct (unload_async (play_stop env)) as [[]|]; [|discriminate].
    destruct (play_create env) as [[]|]; [|discriminate].
    cbn -[silence]. rewrite !silence_self. cbn.
    eexists. split; [reflexivity|]. cbn.
    rewrite <- !app_assoc. auto.
  - destruct (play_create env) as [[]|];
      [|destruct (stop_async (play_stop env)), (unload_async (play_stop env));
        discriminate].
    cbn. eexists. split; [reflexivity|]. cbn. auto.
Qed.

(** C8, as amended.  When the device plays exactly what the service
    tracks, and every device call of the two calls resolves, then
    [playAudio a] followed by [playAudio b] stops and unloads the
    sound of [a] before it creates the sound of [b], and afterwards
    the sound of [b] is the only one playing and the one the service
    holds. *)
Theorem playAudio_replaces_playback
  (a b : string) (envA envB : PlayAudioEnv) (s : State) :
  tracked s -> device_obeys envA = true -> device_obeys envB = true ->
  exists soundA soundB s1 s2,
    playAudio a envA s = (Ok tt, s1) /\
    playAudio b envB s1 = (Ok tt, s2) /\
    uri soundA = a /\ uri soundB = b /\ handle soundA <> handle soundB /\
    currentSound s1 = Some soundA /\ playing s1 = [soundA] /\
    calls s2 = calls s1 ++ [SoundStop soundA; SoundUnload soundA; SoundCreate b] /\
    currentSound s2 = Some soundB /\ playing s2 = [soundB].
Proof.
  intros Htracked HA HB.
  destruct (playAudio_obeyed a envA s Htracked HA)
    as (s1 & H1 & Hc1 & Hp1 & Hn1 & _).
  assert (tracked s1) as Htracked1 by (unfold tracked; rewrite Hc1, Hp1; reflexivity).
  destruct (playAudio_obeyed b envB s1 Htracked1 HB)
    as (s2 & H2 & Hc2 & Hp2 & _ & Hl2).
  rewrite Hc1 in Hl2. rewrite Hn1 in Hc2, Hp2.
  exists {| handle := created s; uri := a |},
         {| handle := S (created s); uri := b |}, s1, s2.
  cbn. repeat split; auto.
Qed.

End SpeechFacts.

(** The catalog endpoint answers HTTP 500: the call resolves with the
    five fallback voices, Adam first. *)
Lemma getAvailableVoices_falls_back_witness :
  exists voices s',
    ElevenLabsService.getAvailableVoices Scenario.catalog_500 ElevenLabsService.new
    = (Js.Ok voices, s') /\
    length voices = 5 /\
    map ElevenLabsService.name voices = ["Adam"; "Bella"; "Arnold"; "Elli"; "Josh"].
Proof.
  destruct (getAvailableVoices_falls_back Scenario.catalog_500 ElevenLabsService.new)
    as (_ & Hfallback & Hfive).
  destruct Hfallback as (s' & Hvoices).
  { right. left. eexists. split; reflexivity. }
  exists ElevenLabsService.getFallbackVoices, s'.
  split; [exact Hvoices|]. split; [exact Hfive|reflexivity].
Defined.

(** The claim as stated fails on [playAudio]: when the device refuses
    to stop the sound of "a", [playAudio "b"] still resolves, the sound
    of "a" is neither stopped nor unloaded, and both sounds play. *)
Lemma playAudio_overlaps_when_stop_fails :
  let s1 := snd (ElevenLabsService.playAudio "a" Scenario.device_ok
                   ElevenLabsService.new) in
  let soundA := {| ElevenLabsService.handle := 0; ElevenLabsService.uri := "a" |} in
  let soundB := {| ElevenLabsService.handle := 1; ElevenLabsService.uri := "b" |} in
  ElevenLabsService.playing s1 = [soundA] /\
  exists s2,
    ElevenLabsService.playAudio "b" Scenario.stop_refused s1 = (Js.Ok tt, s2) /\
    ElevenLabsService.calls s2
    = ElevenLabsService.calls s1
      ++ [ElevenLabsService.SoundStop soundA; ElevenLabsService.SoundCreate "b"] /\
    ElevenLabsService.playing s2 = [soundA; soundB] /\
    ElevenLabsService.currentSound s2 = Some soundB.
Proof.
  cbv zeta. split; [reflexivity|]. eexists. split; [reflexivity|].
  repeat split.
Qed.

(** From the fresh service, with an obeying device: "a" is stopped and
    unloaded before "b" is created, and only "b" plays afterwards. *)
Lemma playAudio_replaces_playback_witness :
  exists s1 s2,
    ElevenLabsService.playAudio "a" Scenario.device_ok ElevenLabsService.new
    = (Js.Ok tt, s1) /\
    ElevenLabsService.playAudio "b" Scenario.device_ok s1 = (Js.Ok tt, s2) /\
    map ElevenLabsService.uri (ElevenLabsService.playing s2) = ["b"].
Proof.
  destruct (playAudio_replaces_playback "a" "b" Scenario.device_ok
              Scenario.device_ok ElevenLabsService.new eq_refl eq_refl eq_refl)
    as (soundA & soundB & s1 & s2 & HA & HB & _ & Huri & _ & _ & _ & _ & _ & Hplaying).
  exists s1, s2. split; [exact HA|]. split; [exact HB|].
  rewrite Hplaying. cbn. rewrite Huri. reflexivity.
Defined.

(* ===================================================================== *)
(** ** Properties of the practice screen                                 *)
(* ===================================================================== *)

Section ScreenFacts.

Import Js.
Import PracticeScreen.

(** Reads a field through the setters of the screen. *)
Ltac project :=
  cbn [service setConversationState setIsRecording setCurrentSession
       setMessages setConnectionStatus alert set_settleTimers set_service
       fst snd] in *.

(** Closes a goal in which a recording handle is both held and not. *)
Ltac absurd_recording :=
  let Hsome := fresh in
  intros Hsome;
  repeat match goal with
         | H : Service.audioRecording _ = Service.audioRecording _ |- _ =>
             rewrite H in Hsome; clear H
         end;
  match goal with
  | H : Service.audioRecording ?svc = None |- _ =>
      rewrite H in Hsome; discriminate Hsome
  end.

Lemma startConversation_recording (env : Service.StartEnv) (s : Service.State) :
  Service.audioRecording (snd (Service.startConversation env s))
  = Service.audioRecording s.
Proof.
  unfold Service.startConversation, Service.call.
  unfold try_catch, bind, get, modify, await, ret, throw.
  destruct (Service.start_fetch env) as [response|]; cbn; [|reflexivity].
  destruct (Service.ok response); cbn; [|reflexivity].
  destruct (Service.start_json env) as [[data|]|]; reflexivity.
Qed.

Lemma stopRecording_recording (env : Service.StopEnv) (s : Service.State) :
  Service.audioRecording s = None ->
  Service.audioRecording (snd (Service.stopRecording env s)) = None.
Proof.
  unfold Service.stopRecording, bind, get, throw. intros H. rewrite H. exact H.
Qed.

Lemma sendAudioMessage_recording
  (audioUri : string) (env : Service.SendEnv) (s : Service.State) :
  Service.audioRecording (snd (Service.sendAudioMessage audioUri env s))
  = Service.audioRecording s.
Proof.
  pose proof (sendAudioMessage_cases audioUri env s) as H.
  destruct (Service.currentSession s) as [session|].
  - destruct (Service.send_replied env) as [data|].
    + destruct H as (u & a & s' & -> & _ & Hr & _). exact Hr.
    + destruct H as (e & s' & -> & _ & Hr). exact Hr.
  - rewrite H. reflexivity.
Qed.

Lemma endConversation_recording (env : Service.EndEnv) (s : Service.State) :
  Service.audioRecording s = None ->
  Service.audioRecording (snd (Service.endConversation env s)) = None.
Proof.
  unfold Service.endConversation, Service.call.
  unfold try_catch, bind, get, modify, await, ret.
  destruct s as [[session|] history recording sound log]; cbn; intros ->; auto.
  destruct (Service.end_fetch env) as [response|]; cbn; [|reflexivity].
  destruct sound as [sound|]; cbn; [|reflexivity].
  destruct (Service.end_unload env) as [[]|]; reflexivity.
Qed.

Lemma guard_open (p : Screen) :
  negb (bool_decide (is_Some (currentSession p)))
  || negb (bool_decide (conversationState p = idle)) = false ->
  conversationState p = idle /\ is_Some (currentSession p).
Proof.
  intros H. apply orb_false_elim in H as [H1 H2].
  apply negb_false_iff, bool_decide_eq_true in H1, H2. auto.
Qed.

Lemma guard_closed (p : Screen) :
  currentSession p = None \/ conversationState p <> idle ->
  negb (bool_decide (is_Some (currentSession p)))
  || negb (bool_decide (conversationState p = idle)) = true.
Proof.
  intros [H|H]; apply orb_true_iff; [left|right];
    apply negb_true_iff, bool_decide_eq_false; [|exact H].
  rewrite H. intros [x Hx]. discriminate Hx.
Qed.

(** C9.  The capture-start handler of the practice screen returns at
    once, changing neither the screen nor the conversation service,
    unless a session is active and the conversation state is [idle].
    Hence no handler of the screen turns recording on, be it the
    [isRecording] flag or the recording held by the service, except
    from [idle] with an active session. *)
Theorem capture_start_guarded :
  (forall env p,
      currentSession p = None \/ conversationState p <> idle ->
      startRecording env p = p) /\
  (forall p p',
      step p p' ->
      isRecording p = false -> isRecording p' = true ->
      conversationState p = idle /\ is_Some (currentSession p) /\
      conversationState p' = listening) /\
  (forall p p',
      step p p' ->
      Service.audioRecording (service p) = None ->
      is_Some (Service.audioRecording (service p')) ->
      conversationState p = idle /\ is_Some (currentSession p)).
Proof.
  split; [|split].
  - intros env p H. unfold startRecording. rewrite guard_closed; auto.
  - intros p p' Hstep Hoff Hon. destruct Hstep; revert Hon.
    + unfold initializeConversation.
      destruct (Service.startConversation _ _) as [[session|e] svc]; cbn; congruence.
    + cbn. congruence.
    + unfold startRecording.
      destruct (negb _ || negb _) eqn:Hguard; [congruence|].
      apply guard_open in Hguard as [Hidle Hsession].
      destruct (Service.startRecording _ _) as [[[]|e] svc]; cbn; [auto|congruence].
    + unfold stopRecording. rewrite Hoff. cbn. congruence.
    + unfold settled. destruct (settleTimers p); cbn; congruence.
    + cbn. congruence.
    + cbn. congruence.
  - intros p p' Hstep Hnone [recording Hsome]. revert Hsome.
    destruct Hstep.
    + unfold initializeConversation. cbv zeta.
      change (service (setConversationState processing
                         (setConnectionStatus connecting p)))
        with (service p).
      pose proof (startConversation_recording env (service p)) as H.
      destruct (Service.startConversation env (service p)) as [[session|e] svc];
        project; absurd_recording.
    + unfold readyPressed. project. absurd_recording.
    + unfold startRecording.
      destruct (negb _ || negb _) eqn:Hguard; [absurd_recording|].
      intros _. apply guard_open, Hguard.
    + unfold stopRecording.
      destruct (negb _ || negb _); [absurd_recording|].
      cbv zeta.
      change (service (setConversationState processing (setIsRecording false p)))
        with (service p).
      pose proof (stopRecording_recording stop (service p) Hnone) as H.
      destruct (Service.stopRecording stop (service p)) as [[audioUri|e] svc];
        project; [|absurd_recording].
      pose proof (sendAudioMessage_recording audioUri send svc) as H'.
      destruct (Service.sendAudioMessage audioUri send svc)
        as [[agentMessage|e] svc'];
        project; absurd_recording.
    + unfold settled. destruct (settleTimers p); project; absurd_recording.
    + pose proof (endConversation_recording env (service p) Hnone) as H.
      unfold endSessionConfirmed. project. absurd_recording.
    + pose proof (endConversation_recording env (service p) Hnone) as H.
      unfold unmounted. project. absurd_recording.
Qed.

End ScreenFacts.

(** On the started screen: while [listening] a capture-start request
    changes nothing; from [idle] it starts recording and the screen
    listens. *)
Lemma capture_start_guarded_witness :
  PracticeScreen.startRecording (Scenario.granted 1)
    (PracticeScreen.readyPressed Scenario.ready)
  = PracticeScreen.readyPressed Scenario.ready /\
  PracticeScreen.isRecording
    (PracticeScreen.startRecording (Scenario.granted 1) Scenario.ready) = true /\
  PracticeScreen.conversationState Scenario.ready = PracticeScreen.idle /\
  PracticeScreen.conversationState
    (PracticeScreen.startRecording (Scenario.granted 1) Scenario.ready)
  = PracticeScreen.listening.
Proof.
  destruct capture_start_guarded as (Hnoop & Hflag & _).
  split.
  - apply Hnoop. right. discriminate.
  - split; [reflexivity|].
    destruct (Hflag Scenario.ready
                (PracticeScreen.startRecording (Scenario.granted 1) Scenario.ready)
                (PracticeScreen.step_start _ _) eq_refl eq_refl)
      as (Hidle & _ & Hlistening).
    split; [exact Hidle|exact Hlistening].
Defined.


(* ===================================================================== *)
(** ** Further properties of the reconnecting channel                    *)
(* ===================================================================== *)

Section ChannelExtras.

Import WebSocketService.

Variable Date_now : nat -> Z.

(** The loop of [flushMessageQueue] keeps the fields of the reconnect
    logic. *)
Lemma flush_fields (fuel : nat) :
  forall s s' : State,
    flushMessageQueue Date_now fuel s = Some s' ->
    timers s' = timers s /\ reconnectAttempts s' = reconnectAttempts s /\
    maxReconnectAttempts s' = maxReconnectAttempts s /\
    reconnectDelay s' = reconnectDelay s /\
    socket s' = socket s /\ sockets s' = sockets s.
Proof.
  induction fuel as [|fuel IH]; intros s s'; simpl;
    destruct (messageQueue s) as [|message rest] eqn:Hq; intros H;
    try discriminate H; try (injection H as <-; repeat split; reflexivity).
  apply IH in H. revert H. unfold send. cbn.
  destruct (socket s) as [h|] eqn:Hs; [destruct (sockets s !! h) as [[]|]|]; cbn;
    rewrite ?Hs; tauto.
Qed.

(** A successful open resets the backoff: whatever the attempt counter
    was, once the current socket has opened, the next close schedules
    the first reconnect attempt again, after one base delay. *)
Theorem open_resets_backoff (s s' : State) (h fuel : nat) (url : string) :
  socket_opens Date_now h fuel s = Some s' ->
  0 < maxReconnectAttempts s ->
  reconnectAttempts s' = 0 /\
  let s'' := socket_closes h url s' in
  reconnectAttempts s'' = 1 /\
  timers s'' = timers s ++ [(reconnectDelay s, url)].
Proof.
  unfold socket_opens, onopen. intros Hflush Hmax.
  apply flush_fields in Hflush as (Ht & Ha & Hm & Hd & _). cbn in *.
  split; [exact Ha|].
  unfold socket_closes, onclose, attemptReconnect. cbn.
  rewrite Ha, Hm, Ht, Hd.
  destruct (maxReconnectAttempts s); [lia|].
  cbn. rewrite Nat.mul_1_r. auto.
Qed.

(** [disconnect] empties the queue, resets the counter and drops the
    socket, so that both queries report the channel down; but it does
    not cancel reconnection: when the close event of the socket it
    closed arrives, a reconnect is scheduled after one base delay, and
    when that timer fires the service holds a new connecting socket. *)
Theorem disconnect_does_not_stop_reconnect (s : State) (h : nat) (url : string) :
  socket s = Some h ->
  timers s = [] ->
  0 < maxReconnectAttempts s ->
  let s1 := disconnect s in
  isConnected s1 = false /\ getConnectionState s1 = "disconnected" /\
  messageQueue s1 = [] /\ reconnectAttempts s1 = 0 /\
  let s2 := socket_closes h url s1 in
  timers s2 = [(reconnectDelay s, url)] /\
  getConnectionState (timeout s2) = "connecting".
Proof.
  intros Hs Ht Hmax. unfold disconnect. rewrite Hs. cbn.
  repeat (split; [reflexivity|]).
  unfold socket_closes, onclose, attemptReconnect. cbn.
  destruct (maxReconnectAttempts s); [lia|].
  cbn. rewrite Ht, Nat.mul_1_r. split; [reflexivity|].
  unfold timeout, connect, getConnectionState. cbn.
  rewrite lookup_app_r by lia.
  match goal with
  | |- context [?n - ?n] => replace (n - n) with 0 by lia
  end.
  reflexivity.
Qed.

Lemma flush_offline (fuel : nat) :
  forall s : State,
    socket_open s = false -> messageQueue s <> [] ->
    flushMessageQueue Date_now fuel s = None.
Proof.
  induction fuel as [|fuel IH]; intros s Hoff Hq; simpl;
    destruct (messageQueue s) as [|message rest] eqn:E; try congruence.
  assert (socket_open (set_messageQueue rest s) = false) as Hoff' by exact Hoff.
  rewrite (send_offline Date_now message _ Hoff').
  apply IH.
  - exact Hoff.
  - cbn. destruct rest; discriminate.
Qed.

(** The open handler of a socket that is not the current one never
    finishes its flush: when messages are queued and the current
    socket (if any) is not open, as after a second [connect] made
    before the first socket opened, every message taken from the queue
    is put back and the loop does not end, whatever bound it is
    given. *)
Theorem stale_open_never_finishes (s : State) (h fuel : nat) :
  socket s <> Some h ->
  socket_open s = false ->
  messageQueue s <> [] ->
  socket_opens Date_now h fuel s = None.
Proof.
  intros Hstale Hoff Hq. unfold socket_opens, onopen.
  apply flush_offline; [|exact Hq].
  unfold socket_open in *. cbn.
  destruct (socket s) as [h'|]; [|reflexivity].
  rewrite list_lookup_insert_ne by congruence. exact Hoff.
Qed.

(** While the current socket is open, [send] never queues: a series of
    sends hands the socket one stamped frame per message, in call
    order, and leaves the queue as it was. *)
Theorem send_connected_in_order (messages : list WebSocketMessage) :
  forall (s : State) (h : nat),
    socket s = Some h -> sockets s !! h = Some OPEN ->
    let s' := fold_left (fun s message => send Date_now message s) messages s in
    wire s' = wire s ++ frames Date_now h (ticks s) messages /\
    messageQueue s' = messageQueue s /\
    isConnected s' = true.
Proof.
  induction messages as [|message rest IH]; intros s h Hs Ho; cbn.
  - rewrite app_nil_r. unfold isConnected, socket_open. rewrite Hs, Ho. auto.
  - rewrite (send_online Date_now message s h Hs Ho).
    destruct (IH (transmit Date_now h message s) h Hs Ho) as (Hw & Hq & Hc).
    rewrite Hw, Hq, Hc. cbn. rewrite <- app_assoc. auto.
Qed.

End ChannelExtras.

(* ===================================================================== *)
(** ** Properties of the listener registry                               *)
(* ===================================================================== *)

Section DispatchFacts.

Import Js.
Import WebSocketDispatch.

Variable behaviour :
  Listener -> WebSocketService.WebSocketMessage -> State
  -> list RegistryCall * option exn.

Lemma registered_on (messageType t : string) (listener : Listener) (s : State) :
  registered t (on messageType listener s)
  = if decide (t = messageType) then registered messageType s ++ [listener]
    else registered t s.
Proof.
  unfold registered, on.
  destruct (listeners s !! messageType) as [l|] eqn:E; cbn.
  - rewrite E. cbn. destruct (decide (t = messageType)) as [->|Hne].
    + rewrite lookup_insert_eq. reflexivity.
    + rewrite lookup_insert_ne by congruence. reflexivity.
  - rewrite lookup_insert_eq. cbn. destruct (decide (t = messageType)) as [->|Hne].
    + rewrite lookup_insert_eq. reflexivity.
    + rewrite !lookup_insert_ne by congruence. reflexivity.
Qed.

Lemma registered_off (messageType t : string) (listener : Listener) (s : State) :
  registered t (off messageType listener s)
  = if decide (t = messageType) then splice_first listener (registered messageType s)
    else registered t s.
Proof.
  unfold registered, off.
  destruct (listeners s !! messageType) as [l|] eqn:E; cbn.
  - destruct (decide (t = messageType)) as [->|Hne].
    + rewrite lookup_insert_eq. reflexivity.
    + rewrite lookup_insert_ne by congruence. reflexivity.
  - destruct (decide (t = messageType)) as [->|Hne]; [rewrite E|]; reflexivity.
Qed.

Lemma splice_first_absent (listener : Listener) (l : list Listener) :
  listener ∉ l -> splice_first listener l = l.
Proof.
  induction l as [|x rest IH]; intros Hnot; [reflexivity|]. cbn.
  apply not_elem_of_cons in Hnot as [Hne Hrest].
  destruct (Nat.eqb_spec x listener); [congruence|].
  rewrite IH by assumption. reflexivity.
Qed.

Lemma splice_first_added (listener : Listener) (l : list Listener) :
  listener ∉ l -> splice_first listener (l ++ [listener]) = l.
Proof.
  induction l as [|x rest IH]; intros Hnot; cbn.
  - rewrite Nat.eqb_refl. reflexivity.
  - apply not_elem_of_cons in Hnot as [Hne Hrest].
    destruct (Nat.eqb_spec x listener); [congruence|].
    rewrite IH by assumption. reflexivity.
Qed.

Lemma splice_first_added_perm (listener : Listener) (l : list Listener) :
  splice_first listener (l ++ [listener]) ≡ₚ l.
Proof.
  induction l as [|x rest IH]; cbn.
  - rewrite Nat.eqb_refl. reflexivity.
  - destruct (Nat.eqb_spec x listener) as [->|Hne].
    + symmetry. apply Permutation_cons_append.
    + rewrite IH. reflexivity.
Qed.

(** Registering a listener and removing it again is a round trip on
    what gets dispatched: [on] appends the listener to the list of its
    message type and touches no other type; a following [off] gives
    back the same listeners for every type, in the same order when the
    listener had not been registered before; and since [off] removes a
    single registration, a listener registered twice stays registered
    once. *)
Theorem on_off_round_trip (messageType : string) (listener : Listener) (s : State) :
  (forall t,
      registered t (on messageType listener s)
      = if decide (t = messageType) then registered messageType s ++ [listener]
        else registered t s) /\
  (forall t,
      registered t (off messageType listener (on messageType listener s))
      ≡ₚ registered t s) /\
  (listener ∉ registered messageType s ->
   (forall t,
       registered t (off messageType listener (on messageType listener s))
       = registered t s) /\
   registered messageType
     (off messageType listener
        (on messageType listener (on messageType listener s)))
   = registered messageType s ++ [listener]).
Proof.
  split; [intros t; apply registered_on|]. split.
  - intros t. rewrite registered_off.
    destruct (decide (t = messageType)) as [->|Hne]; rewrite registered_on.
    + rewrite decide_True by reflexivity. apply splice_first_added_perm.
    + rewrite decide_False by assumption. reflexivity.
  - intros Hnot. split.
    + intros t. rewrite registered_off.
      destruct (decide (t = messageType)) as [->|Hne]; rewrite registered_on.
      * rewrite decide_True by reflexivity. apply splice_first_added, Hnot.
      * rewrite decide_False by assumption. reflexivity.
    + rewrite registered_off, decide_True by reflexivity.
      rewrite !registered_on, !decide_True by reflexivity.
      rewrite <- app_assoc.
      replace (registered messageType s ++ [listener] ++ [listener])
        with ((registered messageType s ++ [listener]) ++ [listener])
        by (rewrite <- app_assoc; reflexivity).
      assert (forall l, listener ∉ l ->
                splice_first listener ((l ++ [listener]) ++ [listener])
                = l ++ [listener]) as Hsplice.
      { induction l as [|x rest IH]; intros Hl; cbn.
        - rewrite Nat.eqb_refl. reflexivity.
        - apply not_elem_of_cons in Hl as [Hne Hrest].
          destruct (Nat.eqb_spec x listener); [congruence|].
          rewrite IH by assumption. reflexivity. }
      apply Hsplice, Hnot.
Qed.

(** Removing a listener that is not registered for the type, be it
    that the type has no entry at all, changes what is dispatched for
    no type. *)
Theorem off_unregistered (messageType : string) (listener : Listener) (s : State) :
  listener ∉ registered messageType s ->
  forall t, registered t (off messageType listener s) = registered t s.
Proof.
  intros Hnot t. rewrite registered_off.
  destruct (decide (t = messageType)) as [->|Hne]; [|reflexivity].
  apply splice_first_absent, Hnot.
Qed.

Lemma invoke_guarded
  (message : WebSocketService.WebSocketMessage) (x : Listener) (d : Dispatch) :
  guarded behaviour message x d = (Ok tt, called behaviour x message d).
Proof.
  unfold guarded, try_catch, invoke, called, bind, get, modify, throw, ret.
  destruct (behaviour x message (service d)) as [calls [e|]]; reflexivity.
Qed.

Lemma forEach_step (f : Listener -> M Dispatch unit) (steps k : nat) (d : Dispatch) :
  forEach (S steps) k f d
  = match array d !! k with
    | Some x =>
        match f x d with
        | (Ok _, d1) => forEach steps (S k) f d1
        | (Throw e, d1) => (Throw e, d1)
        end
    | None => forEach steps (S k) f d
    end.
Proof.
  cbn [forEach]. unfold bind, get, ret.
  destruct (array d !! k); reflexivity.
Qed.

Lemma forEach_total (message : WebSocketService.WebSocketMessage) (steps : nat) :
  forall k d, exists d', forEach steps k (guarded behaviour message) d = (Ok tt, d').
Proof.
  induction steps as [|steps IH]; intros k d.
  - eexists. reflexivity.
  - rewrite forEach_step. destruct (array d !! k) as [x|]; [|apply IH].
    rewrite invoke_guarded. apply IH.
Qed.

Lemma called_quiet (message : WebSocketService.WebSocketMessage)
  (raises : Listener -> option exn) (x : Listener) (d : Dispatch) :
  (forall s0, behaviour x message s0 = ([], raises x)) ->
  let d1 := called behaviour x message d in
  array d1 = array d /\ detached d1 = detached d /\ iterated d1 = iterated d /\
  listeners (service d1) = listeners (service d) /\
  invoked (service d1) = invoked (service d) ++ [(x, message)] /\
  logged (service d1) = logged (service d) ++ match raises x with
                                              | Some e => [e]
                                              | None => []
                                              end.
Proof.
  intros Hquiet. unfold called. rewrite Hquiet. cbn [fst snd fold_left].
  destruct (raises x) as [e|]; unfold array, registered; cbn;
    rewrite ?app_nil_r; auto 10.
Qed.

(** A stretch of the iteration in which no listener touches the
    registry: the listeners from index [k] on are called in order, as
    far as the length read at the start reaches. *)
Lemma forEach_quiet (message : WebSocketService.WebSocketMessage)
  (raises : Listener -> option exn) (steps : nat) :
  forall k d,
    (forall x s0, x ∈ drop k (array d) -> behaviour x message s0 = ([], raises x)) ->
    exists d',
      forEach steps k (guarded behaviour message) d = (Ok tt, d') /\
      listeners (service d') = listeners (service d) /\
      invoked (service d')
      = invoked (service d)
        ++ map (fun x => (x, message)) (take steps (drop k (array d))) /\
      logged (service d')
      = logged (service d) ++ omap raises (take steps (drop k (array d))).
Proof.
  induction steps as [|steps IH]; intros k d Hquiet.
  - exists d. cbn. rewrite !app_nil_r. auto.
  - rewrite forEach_step. destruct (array d !! k) as [x|] eqn:Hk.
    + rewrite invoke_guarded.
      pose proof (drop_S _ _ _ Hk) as Hdrop.
      assert (Hx : forall s0, behaviour x message s0 = ([], raises x)).
      { intros s0. apply Hquiet. rewrite Hdrop. apply elem_of_cons. auto. }
      destruct (called_quiet message raises x d Hx)
        as (Harray & _ & _ & Hl & Hi & Hg).
      destruct (IH (S k) (called behaviour x message d)) as (d' & H & Hl' & Hi' & Hg').
      { intros y s0 Hy. apply Hquiet. rewrite Hdrop. apply elem_of_cons.
        rewrite Harray in Hy. auto. }
      exists d'. split; [exact H|]. rewrite Hl', Hi', Hg', Hl, Hi, Hg, Harray, Hdrop.
      cbn [take map]. rewrite <- !app_assoc.
      split; [reflexivity|]. split; [reflexivity|].
      cbn. destruct (raises x); reflexivity.
    + assert (Hnone : drop k (array d) = []).
      { apply drop_ge. apply lookup_ge_None. exact Hk. }
      assert (Hnext : drop (S k) (array d) = []).
      { apply drop_ge. apply lookup_ge_None in Hk. lia. }
      destruct (IH (S k) d) as (d' & H & Hl' & Hi' & Hg').
      { intros y s0 Hy. rewrite Hnext in Hy. apply elem_of_nil in Hy.
        destruct Hy. }
      exists d'. split; [exact H|].
      rewrite Hl', Hi', Hg', Hnone, Hnext, !take_nil. auto.
Qed.

Lemma array_start (messageType : string) (s : State) :
  array (start messageType s) = registered messageType s.
Proof.
  unfold array, start, registered. cbn.
  destruct (listeners s !! messageType); reflexivity.
Qed.

(** Dispatch of an inbound frame.  The handler returns normally
    whatever the frame is and whatever the listeners do.  A frame that
    does not parse, or that is [null], reaches no listener and is only
    logged; a value without a string [type] reaches no listener
    either.  [handleMessage] iterates the registered array itself:
    when the listeners registered for the type leave the registry
    alone, each of them is called, in the order of registration, a
    listener that throws stops none of the later ones, and its error is
    only logged; but when the first listener removes itself during the
    call, the array shifts under the iteration, and the listener
    registered next is not called for this frame. *)
Theorem onmessage_dispatch (parsed : result Inbound) (s : State) :
  (exists s', onmessage behaviour parsed s = (Ok tt, s')) /\
  (forall e,
      parsed = Throw e -> onmessage behaviour parsed s = (Ok tt, log_error e s)) /\
  (parsed = Ok Null ->
   onmessage behaviour parsed s = (Ok tt, log_error type_of_null s)) /\
  (parsed = Ok Untyped -> onmessage behaviour parsed s = (Ok tt, s)) /\
  (forall message raises,
      parsed = Ok (Typed message) ->
      (forall x s0,
          x ∈ registered (WebSocketService.type message) s ->
          behaviour x message s0 = ([], raises x)) ->
      exists s',
        onmessage behaviour parsed s = (Ok tt, s') /\
        listeners s' = listeners s /\
        invoked s'
        = invoked s ++ map (fun x => (x, message))
                         (registered (WebSocketService.type message) s) /\
        logged s'
        = logged s ++ omap raises (registered (WebSocketService.type message) s)) /\
  (forall message raises first next rest,
      parsed = Ok (Typed message) ->
      registered (WebSocketService.type message) s = first :: next :: rest ->
      first ∉ rest ->
      (forall s0,
          behaviour first message s0
          = ([CallOff (WebSocketService.type message) first], None)) ->
      (forall x s0, x ∈ rest -> behaviour x message s0 = ([], raises x)) ->
      exists s',
        onmessage behaviour parsed s = (Ok tt, s') /\
        registered (WebSocketService.type message) s' = next :: rest /\
        invoked s'
        = invoked s ++ (first, message) :: map (fun x => (x, message)) rest /\
        logged s' = logged s ++ omap raises rest).
Proof.
  split; [|split; [|split; [|split; [|split]]]].
  - unfold onmessage, try_catch.
    destruct parsed as [[| |message]|e]; try (eexists; reflexivity).
    unfold handleMessage.
    destruct (forEach_total message
                (length (array (start (WebSocketService.type message) s))) 0
                (start (WebSocketService.type message) s)) as (d' & ->).
    eexists. reflexivity.
  - intros e ->. reflexivity.
  - intros ->. reflexivity.
  - intros ->. reflexivity.
  - intros message raises -> Hquiet.
    unfold onmessage, try_catch, handleMessage.
    destruct (forEach_quiet message raises
                (length (array (start (WebSocketService.type message) s))) 0
                (start (WebSocketService.type message) s))
      as (d' & H & Hl & Hi & Hg).
    { intros x s0 Hx. apply Hquiet. rewrite drop_0, array_start in Hx. exact Hx. }
    rewrite H. exists (service d'). split; [reflexivity|].
    rewrite drop_0, take_ge, array_start in Hi, Hg by reflexivity. auto.
  - intros message raises first next rest -> Hregistered Hnot Hfirst Hrest.
    unfold onmessage, try_catch, handleMessage.
    set (t := WebSocketService.type message) in *.
    rewrite array_start, Hregistered.
    assert (Hattached : detached (start t s) = None).
    { unfold start. cbn. unfold registered in Hregistered.
      destruct (listeners s !! t); [reflexivity|discriminate Hregistered]. }
    change (length (first :: next :: rest)) with (S (S (length rest))).
    rewrite forEach_step, array_start, Hregistered. cbn [lookup list_lookup].
    rewrite invoke_guarded.
    set (d1 := called behaviour first message (start t s)).
    assert (Hd1 : d1 = on_service (off t first)
                         (on_service (log_call first message) (start t s))).
    { unfold d1, called. rewrite Hfirst. reflexivity. }
    assert (Harray : array d1 = next :: rest).
    { rewrite Hd1. unfold array. cbn [detached on_service iterated service].
      rewrite Hattached. cbn [start iterated service].
      rewrite registered_off, decide_True by reflexivity.
      change (registered t (log_call first message s)) with (registered t s).
      rewrite Hregistered. cbn. rewrite Nat.eqb_refl. reflexivity. }
    destruct (forEach_quiet message raises (S (length rest)) 1 d1)
      as (d' & H & Hl & Hi & Hg).
    { intros x s0 Hx. apply Hrest. rewrite Harray in Hx. exact Hx. }
    rewrite H. exists (service d'). split; [reflexivity|].
    rewrite Harray in Hi, Hg. cbn [drop] in Hi, Hg.
    rewrite drop_0, take_ge in Hi, Hg by lia.
    split; [|split].
    + unfold registered. rewrite Hl.
      change (default [] (listeners (service d1) !! t)) with (registered t (service d1)).
      unfold array in Harray. rewrite Hd1 in Harray.
      cbn [detached on_service] in Harray. rewrite Hattached in Harray.
      rewrite Hd1. exact Harray.
    + rewrite Hi, Hd1. cbn [service on_service start].
      unfold off. destruct (listeners (log_call first message s) !! t);
        cbn; rewrite <- app_assoc; reflexivity.
    + rewrite Hg, Hd1. cbn [service on_service start].
      unfold off. destruct (listeners (log_call first message s) !! t);
        reflexivity.
Qed.

End DispatchFacts.


(* ===================================================================== *)
(** ** Further properties of the speech client                           *)
(* ===================================================================== *)

Section SpeechExtras.

Import Js.
Import Speech.

Lemma split_comma_free (s : string) :
  comma_free s = true -> split_comma s = [s].
Proof.
  induction s as [|c rest IH]; cbn; [reflexivity|].
  destruct (Ascii.eqb c (Ascii.ascii_of_nat 44)); cbn; [discriminate|].
  intros H. rewrite IH by exact H. reflexivity.
Qed.

Lemma split_comma_at (header rest : string) :
  comma_free header = true ->
  split_comma (header ++ String (Ascii.ascii_of_nat 44) rest)%string
  = header :: split_comma rest.
Proof.
  induction header as [|c header IH]; intros H; [reflexivity|].
  change (String c header ++ String (Ascii.ascii_of_nat 44) rest)%string
    with (String c (header ++ String (Ascii.ascii_of_nat 44) rest)%string).
  cbn [split_comma]. cbn [comma_free] in H.
  destruct (Ascii.eqb c (Ascii.ascii_of_nat 44)); [discriminate|].
  rewrite IH by exact H. reflexivity.
Qed.

Lemma split_comma_header (header rest : string) :
  comma_free header = true ->
  split_comma (header ++ "," ++ rest)%string = header :: split_comma rest.
Proof. exact (split_comma_at header rest). Qed.

Lemma append_associative (a b c : string) :
  ((a ++ b) ++ c = a ++ (b ++ c))%string.
Proof.
  induction a as [|x a IH]; [reflexivity|].
  change (String x (((a ++ b) ++ c))%string = String x (a ++ (b ++ c))%string).
  rewrite IH. reflexivity.
Qed.

Lemma comma_free_app (a b : string) :
  comma_free a = true -> comma_free b = true -> comma_free (a ++ b)%string = true.
Proof.
  induction a as [|c a IH]; intros Ha Hb; [exact Hb|].
  change (String c a ++ b)%string with (String c (a ++ b)%string).
  cbn [comma_free] in *.
  destruct (Ascii.eqb c (Ascii.ascii_of_nat 44)); [discriminate|].
  apply IH; assumption.
Qed.

(** [blobToBase64] strips the header of a data URL: read from
    "header,payload" with no comma in the header or the payload, it
    resolves with the payload.  When the reader's result holds no
    comma at all it resolves with [undefined], and when the reader
    fails it rejects with the reader's error. *)
Theorem blobToBase64_payload :
  (forall header payload,
      comma_free header = true -> comma_free payload = true ->
      blobToBase64 (Resolves (header ++ "," ++ payload)%string)
      = Resolves (Some payload)) /\
  (forall result,
      comma_free result = true -> blobToBase64 (Resolves result) = Resolves None) /\
  (forall e, blobToBase64 (Rejects e) = Rejects e).
Proof.
  split; [|split].
  - intros header payload Hh Hp. unfold blobToBase64.
    rewrite split_comma_header, split_comma_free by assumption. reflexivity.
  - intros result H. unfold blobToBase64. rewrite split_comma_free by exact H.
    reflexivity.
  - reflexivity.
Qed.

(** [generateSpeech] never throws and touches no state.  It returns
    [null] exactly when speech is not delivered (a call rejects, the
    body is [null], the envelope does not report success, or the audio
    data is missing or empty).  Otherwise it returns a data URI from
    which [blobToBase64] recovers the audio data, as long as neither
    the content type nor the data holds a comma. *)
Theorem generateSpeech_result
  (S : Type) (text voiceId : string) (env : SpeechEnv) (s : S) :
  exists r,
    generateSpeech text voiceId env s = (Ok r, s) /\
    (r = None <-> speech_delivered env = None) /\
    (forall data,
        speech_delivered env = Some data ->
        comma_free (template (contentType data)) = true ->
        comma_free (template (audioData data)) = true ->
        exists audioUri,
          r = Some audioUri /\
          blobToBase64 (Resolves audioUri) = Resolves (audioData data)).
Proof.
  unfold generateSpeech, speech_delivered.
  unfold try_catch, bind, await, ret, throw.
  destruct (speech_fetch env) as [[]|]; cbn;
    [|eexists; split; [reflexivity|]; split; [tauto|discriminate]].
  destruct (speech_json env) as [[data|]|]; cbn;
    [|eexists; split; [reflexivity|]; split; [tauto|discriminate]..].
  destruct (success data); cbn;
    [|eexists; split; [reflexivity|]; split; [tauto|discriminate]].
  destruct (audioData data) as [[|c audio]|] eqn:Haudio; cbn;
    try (eexists; split; [reflexivity|]; split; [tauto|discriminate]).
  eexists. split; [reflexivity|]. split; [split; discriminate|].
  intros data' Hdata Hct Hau. injection Hdata as <-.
  rewrite Haudio in *. cbn in Hau.
  eexists. split; [reflexivity|].
  unfold blobToBase64.
  replace ("data:" ++ template (contentType data) ++ ";base64," ++ String c audio)%string
    with (("data:" ++ template (contentType data) ++ ";base64")
          ++ "," ++ String c audio)%string.
  - rewrite split_comma_header.
    + rewrite split_comma_free by exact Hau. reflexivity.
    + apply (comma_free_app "data:"); [reflexivity|].
      apply comma_free_app; [exact Hct|reflexivity].
  - rewrite !append_associative. reflexivity.
Qed.

Lemma stopAudio_cases (env : ElevenLabsService.StopAudioEnv)
  (s : ElevenLabsService.State) :
  exists s',
    ElevenLabsService.stopAudio env s = (Ok tt, s') /\
    ElevenLabsService.created s' = ElevenLabsService.created s /\
    (ElevenLabsService.currentSound s = None -> s' = s) /\
    (ElevenLabsService.resolved (ElevenLabsService.stop_async env)
     && ElevenLabsService.resolved (ElevenLabsService.unload_async env) = true ->
     ElevenLabsService.currentSound s' = None /\
     (ElevenLabsService.tracked s -> ElevenLabsService.playing s' = [])) /\
    (ElevenLabsService.resolved (ElevenLabsService.stop_async env) = false ->
     ElevenLabsService.currentSound s' = ElevenLabsService.currentSound s /\
     ElevenLabsService.playing s' = ElevenLabsService.playing s).
Proof.
  unfold ElevenLabsService.stopAudio, ElevenLabsService.stopAsync,
    ElevenLabsService.unloadAsync, ElevenLabsService.call,
    ElevenLabsService.tracked, ElevenLabsService.resolved.
  unfold try_catch, bind, get, modify, await, ret.
  destruct s as [[sound|] device n log]; cbn -[ElevenLabsService.silence].
  - destruct (ElevenLabsService.stop_async env) as [[]|];
      destruct (ElevenLabsService.unload_async env) as [[]|];
      cbn -[ElevenLabsService.silence]; eexists; (split; [reflexivity|]);
      cbn -[ElevenLabsService.silence];
      repeat split; try discriminate; auto.
    intros ->. rewrite !silence_self. reflexivity.
  - eexists. split; [reflexivity|]. cbn. repeat split; auto.
Qed.

(** [stopAudio] never throws.  With nothing playing it changes
    nothing; when the device stops and unloads the sound, the handle
    is dropped, so that a second [stopAudio] changes nothing; and when
    the device refuses to stop, the handle is kept, so that a later
    call tries again. *)
Theorem stopAudio_idempotent (env env' : ElevenLabsService.StopAudioEnv)
  (s : ElevenLabsService.State) :
  exists s',
    ElevenLabsService.stopAudio env s = (Ok tt, s') /\
    (ElevenLabsService.currentSound s = None -> s' = s) /\
    (ElevenLabsService.resolved (ElevenLabsService.stop_async env)
     && ElevenLabsService.resolved (ElevenLabsService.unload_async env) = true ->
     ElevenLabsService.currentSound s' = None /\
     ElevenLabsService.stopAudio env' s' = (Ok tt, s')) /\
    (ElevenLabsService.resolved (ElevenLabsService.stop_async env) = false ->
     ElevenLabsService.currentSound s' = ElevenLabsService.currentSound s).
Proof.
  destruct (stopAudio_cases env s) as (s' & H & _ & Hnone & Hclean & Hkept).
  exists s'. split; [exact H|]. split; [exact Hnone|]. split.
  - intros Hok. destruct (Hclean Hok) as [Hcur _]. split; [exact Hcur|].
    destruct (stopAudio_cases env' s') as (s'' & H' & _ & Hnone' & _).
    rewrite H', (Hnone' Hcur). reflexivity.
  - intros Hfail. apply Hkept, Hfail.
Qed.

Lemma playAudio_cases (audioUri : string) (env : ElevenLabsService.PlayAudioEnv)
  (s : ElevenLabsService.State) :
  ElevenLabsService.tracked s ->
  ElevenLabsService.resolved
    (ElevenLabsService.stop_async (ElevenLabsService.play_stop env))
  && ElevenLabsService.resolved
       (ElevenLabsService.unload_async (ElevenLabsService.play_stop env)) = true ->
  exists s',
    ElevenLabsService.playAudio audioUri env s = (Ok tt, s') /\
    ElevenLabsService.tracked s' /\
    (ElevenLabsService.resolved (ElevenLabsService.play_create env) = false ->
     ElevenLabsService.currentSound s' = None).
Proof.
  intros Htracked Hclean.
  destruct (stopAudio_cases (ElevenLabsService.play_stop env) s)
    as (s1 & H1 & _ & _ & Hstop & _).
  destruct (Hstop Hclean) as [Hcur Hplaying]. specialize (Hplaying Htracked).
  unfold ElevenLabsService.playAudio.
  unfold try_catch at 1. unfold bind at 1. rewrite H1.
  unfold ElevenLabsService.createAsync, ElevenLabsService.call,
    ElevenLabsService.tracked, ElevenLabsService.resolved.
  unfold bind, get, modify, await, ret.
  destruct (ElevenLabsService.play_create env) as [[]|]; cbn;
    eexists; (split; [reflexivity|]); cbn; rewrite ?Hcur, ?Hplaying;
    split; auto; discriminate.
Qed.

(** At most one sound plays along any series of [playAudio] and
    [stopAudio] calls and playback-finished callbacks that are made
    one after the other, each run to completion before the next
    begins, and in which the device stops and unloads as asked: from
    a state in which the device plays exactly the sound the service
    tracks, the series keeps it so; and a [playAudio] that follows and
    whose new sound fails to load leaves silence.  (Calls that overlap
    are outside this statement.) *)
Theorem player_keeps_one_sound (acts : list player_action) :
  forall s : ElevenLabsService.State,
    ElevenLabsService.tracked s ->
    forallb stops_cleanly acts = true ->
    let s' := fold_left (fun s a => act a s) acts s in
    ElevenLabsService.tracked s' /\
    length (ElevenLabsService.playing s') <= 1 /\
    (forall audioUri env,
        stops_cleanly (Play audioUri env) = true ->
        ElevenLabsService.resolved (ElevenLabsService.play_create env) = false ->
        ElevenLabsService.currentSound (act (Play audioUri env) s') = None /\
        ElevenLabsService.playing (act (Play audioUri env) s') = []).
Proof.
  induction acts as [|a acts IH]; intros s Htracked Hclean; cbn [fold_left].
  - split; [exact Htracked|]. split.
    + unfold ElevenLabsService.tracked in Htracked.
      rewrite Htracked. destruct (ElevenLabsService.currentSound s); cbn; lia.
    + intros audioUri env Hstops Hfails. cbn [stops_cleanly] in Hstops.
      unfold act.
      destruct (playAudio_cases audioUri env s Htracked Hstops)
        as (s' & -> & Htracked' & Hnone).
      cbn [snd]. specialize (Hnone Hfails). split; [exact Hnone|].
      unfold ElevenLabsService.tracked in Htracked'.
      rewrite Htracked', Hnone. reflexivity.
  - cbn [forallb] in Hclean. apply andb_true_iff in Hclean as [Ha Hacts].
    apply IH; [|exact Hacts].
    destruct a as [audioUri env|env|env]; unfold act; cbn [stops_cleanly] in Ha.
    + destruct (playAudio_cases audioUri env s Htracked Ha) as (s' & -> & H & _).
      exact H.
    + destruct (stopAudio_cases env s) as (s' & -> & _ & Hnone & Hstop & _).
      destruct (Hstop Ha) as [Hcur Hplaying]. cbn [snd].
      unfold ElevenLabsService.tracked. rewrite Hcur. auto.
    + unfold ElevenLabsService.onPlaybackStatusUpdate, when. cbn [andb].
      destruct (stopAudio_cases env s) as (s' & -> & _ & Hnone & Hstop & _).
      destruct (Hstop Ha) as [Hcur Hplaying]. cbn [snd].
      unfold ElevenLabsService.tracked. rewrite Hcur. auto.
Qed.

Lemma playAudio_total (audioUri : string) (env : ElevenLabsService.PlayAudioEnv)
  (s : ElevenLabsService.State) :
  exists s', ElevenLabsService.playAudio audioUri env s = (Ok tt, s').
Proof.
  unfold ElevenLabsService.playAudio. unfold try_catch at 1.
  match goal with
  | |- context [match ?x with _ => _ end] => destruct x as [[[]|e] s']
  end; cbn; eauto.
Qed.

(** [previewVoice] never throws.  When speech is not delivered it
    leaves the player untouched; when it is, and the device obeys, the
    generated data URI is the one sound that plays afterwards. *)
Theorem previewVoice_absorbs (voiceId sampleText : string) (env : PreviewEnv)
  (s : ElevenLabsService.State) :
  exists s',
    previewVoice voiceId sampleText env s = (Ok tt, s') /\
    (speech_delivered (preview_speech env) = None -> s' = s) /\
    (forall data,
        speech_delivered (preview_speech env) = Some data ->
        ElevenLabsService.tracked s ->
        ElevenLabsService.device_obeys (preview_play env) = true ->
        exists sound,
          ElevenLabsService.currentSound s' = Some sound /\
          ElevenLabsService.playing s' = [sound] /\
          ElevenLabsService.uri sound
          = ("data:" ++ template (contentType data) ++ ";base64,"
             ++ template (audioData data))%string).
Proof.
  unfold previewVoice, generateSpeech, speech_delivered.
  unfold try_catch at 1. unfold bind at 1.
  unfold try_catch, bind, await, ret, throw.
  destruct (speech_fetch (preview_speech env)) as [[]|]; cbn;
    [|eexists; split; [reflexivity|]; split; [auto|discriminate]].
  destruct (speech_json (preview_speech env)) as [[data|]|]; cbn;
    [|eexists; split; [reflexivity|]; split; [auto|discriminate]..].
  destruct (success data); cbn;
    [|eexists; split; [reflexivity|]; split; [auto|discriminate]].
  destruct (audioData data) as [[|c audio]|] eqn:Haudio; cbn;
    try (eexists; split; [reflexivity|]; split; [auto|discriminate]).
  set (rest := (template (contentType data) ++ ";base64," ++ String c audio)%string).
  change ("data:" ++ rest)%string with (String (Ascii.ascii_of_nat 100) ("ata:" ++ rest)%string).
  cbv beta iota.
  match goal with
  | |- context [ElevenLabsService.playAudio ?u ?e ?t] =>
      destruct (playAudio_total u e t) as (s' & Hplay);
      pose proof (playAudio_obeyed u e t) as Hobeyed
  end.
  rewrite Hplay. exists s'. split; [reflexivity|]. split; [discriminate|].
  intros data' Hdata Htracked Hobeys. injection Hdata as <-.
  destruct (Hobeyed Htracked Hobeys) as (s'' & Hplay' & Hcur & Hplaying & _).
  rewrite Hplay in Hplay'. injection Hplay' as <-.
  eexists. split; [exact Hcur|]. split; [exact Hplaying|].
  cbn. rewrite Haudio. reflexivity.
Qed.

End SpeechExtras.


(* ===================================================================== *)
(** ** Further properties of the conversation session manager            *)
(* ===================================================================== *)

Section SessionExtras.

Import Js.
Import ElevenLabsConversationService.
Import SessionOutcomes.

(** What [startConversation] does, by the remote reply. *)
Lemma startConversation_cases (env : StartEnv) (s : State) :
  match start_replied env with
  | Some data =>
      exists session s',
        startConversation env s = (Ok session, s') /\
        currentSession s' = Some session /\
        conversationId session = conversation_id data /\
        agentId session = agent_id data /\
        status session = active /\
        messages s' = [] /\
        audioRecording s' = audioRecording s /\
        audioSound s' = audioSound s
  | None =>
      exists e s',
        startConversation env s = (Throw e, s') /\
        currentSession s' = currentSession s /\
        messages s' = messages s
  end.
Proof.
  unfold startConversation, start_replied, call.
  unfold try_catch, bind, get, modify, await, ret, throw.
  destruct (start_fetch env) as [response|]; cbn;
    [|eexists _, _; repeat split].
  destruct (ok response); cbn;
    [|destruct (start_json env) as [[]|]; eexists _, _; repeat split].
  destruct (start_json env) as [[data|]|]; cbn; eexists _, _; repeat split.
Qed.

(** [startConversation] succeeds exactly when the remote call replies.
    It then holds an active session with the returned identifiers and
    an empty history, and keeps the audio handles it held.  Otherwise
    it fails and the session and the history stay as they were, so a
    failed restart does not lose the running conversation. *)
Theorem startConversation_outcome (env : StartEnv) (s : State) :
  match start_replied env with
  | Some data =>
      exists session s',
        startConversation env s = (Ok session, s') /\
        currentSession s' = Some session /\
        conversationId session = conversation_id data /\
        agentId session = agent_id data /\
        status session = active /\
        messages s' = [] /\
        audioRecording s' = audioRecording s /\
        audioSound s' = audioSound s
  | None =>
      exists e s',
        startConversation env s = (Throw e, s') /\
        currentSession s' = currentSession s /\
        messages s' = messages s
  end.
Proof. exact (startConversation_cases env s). Qed.

(** A recording started and then stopped, step by step. *)
Lemma record_then_stop_steps (renv : RecordEnv) (senv : StopEnv) (uri : string)
  (s : State) :
  recording_starts renv = true ->
  stop_unload senv = Resolves tt ->
  stop_uri senv = Some uri -> uri <> "" ->
  exists s1 s2,
    startRecording renv s = (Ok tt, s1) /\
    stopRecording senv s1 = (Ok uri, s2) /\
    audioRecording s2 = None /\
    calls s2 = calls s ++ [RequestPermissions; SetAudioMode;
                           PrepareToRecord (rec_new renv);
                           StartAsync (rec_new renv);
                           StopAndUnload (rec_new renv)] /\
    currentSession s2 = currentSession s /\ messages s2 = messages s.
Proof.
  unfold recording_starts, startRecording, stopRecording, call.
  unfold try_catch, bind, get, modify, await, ret, throw.
  intros Hstarts Hstop Huri Hne. rewrite Hstop, Huri.
  destruct (rec_permission renv) as [status|]; [|discriminate].
  destruct (rec_audio_mode renv) as [[]|]; [|discriminate].
  destruct (rec_prepare renv) as [[]|]; [|discriminate].
  destruct (rec_start renv) as [[]|]; [|discriminate].
  cbn. rewrite Hstarts. cbn.
  destruct uri as [|c r]; [congruence|].
  eexists _, _. repeat split. cbn. rewrite <- !app_assoc. reflexivity.
Qed.

(** Recording and stopping compose: after a [startRecording] that
    succeeds from any state, a [stopRecording] whose device call
    resolves and yields a non-empty URI returns that URI and leaves no
    recording held; the device was asked, in this order, for the
    permission, the audio mode, to prepare, to start, and to stop and
    unload the same recording. *)
Theorem record_then_stop (renv : RecordEnv) (senv : StopEnv) (uri : string)
  (s : State) :
  recording_starts renv = true ->
  stop_unload senv = Resolves tt ->
  stop_uri senv = Some uri -> uri <> "" ->
  exists s1 s2,
    startRecording renv s = (Ok tt, s1) /\
    stopRecording senv s1 = (Ok uri, s2) /\
    audioRecording s2 = None /\
    calls s2 = calls s ++ [RequestPermissions; SetAudioMode;
                           PrepareToRecord (rec_new renv);
                           StartAsync (rec_new renv);
                           StopAndUnload (rec_new renv)] /\
    currentSession s2 = currentSession s /\ messages s2 = messages s.
Proof. exact (record_then_stop_steps renv senv uri s). Qed.

(** When the device fails to stop the recording, [stopRecording] fails
    with the device's error and still holds the recording, so that the
    call can be made again; made again with a device that obeys, it
    returns the URI and releases the recording. *)
Theorem stopRecording_retry (env env' : StopEnv) (e : exn) (uri : string)
  (recording : Recording) (s : State) :
  audioRecording s = Some recording ->
  stop_unload env = Rejects e ->
  stop_unload env' = Resolves tt ->
  stop_uri env' = Some uri -> uri <> "" ->
  exists s1 s2,
    stopRecording env s = (Throw e, s1) /\
    audioRecording s1 = Some recording /\
    stopRecording env' s1 = (Ok uri, s2) /\
    audioRecording s2 = None.
Proof.
  unfold stopRecording, call.
  unfold try_catch, bind, get, modify, await, ret, throw.
  destruct s as [current history held sound log]; cbn.
  intros -> -> Hok Huri Hne. cbn. rewrite Hok, Huri. cbn.
  destruct uri as [|c r]; [congruence|].
  eexists _, _. repeat split.
Qed.

(** [endConversation] is idempotent: once a call in which no awaited
    call rejects has returned, a second call, whatever the remote end
    and the device would answer, changes nothing. *)
Theorem endConversation_idempotent (env env' : EndEnv) (s : State) :
  resolved_end env s = true ->
  exists s',
    endConversation env s = (Ok tt, s') /\
    endConversation env' s' = (Ok tt, s').
Proof.
  unfold endConversation, resolved_end, resolved, call.
  unfold try_catch, bind, get, modify, await, ret.
  destruct s as [[session|] history recording sound log]; cbn;
    [|eexists; split; reflexivity].
  destruct (end_fetch env) as [response|]; cbn; [|discriminate].
  destruct recording as [recording|], sound as [sound|];
    destruct (end_stop_unload env) as [[]|];
    destruct (end_unload env) as [[]|]; cbn; try discriminate;
    intros _; eexists; split; reflexivity.
Qed.

(** When unloading the held recording fails during [endConversation],
    the call still resolves and the session is gone, but the recording
    is still held and the sound was never asked to unload; and since
    no session is left, no later [endConversation] releases them. *)
Theorem endConversation_partial_cleanup
  (env env' : EndEnv) (response : Response) (e : exn)
  (session : ConversationSession) (recording : Recording) (s : State) :
  currentSession s = Some session ->
  audioRecording s = Some recording ->
  end_fetch env = Resolves response ->
  end_stop_unload env = Rejects e ->
  exists s',
    endConversation env s = (Ok tt, s') /\
    currentSession s' = None /\
    audioRecording s' = Some recording /\
    audioSound s' = audioSound s /\
    calls s' = calls s ++ [Post "end_conversation"; StopAndUnload recording] /\
    endConversation env' s' = (Ok tt, s').
Proof.
  unfold endConversation, call.
  unfold try_catch, bind, get, modify, await, ret.
  destruct s as [current history held sound log]; cbn.
  intros -> -> -> ->. cbn.
  eexists. repeat split. cbn. rewrite <- app_assoc. reflexivity.
Qed.

(** The reply audio of a turn.  In a successful [sendAudioMessage],
    a reply without audio URL leaves the sound handle alone and makes
    no device call; a reply with one, when the device calls resolve,
    unloads the sound held before, then creates and starts the new
    sound, which becomes the held one.  When the new sound cannot be
    created, the handle of the earlier sound is kept. *)
Theorem sendAudioMessage_playback
  (audioUri : string) (env : SendEnv) (s : State)
  (session : ConversationSession) (data : SendReply) :
  currentSession s = Some session ->
  send_replied env = Some data ->
  exists agentMessage s',
    sendAudioMessage audioUri env s = (Ok agentMessage, s') /\
    (truthy (agent_audio_url data) = false ->
     audioSound s' = audioSound s /\
     calls s' = calls s ++ [FetchAudio audioUri; Post "send_audio"]) /\
    (forall audioUrl sound,
        agent_audio_url data = Some audioUrl -> audioUrl <> "" ->
        played (send_play env) s = Some sound ->
        audioSound s' = Some sound /\
        calls s' = calls s ++ [FetchAudio audioUri; Post "send_audio"]
                   ++ match audioSound s with
                      | Some previous => [SoundUnload previous]
                      | None => []
                      end
                   ++ [SoundCreate audioUrl; SoundPlay sound]) /\
    (forall e, play_create (send_play env) = Rejects e ->
               audioSound s' = audioSound s).
Proof.
  unfold send_replied, played. intros Hsession Hreplied.
  unfold sendAudioMessage, playAgentResponse, call, push.
  unfold try_catch, bind, get, modify, await, ret, throw.
  rewrite Hsession.
  destruct (audio_fetch env) as [[]|]; [|discriminate].
  destruct (audio_blob env) as [[]|]; [|discriminate].
  destruct (audio_base64 env); [|discriminate].
  destruct (send_fetch env) as [response|]; [|discriminate].
  destruct (send_json env) as [[data'|]|];
    [|destruct (ok response); discriminate..].
  destruct (ok response); [|discriminate]. injection Hreplied as ->.
  destruct s as [current history recording sound log]; cbn.
  destruct (agent_audio_url data) as [[|c r]|]; cbn.
  - eexists _, _. split; [reflexivity|]. cbn.
    repeat split; try discriminate; try congruence.
    rewrite <- app_assoc. reflexivity.
  - destruct sound as [previous|];
      destruct (play_unload (send_play env)) as [[]|];
      destruct (play_create (send_play env)) as [created|];
      destruct (play_start (send_play env)) as [[]|]; cbn;
      eexists _, _; (split; [reflexivity|]); cbn;
      (split; [discriminate|]);
      (split; [|intros; congruence]);
      intros audioUrl sound Hurl Hne Hplayed;
      try discriminate Hplayed;
      injection Hurl as <-; injection Hplayed as <-;
      (split; [reflexivity|]); rewrite <- !app_assoc; reflexivity.
  - eexists _, _. split; [reflexivity|]. cbn.
    repeat split; try discriminate; try congruence.
    rewrite <- app_assoc. reflexivity.
Qed.

End SessionExtras.


(* ===================================================================== *)
(** ** Further properties of the practice screen                         *)
(* ===================================================================== *)

Section ScreenExtras.

Import Js.
Import PracticeScreen.
Import PracticeControls.
Import SessionOutcomes.


(** Starting the session always ends in [idle].  When the remote call
    replies, the screen is connected and holds the very session that
    the service holds, and the "Session Started" alert is up; when it
    does not, the screen is disconnected with the "Connection Error"
    alert and keeps whatever session it had. *)
Theorem initializeConversation_outcome (env : Service.StartEnv) (p : Screen) :
  let p' := initializeConversation env p in
  conversationState p' = idle /\
  match start_replied env with
  | Some data =>
      connectionStatus p' = connected /\
      alerts p' = alerts p ++ ["Session Started"] /\
      currentSession p' = Service.currentSession (service p') /\
      exists session,
        currentSession p' = Some session /\
        Service.conversationId session = Service.conversation_id data
  | None =>
      connectionStatus p' = disconnected /\
      alerts p' = alerts p ++ ["Connection Error"] /\
      currentSession p' = currentSession p
  end.
Proof.
  cbv zeta. unfold initializeConversation. cbv zeta.
  change (service (setConversationState processing
                     (setConnectionStatus connecting p)))
    with (service p).
  pose proof (startConversation_cases env (service p)) as H.
  destruct (start_replied env) as [data|].
  - destruct H as (session & s' & -> & Hcur & Hid & _).
    cbn. repeat split; auto. eauto.
  - destruct H as (e & s' & -> & _). cbn. auto.
Qed.

(** After the [Ready] button of the "Session Started" alert the
    microphone is dead: the screen is [listening] without a recording,
    so a press reaches [startRecording], which only acts in [idle],
    and any number of presses leaves the screen as it is. *)
Theorem ready_blocks_microphone
  (presses : list (Service.RecordEnv * Service.StopEnv * Service.SendEnv))
  (p : Screen) :
  isRecording p = false ->
  fold_left (fun p '(record, stop, send) => microphonePressed record stop send p)
    presses (readyPressed p)
  = readyPressed p.
Proof.
  intros Hoff. induction presses as [|[[record stop] send] presses IH]; cbn.
  - reflexivity.
  - assert (microphonePressed record stop send (readyPressed p) = readyPressed p)
      as ->; [|exact IH].
    unfold microphonePressed.
    destruct (microphoneDisabled (readyPressed p)); [reflexivity|].
    cbn [isRecording readyPressed setConversationState]. rewrite Hoff.
    unfold startRecording. cbn [conversationState readyPressed setConversationState].
    rewrite (bool_decide_eq_false_2 (listening = idle)) by discriminate.
    rewrite orb_true_r. reflexivity.
Qed.



End ScreenExtras.


(* ===================================================================== *)
(** ** Properties of the application shell                               *)
(* ===================================================================== *)

Section HomeFacts.

Import Js.
Import Home.

(** A saved profile survives a relaunch.  After onboarding, or after
    the selection of a voice with a non-empty identifier, when the
    write to the storage resolves, closing and reopening the
    application (the read resolving) gives back the same profile on
    the same screen.  A voice whose identifier is empty is saved too,
    but the relaunch asks for the voice again.  When the write fails,
    choosing a voice still moves to the practice screen, but neither
    the profile in use nor the stored one has the voice. *)
Theorem profile_survives_relaunch (h : State) :
  (forall name score mode,
      let h' := handleOnboardingComplete (Resolves tt) name score mode h in
      relaunch (Resolves tt) h' = h' /\ appState h' = voice_selection) /\
  (forall voiceId,
      voiceId <> "" ->
      let h' := handleVoiceSelected (Resolves tt) voiceId h in
      relaunch (Resolves tt) h' = h' /\ appState h' = practice /\
      selectedVoice (userProfile h') = Some voiceId) /\
  (let h' := handleVoiceSelected (Resolves tt) "" h in
   appState h' = practice /\
   appState (relaunch (Resolves tt) h') = voice_selection /\
   userProfile (relaunch (Resolves tt) h') = userProfile h') /\
  (forall e voiceId,
      let h' := handleVoiceSelected (Rejects e) voiceId h in
      appState h' = practice /\ userProfile h' = userProfile h /\
      storage h' = storage h).
Proof.
  split; [|split; [|split]].
  - intros name score mode. cbn. auto.
  - intros voiceId Hne. destruct voiceId as [|c r]; [congruence|]. cbn. auto.
  - cbn. auto.
  - intros e voiceId. cbn. auto.
Qed.


End HomeFacts.

(* ===================================================================== *)
(** ** Properties of loading the stored profile                          *)
(* ===================================================================== *)

Section LaunchFacts.

Import Js.
Import Launch.

Variable JSON_parse : string -> result Json.

(** [loadUserProfile] at a launch, case by case. *)
Lemma loadUserProfile_cases (read : outcome unit) (stored : option string) :
  loadUserProfile JSON_parse read (launch stored)
  = (Ok tt,
     match parsed JSON_parse read stored with
     | None => launch stored
     | Some value =>
         match selectedVoice value with
         | Throw _ => setUserProfile value (launch stored)
         | Ok voice =>
             setAppState (if truthy voice then Home.practice
                          else Home.voice_selection)
               (setUserProfile value (launch stored))
         end
     end).
Proof.
  unfold loadUserProfile, parsed, lift.
  unfold try_catch, bind, await, get, modify, ret.
  destruct read as [[]|e]; [|reflexivity].
  destruct stored as [[|c text]|]; try reflexivity.
  cbn [storage launch].
  destruct (JSON_parse (String c text)) as [value|e]; [|reflexivity].
  destruct (selectedVoice value) as [voice|e]; [|reflexivity].
  destruct (truthy voice); reflexivity.
Qed.

(** Where a launch lands, whatever text the storage holds.
    [loadUserProfile] never throws and leaves the storage alone.  The
    practice screen is reached only when the text parses to an object
    whose [selectedVoice] member is truthy, and the voice selection
    only when it parses to a value other than [null] without one; in
    both cases the profile in use becomes the parsed value, whatever
    it is.  When nothing is stored, the read fails, the text is empty
    or does not parse, the launch state is kept.  A stored [null]
    keeps the onboarding screen but not the default profile: the
    profile in use is [null] from then on. *)
Theorem launch_routing (stored : option string) (read : outcome unit) :
  exists h,
    loadUserProfile JSON_parse read (launch stored) = (Ok tt, h) /\
    storage h = stored /\
    (appState h = Home.practice ->
     exists members voice,
       parsed JSON_parse read stored = Some (JObject members) /\
       member "selectedVoice" members = Some voice /\
       truthy (Some voice) = true /\
       userProfile h = JObject members) /\
    (appState h = Home.voice_selection ->
     exists value voice,
       parsed JSON_parse read stored = Some value /\
       selectedVoice value = Ok voice /\ truthy voice = false /\
       userProfile h = value) /\
    (appState h = Home.onboarding ->
     (parsed JSON_parse read stored = None /\ h = launch stored)
     \/ (parsed JSON_parse read stored = Some JNull /\
         h = setUserProfile JNull (launch stored))) /\
    (parsed JSON_parse read stored = None -> h = launch stored) /\
    (parsed JSON_parse read stored = Some JNull ->
     appState h = Home.onboarding /\ userProfile h = JNull).
Proof.
  eexists. split; [apply loadUserProfile_cases|].
  destruct (parsed JSON_parse read stored) as [value|].
  - destruct value as [|b|mantissa exponent|text|items|members];
      cbn [selectedVoice];
      try (cbn; split; [reflexivity|]; split; [discriminate|];
           split; [intros _; eexists _, None; repeat split; reflexivity|];
           split; [discriminate|]; split; discriminate).
    + cbn. split; [reflexivity|]. split; [discriminate|]. split; [discriminate|].
      split; [intros _; right; split; reflexivity|].
      split; [discriminate|]. intros _. split; reflexivity.
    + destruct (member "selectedVoice" members) as [voice|] eqn:Hmember.
      * destruct (truthy (Some voice)) eqn:Htruthy; cbn;
          (split; [reflexivity|]); (split; [|split; [|split; [|split]]]);
          try discriminate.
        -- intros _. exists members, voice. rewrite Hmember. auto.
        -- intros _. exists (JObject members), (Some voice). cbn.
           rewrite Hmember. auto.
      * cbn. split; [reflexivity|]. split; [discriminate|].
        split; [intros _; exists (JObject members), None; cbn;
                rewrite Hmember; auto|].
        split; [discriminate|]. split; discriminate.
  - cbn. split; [reflexivity|]. split; [discriminate|]. split; [discriminate|].
    split; [intros _; left; split; reflexivity|].
    split; [reflexivity|discriminate].
Qed.

(** The typed model of [Home] is this loader on the storage that the
    component itself leaves: when the stored profile is read back as
    the value it was written from, and the rejected text is rejected,
    both loaders land on the same screen with the same profile. *)
Lemma home_load_agrees (read : outcome unit) (text : string) (h : Home.State) :
  (forall profile,
      Home.storage h = Some (Home.Json profile) ->
      text <> "" /\ JSON_parse text = Ok (encode profile)) ->
  (forall rejected,
      Home.storage h = Some (Home.Unparsable rejected) ->
      rejected = "" \/ exists e, JSON_parse rejected = Throw e) ->
  loadUserProfile JSON_parse read (of_home text h)
  = (Ok tt, of_home text (Home.loadUserProfile read h)).
Proof.
  intros Hprofile Hrejected.
  unfold loadUserProfile, Home.loadUserProfile, lift.
  unfold try_catch, bind, await, get, modify, ret.
  destruct read as [[]|e]; [|reflexivity].
  destruct h as [state current [[profile|rejected]|]]; cbn [storage of_home Home.storage];
    [| |reflexivity].
  - destruct (Hprofile profile eq_refl) as [Hne Hparse].
    destruct text as [|c text]; [congruence|]. rewrite Hparse.
    unfold encode, of_home.
    destruct profile as [name score mode [[|d voice]|]]; reflexivity.
  - destruct (Hrejected rejected eq_refl) as [->|[e Hthrows]]; [reflexivity|].
    destruct rejected as [|c rejected]; [reflexivity|]. rewrite Hthrows.
    reflexivity.
Qed.

End LaunchFacts.


(* ===================================================================== *)
(** ** Properties of the conversation function                           *)
(* ===================================================================== *)

Section FunctionFacts.

Import Js.
Import ConversationFunction.

Lemma prefix_append (a b : string) : String.prefix a (a ++ b)%string = true.
Proof.
  induction a as [|c a IH].
  - destruct b; reflexivity.
  - change (String c a ++ b)%string with (String c (a ++ b)%string).
    cbn [String.prefix].
    destruct (Ascii.ascii_dec c c); [exact IH|congruence].
Qed.

(** What [dispatch] does: for a known action one request, which
    carries the API key and whose URL begins with the text of the
    conversations URL (the conversation identifier is pasted in as
    received); for any other action no request. *)
Lemma dispatch_cases (apiKey agentId : string) (body : RequestBody) (env : Env)
  (log : list UpstreamRequest) :
  if known (action body) then
    exists request,
      dispatch apiKey agentId body env log
      = (match upstream_fetch env with
         | Resolves _ => Ok tt
         | Rejects e => Throw e
         end, log ++ [request]) /\
      In ("xi-api-key", apiKey) (up_headers request) /\
      String.prefix conversations (up_url request) = true /\
      (action body = Some "start_conversation" ->
       up_body request = JsonObject (params body ∪ {["agent_id" := agentId]}))
  else
    dispatch apiKey agentId body env log
    = (Throw (Error ("Unknown action: " ++ Speech.template (action body))%string),
       log).
Proof.
  unfold dispatch, known, fetch. unfold bind, modify, await, throw.
  destruct (action body) as [a|]; [|reflexivity].
  destruct (String.eqb a "start_conversation") eqn:H1; cbn.
  { eexists. split; [destruct (upstream_fetch env) as [[]|]; reflexivity|].
    cbn. split; [auto|]. split; [reflexivity|auto]. }
  destruct (String.eqb a "send_audio") eqn:H2; cbn.
  { eexists. split; [destruct (upstream_fetch env) as [[]|]; reflexivity|].
    cbn -[String.prefix]. split; [auto|]. split; [apply prefix_append|].
    intros H. injection H as ->. discriminate H1. }
  destruct (String.eqb a "get_conversation") eqn:H3; cbn.
  { eexists. split; [destruct (upstream_fetch env) as [[]|]; reflexivity|].
    cbn -[String.prefix]. split; [auto|]. split; [apply prefix_append|].
    intros H. injection H as ->. discriminate H1. }
  destruct (String.eqb a "end_conversation") eqn:H4; cbn.
  { eexists. split; [destruct (upstream_fetch env) as [[]|]; reflexivity|].
    cbn -[String.prefix]. split; [auto|]. split; [apply prefix_append|].
    intros H. injection H as ->. discriminate H1. }
  reflexivity.
Qed.

(** A preflight request is answered locally: for [OPTIONS] the
    function returns status 200 with the three CORS headers and no
    body, without reading the request body or the configuration and
    without calling the ElevenLabs API. *)
Theorem preflight_is_local (req : Request) (env : Env)
  (log : list UpstreamRequest) :
  method req = "OPTIONS" ->
  handler req env log = (Ok preflight, log) /\
  status preflight = 200 /\
  map fst (headers preflight)
  = ["Access-Control-Allow-Origin"; "Access-Control-Allow-Methods";
     "Access-Control-Allow-Headers"].
Proof.
  intros H. unfold handler. rewrite H. cbn. auto.
Qed.

(** The handler on a request that is not a preflight and whose body
    parses. *)
Lemma handler_body (req : Request) (env : Env) (body : RequestBody)
  (log : list UpstreamRequest) :
  method req <> "OPTIONS" ->
  req_json req = Resolves (Some body) ->
  handler req env log
  = match ELEVENLABS_API_KEY env, ELEVENLABS_AGENT_ID env with
    | Some (String a apiKey), Some (String b agentId) =>
        match dispatch (String a apiKey) (String b agentId) body env log with
        | (Ok _, log') =>
            match upstream_json env with
            | Resolves data =>
                (Ok {| status := 200; headers := json_headers; body := Data data |},
                 log')
            | Rejects (Error message) => (Ok (failure message), log')
            end
        | (Throw (Error message), log') => (Ok (failure message), log')
        end
    | _, _ =>
        (Ok (failure "ElevenLabs API key or Agent ID not configured"), log)
    end.
Proof.
  intros Hmethod Hjson. unfold handler.
  apply String.eqb_neq in Hmethod. rewrite Hmethod.
  unfold try_catch, bind at 1. unfold await at 1. rewrite Hjson.
  destruct (ELEVENLABS_API_KEY env) as [[|a apiKey]|]; try reflexivity.
  destruct (ELEVENLABS_AGENT_ID env) as [[|b agentId]|]; try reflexivity.
  unfold bind at 1.
  destruct (dispatch (String a apiKey) (String b agentId) body env log)
    as [[[]|[message]] log']; [|reflexivity].
  unfold bind, await, ret.
  destruct (upstream_json env) as [data|[message]]; reflexivity.
Qed.

(** Closes the goal of a failure answered without any upstream call. *)
Ltac local_failure :=
  eexists _, _; (split; [reflexivity|]);
  (split; [cbn; auto|]);
  (split; [right; left; split; [eexists; reflexivity|left; reflexivity]
          |left; reflexivity]).

(** The handler never throws.  Its answer allows every origin and is
    one of three: the preflight answer; status 500 with the handler's
    own error object, after at most one upstream call; or status 200
    with the JSON that the one upstream call returned.  The last is
    what a configured function answers to a known action whenever the
    upstream call and the reading of its body resolve, and it carries
    that JSON as it is: the handler does not look into the upstream
    answer, so an error that the ElevenLabs API reports in its body
    is forwarded with status 200.  The ElevenLabs API is called at
    most once, and with the configured API key. *)
Theorem handler_responses (req : Request) (env : Env)
  (log : list UpstreamRequest) :
  (exists response log',
      handler req env log = (Ok response, log') /\
      In ("Access-Control-Allow-Origin", "*") (headers response) /\
      ((response = preflight /\ log' = log)
       \/ ((exists message, response = failure message) /\
           (log' = log \/ exists request, log' = log ++ [request]))
       \/ (exists data request,
              upstream_json env = Resolves data /\
              response = {| status := 200; headers := json_headers;
                            body := Data data |} /\
              log' = log ++ [request])) /\
      (log' = log \/
       exists request apiKey,
         log' = log ++ [request] /\
         ELEVENLABS_API_KEY env = Some apiKey /\
         In ("xi-api-key", apiKey) (up_headers request))) /\
  (forall body data,
      method req <> "OPTIONS" ->
      req_json req = Resolves (Some body) ->
      configured env = true ->
      known (action body) = true ->
      upstream_fetch env = Resolves tt ->
      upstream_json env = Resolves data ->
      exists request,
        handler req env log
        = (Ok {| status := 200; headers := json_headers; body := Data data |},
           log ++ [request])).
Proof.
  split.
  - unfold handler.
    destruct (String.eqb (method req) "OPTIONS").
    { eexists _, _. split; [reflexivity|]. cbn.
      split; [auto|]. split; [left; split; reflexivity|auto]. }
    unfold try_catch at 1. unfold bind at 1. unfold await at 1.
    destruct (req_json req) as [[body|]|[message]]; [|local_failure..].
    destruct (ELEVENLABS_API_KEY env) as [[|a apiKey]|] eqn:Hkey;
      [local_failure| |local_failure].
    destruct (ELEVENLABS_AGENT_ID env) as [[|b agentId]|];
      [local_failure| |local_failure].
    unfold bind at 1.
    pose proof (dispatch_cases (String a apiKey) (String b agentId) body env log) as H.
    destruct (known (action body)).
    + destruct H as (request & -> & Hheader & _ & _).
      assert (exists r k, log ++ [request] = log ++ [r] /\
                          Some (String a apiKey) = Some k /\
                          In ("xi-api-key", k) (up_headers r)) as Hcall.
      { exists request, (String a apiKey). auto. }
      destruct (upstream_fetch env) as [[]|[message]].
      * unfold bind, await, ret.
        destruct (upstream_json env) as [data|[message]];
          eexists _, _; (split; [reflexivity|]); cbn;
          (split; [auto|]); (split; [|right; exact Hcall]).
        -- right. right. exists data, request. auto.
        -- right. left. split; [exists message; reflexivity|right; eauto].
      * eexists _, _. split; [reflexivity|]. cbn.
        split; [auto|]. split; [|right; exact Hcall].
        right. left. split; [exists message; reflexivity|right; eauto].
    + rewrite H. local_failure.
  - intros body data Hmethod Hjson Hconfigured Hknown Hfetch Hdata.
    rewrite (handler_body req env body log Hmethod Hjson).
    unfold configured in Hconfigured.
    destruct (ELEVENLABS_API_KEY env) as [[|a apiKey]|];
      destruct (ELEVENLABS_AGENT_ID env) as [[|b agentId]|];
      cbn [truthy andb] in Hconfigured; try discriminate Hconfigured.
    pose proof (dispatch_cases (String a apiKey) (String b agentId) body env log) as H.
    rewrite Hknown in H. destruct H as (request & -> & _).
    rewrite Hfetch, Hdata. exists request. reflexivity.
Qed.

(** The two guards of the handler.  For a request that is not a
    preflight and whose body parses, a missing or empty API key or
    agent identifier gives status 500 with the configuration error,
    whatever the action; with both configured, an action that is none
    of the four known ones gives status 500 naming the action.  In
    both cases the ElevenLabs API is not called. *)
Theorem handler_guards (req : Request) (env : Env) (body : RequestBody)
  (log : list UpstreamRequest) :
  method req <> "OPTIONS" ->
  req_json req = Resolves (Some body) ->
  (configured env = false ->
   handler req env log
   = (Ok {| status := 500; headers := json_headers;
            body := Failure "ElevenLabs API key or Agent ID not configured" |},
      log)) /\
  (configured env = true -> known (action body) = false ->
   handler req env log
   = (Ok {| status := 500; headers := json_headers;
            body := Failure ("Unknown action: "
                             ++ Speech.template (action body))%string |},
      log)).
Proof.
  intros Hmethod Hjson. rewrite (handler_body req env body log Hmethod Hjson).
  unfold configured.
  destruct (ELEVENLABS_API_KEY env) as [[|a apiKey]|];
    destruct (ELEVENLABS_AGENT_ID env) as [[|b agentId]|]; cbn [truthy andb];
    split; try discriminate; try reflexivity.
  intros _ Hunknown.
  pose proof (dispatch_cases (String a apiKey) (String b agentId) body env log) as H.
  rewrite Hunknown in H. rewrite H. reflexivity.
Qed.

(** The agent of a new conversation.  For [start_conversation] the
    request sent upstream carries every parameter of the client, and
    the configured agent identifier only when the client sent no
    [agent_id] of its own: a client-supplied [agent_id] overrides the
    configured one. *)
Theorem start_conversation_agent (req : Request) (env : Env) (body : RequestBody)
  (apiKey agentId : string) (log : list UpstreamRequest) :
  method req <> "OPTIONS" ->
  req_json req = Resolves (Some body) ->
  action body = Some "start_conversation" ->
  ELEVENLABS_API_KEY env = Some apiKey -> apiKey <> "" ->
  ELEVENLABS_AGENT_ID env = Some agentId -> agentId <> "" ->
  exists response fields,
    handler req env log
    = (Ok response,
       log ++ [{| up_url := conversations; up_method := "POST";
                  up_headers := [("xi-api-key", apiKey);
                                 ("Content-Type", "application/json")];
                  up_body := JsonObject fields |}]) /\
    fields !! "agent_id" = Some (default agentId (params body !! "agent_id")) /\
    (forall key, key <> "agent_id" -> fields !! key = params body !! key).
Proof.
  intros Hmethod Hjson Haction Hkey Hkne Hagent Hane.
  rewrite (handler_body req env body log Hmethod Hjson), Hkey, Hagent.
  destruct apiKey as [|a apiKey]; [congruence|].
  destruct agentId as [|b agentId]; [congruence|].
  assert (dispatch (String a apiKey) (String b agentId) body env log
          = (match upstream_fetch env with
             | Resolves _ => Ok tt
             | Rejects e => Throw e
             end,
             log ++ [{| up_url := conversations; up_method := "POST";
                        up_headers := [("xi-api-key", String a apiKey);
                                       ("Content-Type", "application/json")];
                        up_body := JsonObject (params body
                                               ∪ {["agent_id" := String b agentId]}) |}]))
    as ->.
  { unfold dispatch. rewrite Haction.
    change (String.eqb "start_conversation" "start_conversation") with true.
    cbv beta iota zeta. unfold fetch, bind, modify, await.
    destruct (upstream_fetch env) as [[]|]; reflexivity. }
  assert ((params body ∪ {["agent_id" := String b agentId]}) !! "agent_id"
          = Some (default (String b agentId) (params body !! "agent_id")) /\
          (forall key, key <> "agent_id" ->
                       (params body ∪ {["agent_id" := String b agentId]}) !! key
                       = params body !! key)) as Hfields.
  { split.
    - rewrite lookup_union, lookup_singleton_eq.
      destruct (params body !! "agent_id") as [given|]; reflexivity.
    - intros key Hne. rewrite lookup_union, lookup_singleton_ne by congruence.
      destruct (params body !! key); reflexivity. }
  destruct (upstream_fetch env) as [[]|[message]];
    [destruct (upstream_json env) as [data|[message]]|];
    eexists _, _; (split; [reflexivity|exact Hfields]).
Qed.

End FunctionFacts.


(* ===================================================================== *)
(** ** Properties of the socket-driven practice screen                   *)
(* ===================================================================== *)

Section VoiceScreenFacts.

Import Js.
Import VoiceScreen.

Lemma generateSpeech_total (S : Type) (text voiceId : string)
  (env : Speech.SpeechEnv) (s : S) :
  exists r, Speech.generateSpeech text voiceId env s = (Ok r, s).
Proof.
  unfold Speech.generateSpeech. unfold try_catch, bind, await, ret, throw.
  destruct (Speech.speech_fetch env) as [[]|]; [|eauto].
  destruct (Speech.speech_json env) as [[data|]|]; [|eauto..].
  destruct (negb (Speech.success data) || negb (truthy (Speech.audioData data)));
    eauto.
Qed.

(** An agent reply over the socket.  When the frame carries data,
    the handler returns normally: with a voice selected the screen
    speaks and is [idle] again once the reply has been handled,
    whether or not speech could be generated and played; without a
    selected voice nothing is generated or played and the screen stays
    in [speaking].  When the frame carries no data, the handler throws
    a TypeError, whatever the voice, and leaves the screen in
    [speaking] with the player untouched.  The frame [null] makes it
    throw before anything changes. *)
Theorem agent_response_settles (selectedVoice : option string)
  (message : Frame) (env : ReplyEnv) (p : Screen) :
  type message = Some "agent_response" ->
  (forall text,
      data message = Some text ->
      exists p',
        handleWebSocketMessage selectedVoice (Some message) env p = (Ok tt, p') /\
        (truthy selectedVoice = true ->
         conversationState p' = PracticeScreen.idle) /\
        (truthy selectedVoice = false ->
         conversationState p' = PracticeScreen.speaking /\ speech p' = speech p)) /\
  (data message = None ->
   handleWebSocketMessage selectedVoice (Some message) env p
   = (Throw text_of_undefined,
      {| conversationState := PracticeScreen.speaking; speech := speech p |})) /\
  handleWebSocketMessage selectedVoice None env p = (Throw type_of_null, p).
Proof.
  intros Htype. unfold handleWebSocketMessage, is_type. rewrite Htype.
  change (String.eqb "agent_response" "agent_response") with true. cbv iota.
  split; [|split; [|reflexivity]].
  - intros text Hdata. rewrite Hdata. unfold playAgentResponse.
    destruct selectedVoice as [[|c voice]|];
      try (eexists; split; [reflexivity|]; split; [discriminate|]; intros _;
           split; reflexivity).
    unfold bind at 1. unfold setConversationState at 1. unfold modify at 1.
    unfold try_catch. unfold bind at 1. unfold on_speech at 1. cbn [speech].
    destruct (generateSpeech_total ElevenLabsService.State text
                (String c voice) (reply_speech env) (speech p)) as (r & ->).
    destruct r as [[|d r]|];
      try (eexists; split; [reflexivity|]; split; [reflexivity|discriminate]).
    unfold bind at 1. unfold on_speech. cbn [speech].
    destruct (playAudio_total (String d r) (reply_play env) (speech p)) as (s' & ->).
    eexists. split; [reflexivity|]. split; [reflexivity|discriminate].
  - intros Hdata. rewrite Hdata. reflexivity.
Qed.

End VoiceScreenFacts.


(* ===================================================================== *)
(** ** The further properties on the scenarios                           *)
(* ===================================================================== *)

(** After three failures the counter is at 3; once socket 2 has
    opened, its close schedules a retry after 1000 ms again. *)
Lemma open_resets_backoff_witness :
  let s' := WebSocketService.set_reconnectAttempts 0
              (WebSocketService.set_sockets
                 (<[2 := WebSocketService.OPEN]>
                    (WebSocketService.sockets Examples.reconnecting))
                 Examples.reconnecting) in
  WebSocketService.reconnectAttempts Examples.reconnecting = 3 /\
  WebSocketService.socket_opens Scenario.clock 2 0 Examples.reconnecting = Some s' /\
  WebSocketService.timers (WebSocketService.socket_closes 2 Scenario.echo s')
  = [(1000, Scenario.echo)].
Proof.
  intros s'. split; [reflexivity|]. split; [reflexivity|].
  destruct (open_resets_backoff Scenario.clock Examples.reconnecting s' 2 0
              Scenario.echo eq_refl ltac:(cbn; lia)) as (_ & _ & Htimers).
  exact Htimers.
Defined.

(** [disconnect] on the open channel, then the close event of socket
    0: a retry is scheduled after 1000 ms and the timer reconnects. *)
Lemma disconnect_does_not_stop_reconnect_witness :
  let s1 := WebSocketService.disconnect Examples.online in
  let s2 := WebSocketService.socket_closes 0 Scenario.echo s1 in
  WebSocketService.getConnectionState Examples.online = "connected" /\
  WebSocketService.getConnectionState s1 = "disconnected" /\
  WebSocketService.timers s2 = [(1000, Scenario.echo)] /\
  WebSocketService.getConnectionState (WebSocketService.timeout s2) = "connecting".
Proof.
  intros s1 s2. split; [reflexivity|].
  destruct (disconnect_does_not_stop_reconnect Examples.online 0 Scenario.echo
              eq_refl eq_refl ltac:(cbn; lia))
    as (_ & Hdown & _ & _ & Htimers & Hagain).
  split; [exact Hdown|]. split; [exact Htimers|exact Hagain].
Defined.

(** Socket 0 opens while socket 1 is current and a message is queued:
    a thousand rounds of the flush do not end it. *)
Lemma stale_open_never_finishes_witness :
  WebSocketService.socket Examples.twice_connected = Some 1 /\
  length (WebSocketService.messageQueue Examples.twice_connected) = 1 /\
  WebSocketService.socket_opens Scenario.clock 0 1000 Examples.twice_connected
  = None.
Proof.
  split; [reflexivity|]. split; [reflexivity|].
  apply stale_open_never_finishes; [discriminate|reflexivity|discriminate].
Defined.

(** Two sends on the open channel reach socket 0 in order. *)
Lemma send_connected_in_order_witness :
  let s' := fold_left (fun s message => WebSocketService.send Scenario.clock message s)
              [Scenario.frame "audio" "1"; Scenario.frame "text" "2"]
              Examples.online in
  map (fun f => WebSocketService.payload (snd f)) (WebSocketService.wire s')
  = [("audio", "1"); ("text", "2")] /\
  WebSocketService.messageQueue s' = [].
Proof.
  intros s'.
  destruct (send_connected_in_order Scenario.clock
              [Scenario.frame "audio" "1"; Scenario.frame "text" "2"]
              Examples.online 0 eq_refl eq_refl) as (Hwire & Hqueue & _).
  fold s' in Hwire, Hqueue. rewrite Hwire, Hqueue. split; reflexivity.
Defined.

(** Listener 9 was never registered for "audio": removing it keeps
    listeners 2 and 1. *)
Lemma off_unregistered_witness :
  WebSocketDispatch.registered "audio" Examples.registry = [2; 1] /\
  WebSocketDispatch.registered "audio"
    (WebSocketDispatch.off "audio" 9 Examples.registry) = [2; 1].
Proof.
  assert (WebSocketDispatch.registered "audio" Examples.registry = [2; 1]) as Heq
    by (vm_compute; reflexivity).
  split; [exact Heq|].
  rewrite (off_unregistered "audio" 9 Examples.registry); [exact Heq|].
  rewrite Heq. intros Hin.
  apply elem_of_cons in Hin as [Hin|Hin]; [discriminate Hin|].
  apply elem_of_cons in Hin as [Hin|Hin]; [discriminate Hin|].
  apply elem_of_nil in Hin. exact Hin.
Defined.

(** Two sounds played one after the other, the second finishing by
    itself, then a stop: never more than one sound; and a third sound
    that the device cannot load leaves silence. *)
Lemma player_keeps_one_sound_witness :
  let acts := [Speech.Play "a" Scenario.device_ok;
               Speech.Play "b" Scenario.device_ok;
               Speech.Finished Examples.stop_ok;
               Speech.Stop Examples.stop_ok] in
  let unloadable :=
    {| ElevenLabsService.play_stop := Examples.stop_ok;
       ElevenLabsService.play_create := Js.Rejects Scenario.network_down |} in
  ElevenLabsService.tracked ElevenLabsService.new /\
  forallb Speech.stops_cleanly acts = true /\
  length (ElevenLabsService.playing
            (fold_left (fun s a => Speech.act a s) acts ElevenLabsService.new)) <= 1 /\
  ElevenLabsService.playing
    (Speech.act (Speech.Play "c" unloadable)
       (fold_left (fun s a => Speech.act a s) (firstn 2 acts) ElevenLabsService.new))
  = [].
Proof.
  intros acts unloadable. split; [reflexivity|]. split; [reflexivity|].
  destruct (player_keeps_one_sound acts ElevenLabsService.new eq_refl eq_refl)
    as (_ & Hone & _).
  split; [exact Hone|].
  destruct (player_keeps_one_sound (firstn 2 acts) ElevenLabsService.new
              eq_refl eq_refl) as (_ & _ & Hsilence).
  destruct (Hsilence "c" unloadable eq_refl eq_refl) as [_ Hplaying].
  exact Hplaying.
Defined.

(** In the started session: a granted recording, then a stop that
    yields a URI. *)
Lemma record_then_stop_witness :
  exists s1 s2,
    ElevenLabsConversationService.startRecording (Scenario.granted 5)
      Scenario.in_session = (Js.Ok tt, s1) /\
    ElevenLabsConversationService.stopRecording Examples.stop_with_uri s1
    = (Js.Ok "file:///turn.m4a", s2) /\
    ElevenLabsConversationService.audioRecording s2 = None.
Proof.
  destruct (record_then_stop (Scenario.granted 5) Examples.stop_with_uri
              "file:///turn.m4a" Scenario.in_session eq_refl eq_refl eq_refl
              ltac:(discriminate))
    as (s1 & s2 & Hstart & Hstop & Hnone & _).
  exists s1, s2. auto.
Defined.

(** The device first refuses to stop recording 1, then obeys. *)
Lemma stopRecording_retry_witness :
  exists s1 s2,
    ElevenLabsConversationService.stopRecording Examples.stop_fails Scenario.busy
    = (Js.Throw (Js.Error "Recorder does not exist."), s1) /\
    ElevenLabsConversationService.audioRecording s1 = Some 1 /\
    ElevenLabsConversationService.stopRecording Examples.stop_with_uri s1
    = (Js.Ok "file:///turn.m4a", s2) /\
    ElevenLabsConversationService.audioRecording s2 = None.
Proof.
  exact (stopRecording_retry Examples.stop_fails Examples.stop_with_uri
           (Js.Error "Recorder does not exist.") "file:///turn.m4a" 1
           Scenario.busy eq_refl eq_refl eq_refl eq_refl ltac:(discriminate)).
Defined.

(** Ending the busy session twice: the second call, even with the
    network down, changes nothing. *)
Lemma endConversation_idempotent_witness :
  exists s',
    ElevenLabsConversationService.endConversation
      (Scenario.end_with (Js.Resolves Scenario.http_200)) Scenario.busy
    = (Js.Ok tt, s') /\
    ElevenLabsConversationService.endConversation
      (Scenario.end_with (Js.Rejects Scenario.network_down)) s'
    = (Js.Ok tt, s').
Proof.
  exact (endConversation_idempotent
           (Scenario.end_with (Js.Resolves Scenario.http_200))
           (Scenario.end_with (Js.Rejects Scenario.network_down))
           Scenario.busy eq_refl).
Defined.

(** Ending the busy session while recording 1 cannot be unloaded:
    the session is gone, recording 1 and sound 2 stay. *)
Lemma endConversation_partial_cleanup_witness :
  exists s',
    ElevenLabsConversationService.endConversation Examples.end_unload_fails
      Scenario.busy = (Js.Ok tt, s') /\
    ElevenLabsConversationService.currentSession s' = None /\
    ElevenLabsConversationService.audioRecording s' = Some 1 /\
    ElevenLabsConversationService.audioSound s' = Some 2.
Proof.
  destruct (ElevenLabsConversationService.currentSession Scenario.busy)
    as [session|] eqn:Hsession; [|discriminate Hsession].
  destruct (endConversation_partial_cleanup Examples.end_unload_fails
              Examples.end_unload_fails Scenario.http_200
              (Js.Error "Recorder does not exist.") session 1 Scenario.busy
              Hsession eq_refl eq_refl eq_refl)
    as (s' & Hend & Hnone & Hrec & Hsound & _).
  exists s'. auto.
Defined.

(** A turn in the busy session whose reply has the audio URL "u1":
    sound 2 is unloaded, sound 3 is created and started. *)
Lemma sendAudioMessage_playback_witness :
  exists agentMessage s',
    ElevenLabsConversationService.sendAudioMessage "file:///turn.m4a"
      Examples.send_ok Scenario.busy = (Js.Ok agentMessage, s') /\
    ElevenLabsConversationService.audioSound s' = Some 3 /\
    ElevenLabsConversationService.calls s'
    = [ElevenLabsConversationService.FetchAudio "file:///turn.m4a";
       ElevenLabsConversationService.Post "send_audio";
       ElevenLabsConversationService.SoundUnload 2;
       ElevenLabsConversationService.SoundCreate "u1";
       ElevenLabsConversationService.SoundPlay 3].
Proof.
  destruct (ElevenLabsConversationService.currentSession Scenario.busy)
    as [session|] eqn:Hsession; [|discriminate Hsession].
  destruct (sendAudioMessage_playback "file:///turn.m4a" Examples.send_ok
              Scenario.busy session (Scenario.reply (Some "I live in Boston"))
              Hsession eq_refl)
    as (agentMessage & s' & Hsend & _ & Hplayed & _).
  destruct (Hplayed "u1" 3 eq_refl ltac:(discriminate) eq_refl) as [Hsound Hcalls].
  exists agentMessage, s'. split; [exact Hsend|]. split; [exact Hsound|exact Hcalls].
Defined.


(** On the started screen, after [Ready], two presses change nothing. *)
Lemma ready_blocks_microphone_witness :
  let press := (Scenario.granted 1, Examples.stop_with_uri, Examples.send_ok) in
  PracticeScreen.isRecording Scenario.ready = false /\
  fold_left
    (fun p '(record, stop, send) =>
       PracticeControls.microphonePressed record stop send p)
    [press; press] (PracticeScreen.readyPressed Scenario.ready)
  = PracticeScreen.readyPressed Scenario.ready.
Proof.
  intros press. split; [reflexivity|].
  exact (ready_blocks_microphone [press; press] Scenario.ready eq_refl).
Defined.


(** A preflight whose body cannot even be read, on a function without
    configuration. *)
Lemma preflight_is_local_witness :
  ConversationFunction.handler
    {| ConversationFunction.method := "OPTIONS";
       ConversationFunction.req_json := Js.Rejects (Js.Error "Unexpected end of JSON input") |}
    (Examples.deployed None None) []
  = (Js.Ok ConversationFunction.preflight, []).
Proof.
  destruct (preflight_is_local
              {| ConversationFunction.method := "OPTIONS";
                 ConversationFunction.req_json :=
                   Js.Rejects (Js.Error "Unexpected end of JSON input") |}
              (Examples.deployed None None) [] eq_refl) as [Hlocal _].
  exact Hlocal.
Defined.

(** An unknown action: without configuration the configuration error
    wins; with it, the action is named.  No upstream call either way. *)
Lemma handler_guards_witness :
  ConversationFunction.handler (Examples.post "delete_everything" ∅)
    (Examples.deployed (Some "") (Some "a1")) []
  = (Js.Ok (ConversationFunction.failure
              "ElevenLabs API key or Agent ID not configured"), []) /\
  ConversationFunction.handler (Examples.post "delete_everything" ∅)
    (Examples.deployed (Some "k1") (Some "a1")) []
  = (Js.Ok (ConversationFunction.failure "Unknown action: delete_everything"), []).
Proof.
  split.
  - destruct (handler_guards (Examples.post "delete_everything" ∅)
                (Examples.deployed (Some "") (Some "a1"))
                {| ConversationFunction.action := Some "delete_everything";
                   ConversationFunction.params := ∅ |} []
                ltac:(discriminate) eq_refl) as [Hconfig _].
    exact (Hconfig eq_refl).
  - destruct (handler_guards (Examples.post "delete_everything" ∅)
                (Examples.deployed (Some "k1") (Some "a1"))
                {| ConversationFunction.action := Some "delete_everything";
                   ConversationFunction.params := ∅ |} []
                ltac:(discriminate) eq_refl) as [_ Hunknown].
    exact (Hunknown eq_refl eq_refl).
Defined.

(** A client that sends its own [agent_id]: the upstream request
    names that agent, not the configured "a1". *)
Lemma start_conversation_agent_witness :
  exists response fields,
    ConversationFunction.handler
      (Examples.post "start_conversation" {["agent_id" := "other"]})
      (Examples.deployed (Some "k1") (Some "a1")) []
    = (Js.Ok response,
       [{| ConversationFunction.up_url := ConversationFunction.conversations;
           ConversationFunction.up_method := "POST";
           ConversationFunction.up_headers :=
             [("xi-api-key", "k1"); ("Content-Type", "application/json")];
           ConversationFunction.up_body := ConversationFunction.JsonObject fields |}]) /\
    fields !! "agent_id" = Some "other".
Proof.
  destruct (start_conversation_agent
              (Examples.post "start_conversation" {["agent_id" := "other"]})
              (Examples.deployed (Some "k1") (Some "a1"))
              {| ConversationFunction.action := Some "start_conversation";
                 ConversationFunction.params := {["agent_id" := "other"]} |}
              "k1" "a1" [] ltac:(discriminate) eq_refl eq_refl eq_refl
              ltac:(discriminate) eq_refl ltac:(discriminate))
    as (response & fields & Hhandler & Hagent & _).
  exists response, fields. split; [exact Hhandler|].
  rewrite Hagent. cbn [ConversationFunction.params].
  rewrite lookup_singleton_eq. reflexivity.
Defined.

(** An agent reply while the speech service is down: with the voice
    "sarah" the screen is back to [idle]; with no voice it stays in
    [speaking]; and a reply without data throws and leaves the screen
    in [speaking]. *)
Lemma agent_response_settles_witness :
  let message := {| VoiceScreen.type := Some "agent_response";
                    VoiceScreen.data := Some "Tell me more" |} in
  let bare := {| VoiceScreen.type := Some "agent_response";
                 VoiceScreen.data := None |} in
  let env := {| VoiceScreen.reply_speech := Examples.speech_down;
                VoiceScreen.reply_play := Scenario.device_ok |} in
  let p := {| VoiceScreen.conversationState := PracticeScreen.processing;
              VoiceScreen.speech := ElevenLabsService.new |} in
  (exists p',
      VoiceScreen.handleWebSocketMessage (Some "sarah") (Some message) env p
      = (Js.Ok tt, p') /\
      VoiceScreen.conversationState p' = PracticeScreen.idle) /\
  (exists p',
      VoiceScreen.handleWebSocketMessage None (Some message) env p
      = (Js.Ok tt, p') /\
      VoiceScreen.conversationState p' = PracticeScreen.speaking) /\
  (exists e p',
      VoiceScreen.handleWebSocketMessage (Some "sarah") (Some bare) env p
      = (Js.Throw e, p') /\
      VoiceScreen.conversationState p' = PracticeScreen.speaking).
Proof.
  intros message bare env p. split; [|split].
  - destruct (agent_response_settles (Some "sarah") message env p eq_refl)
      as (Hdata & _ & _).
    destruct (Hdata _ eq_refl) as (p' & Hhandled & Hidle & _).
    exists p'. split; [exact Hhandled|exact (Hidle eq_refl)].
  - destruct (agent_response_settles None message env p eq_refl)
      as (Hdata & _ & _).
    destruct (Hdata _ eq_refl) as (p' & Hhandled & _ & Hstuck).
    exists p'. split; [exact Hhandled|]. destruct (Hstuck eq_refl) as [H _]. exact H.
  - destruct (agent_response_settles (Some "sarah") bare env p eq_refl)
      as (_ & Hbare & _).
    eexists _, _. split; [exact (Hbare eq_refl)|reflexivity].
Defined.

(** Listener 7, new to "audio", is registered and removed again:
    listeners 2 and 1 are dispatched as before. *)
Lemma on_off_round_trip_witness :
  WebSocketDispatch.registered "audio"
    (WebSocketDispatch.on "audio" 7 Examples.registry) = [2; 1; 7] /\
  WebSocketDispatch.registered "audio"
    (WebSocketDispatch.off "audio" 7
       (WebSocketDispatch.on "audio" 7 Examples.registry)) = [2; 1].
Proof.
  assert (WebSocketDispatch.registered "audio" Examples.registry = [2; 1]) as Heq
    by (vm_compute; reflexivity).
  destruct (on_off_round_trip "audio" 7 Examples.registry) as (Hon & _ & Hback).
  split.
  - rewrite (Hon "audio"), Heq. reflexivity.
  - destruct Hback as [Hsame _].
    + rewrite Heq. intros Hin.
      apply elem_of_cons in Hin as [Hin|Hin]; [discriminate Hin|].
      apply elem_of_cons in Hin as [Hin|Hin]; [discriminate Hin|].
      apply elem_of_nil in Hin. exact Hin.
    + rewrite (Hsame "audio"). exact Heq.
Defined.

(** The data URL of a recording gives back its base64 payload. *)
Lemma blobToBase64_payload_witness :
  Speech.blobToBase64 (Js.Resolves "data:audio/m4a;base64,QUJD")
  = Js.Resolves (Some "QUJD").
Proof.
  destruct blobToBase64_payload as (Hpayload & _).
  exact (Hpayload "data:audio/m4a;base64" "QUJD" eq_refl eq_refl).
Defined.

(** Speech delivered as audio/mpeg: the data URI, and the audio data
    read back from it. *)
Lemma generateSpeech_result_witness :
  Speech.generateSpeech "Hello" "sarah" Examples.speech_ok tt
  = (Js.Ok (Some "data:audio/mpeg;base64,QUJD"), tt) /\
  Speech.blobToBase64 (Js.Resolves "data:audio/mpeg;base64,QUJD")
  = Js.Resolves (Some "QUJD").
Proof.
  destruct (generateSpeech_result unit "Hello" "sarah" Examples.speech_ok tt)
    as (r & Hr & _ & Hdecode).
  destruct (Hdecode _ eq_refl eq_refl eq_refl) as (audioUri & -> & Hback).
  assert (audioUri = "data:audio/mpeg;base64,QUJD") as ->.
  { cbv in Hr. injection Hr as <-. reflexivity. }
  split; [exact Hr|exact Hback].
Defined.

(** The sound of "a" is stopped; a second stop changes nothing. *)
Lemma stopAudio_idempotent_witness :
  let s := snd (ElevenLabsService.playAudio "a" Scenario.device_ok
                  ElevenLabsService.new) in
  exists s',
    ElevenLabsService.stopAudio Examples.stop_ok s = (Js.Ok tt, s') /\
    ElevenLabsService.currentSound s' = None /\
    ElevenLabsService.stopAudio Examples.stop_ok s' = (Js.Ok tt, s').
Proof.
  intros s.
  destruct (stopAudio_idempotent Examples.stop_ok Examples.stop_ok s)
    as (s' & Hstop & _ & Hclean & _).
  destruct (Hclean eq_refl) as [Hnone Hagain].
  exists s'. auto.
Defined.

(** A preview while the speech service is down leaves the player
    alone; a preview that is delivered plays the data URI. *)
Lemma previewVoice_absorbs_witness :
  Speech.previewVoice "sarah" "Hello"
    {| Speech.preview_speech := Examples.speech_down;
       Speech.preview_play := Scenario.device_ok |} ElevenLabsService.new
  = (Js.Ok tt, ElevenLabsService.new) /\
  exists s',
    Speech.previewVoice "sarah" "Hello"
      {| Speech.preview_speech := Examples.speech_ok;
         Speech.preview_play := Scenario.device_ok |} ElevenLabsService.new
    = (Js.Ok tt, s') /\
    map ElevenLabsService.uri (ElevenLabsService.playing s')
    = ["data:audio/mpeg;base64,QUJD"].
Proof.
  split.
  - destruct (previewVoice_absorbs "sarah" "Hello"
                {| Speech.preview_speech := Examples.speech_down;
                   Speech.preview_play := Scenario.device_ok |}
                ElevenLabsService.new) as (s' & Hpreview & Hsame & _).
    rewrite Hpreview, (Hsame eq_refl). reflexivity.
  - destruct (previewVoice_absorbs "sarah" "Hello"
                {| Speech.preview_speech := Examples.speech_ok;
                   Speech.preview_play := Scenario.device_ok |}
                ElevenLabsService.new) as (s' & Hpreview & _ & Hplays).
    destruct (Hplays _ eq_refl eq_refl eq_refl) as (sound & _ & Hplaying & Huri).
    exists s'. split; [exact Hpreview|].
    rewrite Hplaying. cbn [map]. rewrite Huri. reflexivity.
Defined.

(** Anna completes onboarding and picks the voice "sarah"; after a
    relaunch she is on the practice screen with that voice. *)
Lemma profile_survives_relaunch_witness :
  let h1 := Home.handleOnboardingComplete (Js.Resolves tt) "Anna" 70 Home.examiner
              (Home.launch None) in
  let h2 := Home.handleVoiceSelected (Js.Resolves tt) "sarah" h1 in
  Home.appState (Home.relaunch (Js.Resolves tt) h1) = Home.voice_selection /\
  Home.appState (Home.relaunch (Js.Resolves tt) h2) = Home.practice /\
  Home.userProfile (Home.relaunch (Js.Resolves tt) h2)
  = {| Home.name := "Anna"; Home.targetBandScore := 70;
       Home.testMode := Home.examiner; Home.selectedVoice := Some "sarah" |}.
Proof.
  intros h1 h2.
  destruct (profile_survives_relaunch (Home.launch None)) as (Honboarded & _).
  destruct (Honboarded "Anna" 70 Home.examiner) as [Hsame1 Hstate1].
  destruct (profile_survives_relaunch h1) as (_ & Hvoice & _).
  destruct (Hvoice "sarah" ltac:(discriminate)) as (Hsame2 & Hstate2 & _).
  fold h1 in Hsame1, Hstate1. fold h2 in Hsame2, Hstate2.
  rewrite Hsame1, Hsame2. split; [exact Hstate1|]. split; [exact Hstate2|].
  reflexivity.
Defined.

(** Listeners 2 and 1 are registered for "audio", in this order.
    When both only take the message, both are called; when listener
    2 removes itself during its call, listener 1 is not called for
    this message, and is the only one registered afterwards. *)
Lemma onmessage_dispatch_witness :
  let message := Scenario.frame "audio" "1" in
  (exists s',
      WebSocketDispatch.onmessage Examples.quiet
        (Js.Ok (WebSocketDispatch.Typed message)) Examples.registry
      = (Js.Ok tt, s') /\
      map fst (WebSocketDispatch.invoked s') = [2; 1]) /\
  (exists s',
      WebSocketDispatch.onmessage Examples.once
        (Js.Ok (WebSocketDispatch.Typed message)) Examples.registry
      = (Js.Ok tt, s') /\
      map fst (WebSocketDispatch.invoked s') = [2] /\
      WebSocketDispatch.registered "audio" s' = [1]).
Proof.
  intros message.
  assert (WebSocketDispatch.registered "audio" Examples.registry = [2; 1]) as Heq
    by (vm_compute; reflexivity).
  split.
  - destruct (onmessage_dispatch Examples.quiet
                (Js.Ok (WebSocketDispatch.Typed message)) Examples.registry)
      as (_ & _ & _ & _ & Hquiet & _).
    destruct (Hquiet message (fun _ => None) eq_refl ltac:(reflexivity))
      as (s' & Hhandled & _ & Hinvoked & _).
    exists s'. split; [exact Hhandled|].
    rewrite Hinvoked. change (WebSocketService.type message) with "audio".
    rewrite Heq. reflexivity.
  - destruct (onmessage_dispatch Examples.once
                (Js.Ok (WebSocketDispatch.Typed message)) Examples.registry)
      as (_ & _ & _ & _ & _ & Hskips).
    destruct (Hskips message (fun _ => None) 2 1 [] eq_refl Heq
                ltac:(apply not_elem_of_nil) ltac:(reflexivity)
                ltac:(intros x s0 Hx; apply elem_of_nil in Hx; destruct Hx))
      as (s' & Hhandled & Hregistered & Hinvoked & _).
    exists s'. split; [exact Hhandled|].
    rewrite Hinvoked. split; [reflexivity|exact Hregistered].
Defined.

(** The ElevenLabs API rejects the key and says so in its body: the
    function forwards that body with status 200. *)
Lemma handler_responses_witness :
  exists request,
    ConversationFunction.handler
      (Examples.post "get_conversation" {["conversationId" := "c1"]})
      Examples.refused []
    = (Js.Ok {| ConversationFunction.status := 200;
                ConversationFunction.headers := ConversationFunction.json_headers;
                ConversationFunction.body :=
                  ConversationFunction.Data Examples.unauthorized |},
       [request]).
Proof.
  destruct (handler_responses
              (Examples.post "get_conversation" {["conversationId" := "c1"]})
              Examples.refused []) as [_ Hforwards].
  exact (Hforwards _ _ ltac:(discriminate) eq_refl eq_refl eq_refl eq_refl eq_refl).
Defined.

(** A launch on the stored text [null], which parses: the screen is
    the onboarding screen, but the profile in use is [null]; on a
    text that does not parse the launch state is kept. *)
Lemma launch_routing_witness :
  (exists h,
      Launch.loadUserProfile Examples.parse_null (Js.Resolves tt)
        (Launch.launch (Some "null")) = (Js.Ok tt, h) /\
      Launch.appState h = Home.onboarding /\
      Launch.userProfile h = Launch.JNull) /\
  Launch.loadUserProfile Examples.parse_null (Js.Resolves tt)
    (Launch.launch (Some "{name:"))
  = (Js.Ok tt, Launch.launch (Some "{name:")).
Proof.
  split.
  - destruct (launch_routing Examples.parse_null (Some "null") (Js.Resolves tt))
      as (h & Hload & _ & _ & _ & _ & _ & Hnull).
    exists h. split; [exact Hload|]. exact (Hnull eq_refl).
  - destruct (launch_routing Examples.parse_null (Some "{name:") (Js.Resolves tt))
      as (h & Hload & _ & _ & _ & _ & Hkept & _).
    rewrite Hload, (Hkept eq_refl). reflexivity.
Defined.
